(** * github-org-stats: organization statistics aggregation

A shallow embedding of the aggregation engine of the repository
(paginator, contributor-statistics retry, cache, statistics calculator,
[getOrganization] and the [Organization] view model), together with the
properties of its specification that were checked against it.

Conventions of the embedding:
- a JavaScript [Date] is its time value, an integer number of
  milliseconds since the epoch ([Z]); ISO strings such as [created_at]
  are represented by the time value [new Date(...)] gives them;
- [getFullYear] and [getMonth] depend on the host's time zone, so the
  calculator is stated over a [Calendar]; [utc] is the instance used
  for concrete runs;
- a promise is represented by its outcome ([Fetch]); effects on the
  cache, the progress callback and the network are threaded
  explicitly;
- an object created by [{}] and used as a dictionary is the [gmap] of
  its own properties under the members it inherits from
  [Object.prototype] ([JsObject]); a [Map] is an association list;
- [toLowerCase] and the text of a built-in function are the engine's
  ([Engine]);
- numbers are integers, in the range where the engine's arithmetic is
  exact. *)

From Stdlib Require Import ZArith Lia String Ascii List Bool DecimalString.
From stdpp Require Import base option list gmap strings fin_maps sorting.

Local Open Scope Z_scope.

(** ** Calendar *)

(** What the calculator needs of the host's calendar: the month is one of
    the twelve slots, and later instants never fall in an earlier
    (year, month). *)
Class Calendar := {
  getFullYear : Z -> Z;
  getMonth : Z -> nat
}.

Class CalendarLaws (cal : Calendar) : Prop := {
  getMonth_lt : forall t, (getMonth t < 12)%nat;
  calendar_mono : forall a b, a <= b ->
    getFullYear a < getFullYear b \/
    (getFullYear a = getFullYear b /\ (getMonth a <= getMonth b)%nat)
}.

Module UTC.

Definition ms_per_day : Z := 86400000.

(** Days since 1970-01-01 of a time value. *)
Definition days (t : Z) : Z := t / ms_per_day.

(** Months elapsed inside a 400-year era that starts on March 1st, from
    the day of the era (0 .. 146096). *)
Definition month_of_era (doe : Z) : Z :=
  let yoe := (doe - doe / 1460 + doe / 36524 - doe / 146096) / 365 in
  let doy := doe - (365 * yoe + yoe / 4 - yoe / 100) in
  let mp := (5 * doy + 2) / 153 in
  12 * yoe + mp.

(** Months elapsed since January of year 0 (proleptic Gregorian). *)
Definition month_index (t : Z) : Z :=
  let z := days t + 719468 in
  let era := z / 146097 in
  let doe := z mod 146097 in
  4800 * era + month_of_era doe + 2.

Definition year (t : Z) : Z := month_index t / 12.
Definition month (t : Z) : nat := Z.to_nat (month_index t mod 12).

(** [f] is nondecreasing on [i], [i+1], ..., [i+n], given [prev = f (i-1)]. *)
Fixpoint nondecreasing_from (f : Z -> Z) (prev i : Z) (n : nat) : bool :=
  match n with
  | O => true
  | S n' => let v := f i in (prev <=? v) && nondecreasing_from f v (i + 1) n'
  end.

End UTC.

(** The calendar of a host whose time zone is UTC. *)
Definition utc : Calendar :=
  {| getFullYear := UTC.year; getMonth := UTC.month |}.

(** ** JavaScript strings *)

Module JsString.

(** [s.includes(needle)] *)
Fixpoint includes (needle s : string) : bool :=
  String.prefix needle s ||
  match s with
  | EmptyString => false
  | String _ s' => includes needle s'
  end.

(** [s.split(sep)] for a separator of one character. *)
Fixpoint split (sep : ascii) (s : string) : list string :=
  match s with
  | EmptyString => [EmptyString]
  | String c s' =>
      if Ascii.eqb c sep then EmptyString :: split sep s'
      else match split sep s' with
           | seg :: rest => String c seg :: rest
           | [] => [String c EmptyString]
           end
  end.

Definition lower_ascii (c : ascii) : ascii :=
  let n := nat_of_ascii c in
  if ((65 <=? n) && (n <=? 90))%nat then ascii_of_nat (n + 32) else c.

(** What [s.toLowerCase()] gives for a string of ASCII characters. *)
Fixpoint asciiLowerCase (s : string) : string :=
  match s with
  | EmptyString => EmptyString
  | String c s' => String (lower_ascii c) (asciiLowerCase s')
  end.

(** Whether every character of [s] is an ASCII character. *)
Fixpoint isAscii (s : string) : bool :=
  match s with
  | EmptyString => true
  | String c s' => (nat_of_ascii c <? 128)%nat && isAscii s'
  end.

(** Truthiness of a possibly missing string: missing and empty are falsy. *)
Definition truthy (o : option string) : bool :=
  match o with
  | Some s => negb (String.eqb s EmptyString)
  | None => false
  end.

(** [s.indexOf(c)] as an option: position of the first [c]. *)
Fixpoint indexOf (c : ascii) (s : string) : option nat :=
  match s with
  | EmptyString => None
  | String d s' =>
      if Ascii.eqb d c then Some O else S <$> indexOf c s'
  end.

End JsString.

(** ** The engine *)

(** Two things are the engine's and are taken as given: the case mapping of
    [String.prototype.toLowerCase], which covers every script, and the text
    that the built-in function under a key of [Object.prototype] converts
    to, which differs from one engine to another. *)
Class Engine := {
  toLowerCase : string -> string;
  nativeText : string -> string
}.

(** On a string of ASCII characters [toLowerCase] replaces the letters A to
    Z by a to z and leaves the rest. *)
Class EngineLaws (engine : Engine) : Prop := {
  toLowerCase_ascii :
    forall s, JsString.isAscii s = true -> toLowerCase s = JsString.asciiLowerCase s
}.

(** ** Objects used as dictionaries *)

Module JsObject.

(** The primitive values that the dictionaries of the program come to
    hold. *)
Inductive prim :=
  | Num (n : Z)
  | Str (s : string).

(** The own properties of an object created by [{}]. *)
Abbreviation t := (gmap string prim).

(** The keys under which [Object.prototype] holds a function. *)
Definition functionKeys : list string :=
  ["constructor"; "hasOwnProperty"; "isPrototypeOf"; "propertyIsEnumerable";
   "toLocaleString"; "toString"; "valueOf"; "__defineGetter__";
   "__defineSetter__"; "__lookupGetter__"; "__lookupSetter__"].

Definition inherits (key : string) : bool := existsb (String.eqb key) functionKeys.

(** A key that reaches nothing of [Object.prototype]. *)
Definition ordinary (key : string) : bool :=
  negb (String.eqb key "__proto__") && negb (inherits key).

(** What [o[key]] evaluates to: an own property, else the function that
    [Object.prototype] holds under the key, else [undefined]; [__proto__] is
    an accessor of [Object.prototype] and gives the prototype itself. *)
Inductive value :=
  | Undefined
  | Own (p : prim)
  | Inherited (key : string)
  | Prototype.

Definition get (o : t) (key : string) : value :=
  if String.eqb key "__proto__" then Prototype
  else match o !! key with
       | Some p => Own p
       | None => if inherits key then Inherited key else Undefined
       end.

(** [o[key] = p]: the setter of [__proto__] ignores a primitive value; any
    other key becomes an own property. *)
Definition set (o : t) (key : string) (p : prim) : t :=
  if String.eqb key "__proto__" then o else <[key := p]> o.

Definition truthy (v : value) : bool :=
  match v with
  | Undefined => false
  | Own (Num n) => negb (n =? 0)
  | Own (Str s) => negb (String.eqb s EmptyString)
  | Inherited _ => true
  | Prototype => true
  end.

(** [v || 0] *)
Definition orZero (v : value) : value :=
  if truthy v then v else Own (Num 0).

(** The decimal text of an integer. *)
Definition decimal (n : Z) : string := NilZero.string_of_int (Z.to_int n).

Section WithEngine.
  Context `{Engine}.

(** The string a value converts to under [+]. *)
Definition text (v : value) : string :=
  match v with
  | Undefined => "undefined"
  | Own (Num n) => decimal n
  | Own (Str s) => s
  | Inherited key => nativeText key
  | Prototype => "[object Object]"
  end.

(** [(v || 0) + b]: the sum of two numbers, and otherwise the
    concatenation of the two texts. *)
Definition bump (v : value) (b : prim) : prim :=
  match orZero v, b with
  | Own (Num x), Num y => Num (x + y)
  | operand, _ => Str (String.append (text operand) (text (Own b)))
  end.

End WithEngine.

End JsObject.

(** ** Records of the remote API *)

Record Issue := {
  created_at : Z;
  closed_at : option Z;
  state : string;
  pull_request : bool   (* whether pull-request metadata is present *)
}.

Record Head := { ref : option string }.

Record PullRequest := {
  pr_state : string;
  pr_head : option Head;
  pr_created_at : Z
}.

Record Week := { w : Z; c : Z }.

Record Contributor := {
  author_login : option string;   (* contributor.author?.login *)
  weeks : list Week
}.

Record Repo := {
  repo_name : string;
  stargazers_count : Z;
  fork : bool;
  repo_created_at : Z;
  repo_archived_at : option Z
}.

Record Member := { login : string }.

(** ** StatsCalculator *)

Record MonthStat := { opened : Z; closed : Z; total : Z }.

Definition zeroMonth : MonthStat := {| opened := 0; closed := 0; total := 0 |}.

Definition len {A} (l : list A) : Z := Z.of_nat (length l).

Module StatsCalculator.

Definition incOpened (s : MonthStat) : MonthStat :=
  {| opened := opened s + 1; closed := closed s; total := total s |}.

Definition incClosed (s : MonthStat) : MonthStat :=
  {| opened := opened s; closed := closed s + 1; total := total s |}.

Definition setTotal (v : Z) (s : MonthStat) : MonthStat :=
  {| opened := opened s; closed := closed s; total := v |}.

(** [for (let i = month; i < 12; i++) monthlyStats[i].total = runningTotal] *)
Definition fillTotal (month : nat) (runningTotal : Z)
    (monthlyStats : list MonthStat) : list MonthStat :=
  foldl (fun stats i => alter (setTotal runningTotal) i stats)
        monthlyStats (seq month (12 - month)).

(** Stable insertion by creation time: the order [Array.prototype.sort]
    gives with the comparator [new Date(a.created_at) - new Date(b.created_at)]. *)
Fixpoint insertByCreated (x : Issue) (l : list Issue) : list Issue :=
  match l with
  | [] => [x]
  | y :: l' =>
      if created_at x <=? created_at y then x :: y :: l'
      else y :: insertByCreated x l'
  end.

Definition sortByCreated (l : list Issue) : list Issue :=
  foldr insertByCreated [] l.

Section WithCalendar.
  Context `{Calendar}.

(** The body of [sortedIssues.forEach], on the pair of the series and
    [runningTotal]. *)
Definition processIssue (year : Z) (acc : list MonthStat * Z)
    (issue : Issue) : list MonthStat * Z :=
  let createdDate := created_at issue in
  if getFullYear createdDate <=? year then
    let acc1 :=
      if getFullYear createdDate =? year
      then (alter incOpened (getMonth createdDate) acc.1, acc.2 + 1)
      else (acc.1, acc.2 + 1) in
    let acc2 :=
      match closed_at issue with
      | Some closedDate =>
          if getFullYear closedDate =? year
          then (alter incClosed (getMonth closedDate) acc1.1, acc1.2 - 1)
          else acc1
      | None => acc1
      end in
    if getFullYear createdDate =? year
    then (fillTotal (getMonth createdDate) acc2.2 acc2.1, acc2.2)
    else acc2
  else acc.

Definition calculateMonthlyIssueStats (issues : list Issue) (year : Z)
    : list MonthStat :=
  let monthlyStats := replicate 12 zeroMonth in
  let sortedIssues :=
    sortByCreated (List.filter (fun issue => negb (pull_request issue)) issues) in
  (foldl (processIssue year) (monthlyStats, 0) sortedIssues).1.

End WithCalendar.

(** [pr.head?.ref] *)
Definition headRef (pr : PullRequest) : option string :=
  match pr_head pr with
  | Some h => ref h
  | None => None
  end.

Definition isClosed (pr : PullRequest) : bool := String.eqb (pr_state pr) "closed".

Section WithEngine.
  Context `{Engine}.

(** The key under which one closed pull request is counted. *)
Definition prType (pr : PullRequest) : string :=
  if JsString.truthy (headRef pr) then
    let r := default EmptyString (headRef pr) in
    if JsString.includes "/" r
    then toLowerCase (hd EmptyString (JsString.split "/" r))
    else "unknown"
  else "unknown".

(** [types[type] = (types[type] || 0) + 1] *)
Definition countType (types : JsObject.t) (type : string) : JsObject.t :=
  JsObject.set types type
    (JsObject.bump (JsObject.get types type) (JsObject.Num 1)).

Definition categorizePRTypes (prs : list PullRequest) : JsObject.t :=
  let closedPRs := List.filter isClosed prs in
  foldl (fun types pr => countType types (prType pr)) ∅ closedPRs.

End WithEngine.

End StatsCalculator.


(** ** Outcome of a promise *)

Inductive Fetch (A : Type) : Type :=
  | Ok (a : A)      (* fulfilled with [a] *)
  | Err.            (* rejected *)
Arguments Ok {A} a.
Arguments Err {A}.

(** ** Paginator: [getAllPages] *)

Module Paginator.

Record PageRequest := { page : Z; per_page : Z }.

(** [response.data] and [response.headers.link]. *)
Record Response (A : Type) := { data : list A; link : option string }.
Arguments data {A} _.
Arguments link {A} _.

Definition dquote : ascii := ascii_of_nat 34.

(** The text [rel="next"]. *)
Definition relNext : string :=
  String.append "rel=" (String dquote (String.append "next" (String dquote EmptyString))).

(** [linkHeader && linkHeader.includes('rel="next"')] *)
Definition hasNext (linkHeader : option string) : bool :=
  JsString.truthy linkHeader &&
  JsString.includes relNext (default EmptyString linkHeader).

Definition request (p : Z) : PageRequest := {| page := p; per_page := 100 |}.

Section Loop.
  Context {A : Type} (method : PageRequest -> Fetch (Response A)).

(** The [while (hasNextPage)] loop, entered with [hasNextPage] true.
    [fuel] bounds the number of iterations; the result is [None] when
    it runs out.  The second component lists the requests sent. *)
Fixpoint loop (fuel : nat) (allData : list A) (page : Z)
    (sent : list PageRequest) : option (Fetch (list A) * list PageRequest) :=
  match fuel with
  | O => None
  | S fuel' =>
      let req := request page in
      match method req with
      | Err => Some (Err, sent ++ [req])
      | Ok response =>
          let allData := allData ++ data response in
          if hasNext (link response)
          then loop fuel' allData (page + 1) (sent ++ [req])
          else Some (Ok allData, sent ++ [req])
      end
  end.

Definition getAllPages (fuel : nat) : option (Fetch (list A) * list PageRequest) :=
  loop fuel [] 1 [].

(** What page [p] carries ([[]] when its fetch fails). *)
Definition pageData (p : Z) : list A :=
  match method (request p) with
  | Ok response => data response
  | Err => []
  end.

(** Whether page [p] is answered with a [rel="next"] link. *)
Definition pageHasNext (p : Z) : bool :=
  match method (request p) with
  | Ok response => hasNext (link response)
  | Err => false
  end.

Definition pageOk (p : Z) : bool :=
  match method (request p) with
  | Ok _ => true
  | Err => false
  end.

(** Pages [1 .. n]. *)
Definition pages (n : nat) : list Z := map (fun k => Z.of_nat k) (seq 1 n).

End Loop.

End Paginator.

(** ** Contributor statistics with retry *)

Module Gateway.

(** [response.status] and [response.data]; [None] is a body that is not an
    array (the 202 answer carries an empty object). *)
Record StatsResponse := { status : Z; body : option (list Contributor) }.

Inductive Event :=
  | Request          (* one call of repos.getContributorsStats *)
  | Delay (ms : Z).  (* setTimeout(resolve, ms) *)

(** [Array.isArray(response.data) ? response.data : []] *)
Definition validData (r : StatsResponse) : list Contributor := default [] (body r).

(** [server k] is the outcome of the [k]-th request (from 0).  [attempt]
    counts the requests already sent.  The test [status === 202 &&
    retries > 0] is split into the match on [retries] and the test of the
    status. *)
Fixpoint getContributorStatsWithRetry (server : nat -> Fetch StatsResponse)
    (attempt : nat) (retries : nat) : list Contributor * list Event :=
  match server attempt with
  | Err => ([], [Request])
  | Ok response =>
      match retries with
      | S retries' =>
          if status response =? 202 then
            let r := getContributorStatsWithRetry server (S attempt) retries' in
            (r.1, Request :: Delay 1000 :: r.2)
          else (validData response, [Request])
      | O => (validData response, [Request])
      end
  end.

(** The call as the aggregator makes it: [retries = 3]. *)
Definition getContributorStats (server : nat -> Fetch StatsResponse)
    : list Contributor * list Event :=
  getContributorStatsWithRetry server 0 3.

Definition isRequest (e : Event) : bool :=
  match e with Request => true | Delay _ => false end.

Definition isDelay (e : Event) : bool :=
  match e with Request => false | Delay _ => true end.

Definition pending (r : Fetch StatsResponse) : Prop :=
  exists resp, r = Ok resp /\ status resp = 202 /\ body resp = None.

End Gateway.

(** ** Cache *)

Module Cache.

Definition CACHE_EXPIRATION : Z := 24 * 60 * 60 * 1000.

Section Store.
  Context {D : Type}.

Record CacheEntry := { timestamp : Z; orgName : string; data : D }.

(** The content of [localStorage] under [CACHE_KEY], read back by
    [JSON.parse]; [None] when the key is not set. *)
Definition Store := option CacheEntry.

Definition saveToCache (now : Z) (key : string) (d : D) (_ : Store) : Store :=
  Some {| timestamp := now; orgName := key; data := d |}.

Definition stale (now : Z) (key : string) (cache : CacheEntry) : bool :=
  negb (String.eqb (orgName cache) key) ||
  (CACHE_EXPIRATION <? now - timestamp cache).

Definition getFromCache (now : Z) (key : string) (store : Store)
    : option D * Store :=
  match store with
  | None => (None, None)
  | Some cache =>
      if stale now key cache then (None, None)   (* removeItem *)
      else (Some (data cache), store)
  end.

End Store.
Arguments CacheEntry : clear implicits.
Arguments Store : clear implicits.

End Cache.

(** Modelled from the spec: the [CacheManager] class behind [this.cache] is
    not among the sources.  Section 4.3 describes its [get] and [save] as the
    cache store that treats an entry as absent, and purges it, when it is
    older than the TTL or stored under another key, and whose [save]
    overwrites; this is what [getFromCache] and [saveToCache] of the revision
    with the cache inline do, and they stand for it here. *)
Module CacheManager.

Definition get {D : Type} (now : Z) (key : string) (store : Cache.Store D)
    : option D * Cache.Store D :=
  Cache.getFromCache now key store.

Definition save {D : Type} (now : Z) (key : string) (d : D) (store : Cache.Store D)
    : Cache.Store D :=
  Cache.saveToCache now key d store.

End CacheManager.

(** ** Report *)

Record ContributorEntry := { ce_login : string; ce_contributions : Z }.

(** The [contributors] field of a repository entry: a number in the reports
    of [getOrganization], a list in the first revisions of the repository. *)
Inductive ContributorsField :=
  | NumberOf (n : Z)
  | ArrayOf (l : list ContributorEntry).

Record ReportRepo := {
  name : string;
  stars : Z;
  contributors : ContributorsField;
  closedIssues : Z;
  commitCount : Z
}.

(** [contributions] is [memberStats[member.login] || 0]: a number, or what
    the dictionary gives under a key of [Object.prototype]. *)
Record ReportMember := { member : Member; contributions : JsObject.value }.

Record YearlyStats := {
  repositories_created : Z;
  repositories_archived : Z;
  commits : Z;
  issues_opened : Z;
  issues_closed : Z;
  pullRequests_opened : Z;
  pullRequests_closed : Z;
  pullRequests_types : JsObject.t
}.

Record Report := {
  repos : list ReportRepo;
  members : list ReportMember;
  yearlyStats : YearlyStats;
  monthlyIssueStats : list MonthStat
}.

(** ** Aggregator: [getOrganization] *)

Module Aggregator.

(** The [GitHubApiClient] behind [this.api] is not among the sources: each of
    its methods is given by the outcome of its promise. *)
Record Api := {
  getMembers : string -> Fetch (list Member);
  getRepos : string -> Fetch (list Repo);
  getContributorStats : string -> string -> Fetch (option (list Contributor));
  getIssues : string -> string -> Z -> Fetch (list Issue);
  getPullRequests : string -> string -> Fetch (list PullRequest)
}.

Inductive Call :=
  | CallMembers (org : string)
  | CallRepos (org : string)
  | CallContributorStats (org repo : string)
  | CallIssues (org repo : string) (sinceYear : Z)
  | CallPullRequests (org repo : string).

Record IssueStats := {
  i_opened : Z;
  i_closed : Z;
  i_monthlyStats : list MonthStat
}.

Record PRStats := { p_opened : Z; p_closed : Z; p_types : JsObject.t }.

Record RepoStats := {
  rs_name : string;
  rs_stars : Z;
  contributorStats : option (list Contributor);
  issues : IssueStats;
  pullRequests : PRStats;
  createdAt : Z;
  archivedAt : option Z
}.

Definition isClosedIssue (i : Issue) : bool := String.eqb (state i) "closed".

(** [acc[index].opened += month.opened; ...] over the entries of one
    repository's series; a missing [acc[index]] starts from zero. *)
Fixpoint mergeMonthly (acc ms : list MonthStat) : list MonthStat :=
  let add a m := {| opened := opened a + opened m;
                    closed := closed a + closed m;
                    total := total a + total m |} in
  match ms with
  | [] => acc
  | m :: ms' =>
      match acc with
      | [] => add zeroMonth m :: mergeMonthly [] ms'
      | a :: acc' => add a m :: mergeMonthly acc' ms'
      end
  end.

Section WithHost.
  Context `{Calendar} `{Engine}.

Definition inYear (year : Z) (t : Z) : bool := getFullYear t =? year.

(** [contributor.weeks.filter(...).reduce((sum, week) => sum + week.c, 0)]:
    the commits of one contributor in the weeks of [year]. *)
Definition yearCommits (year : Z) (contributor : Contributor) : Z :=
  foldl (fun sum week => sum + c week) 0
        (List.filter (fun week => inYear year (w week * 1000)) (weeks contributor)).

(** The [try] block run for one repository; [None] is the [null] of the
    [catch] block. *)
Definition repoStatsOf (api : Api) (orgName : string) (currentYear : Z)
    (repo : Repo) : option RepoStats :=
  match getContributorStats api orgName (repo_name repo),
        getIssues api orgName (repo_name repo) currentYear,
        getPullRequests api orgName (repo_name repo) with
  | Ok stats, Ok issueList, Ok prList =>
      let filteredIssues :=
        List.filter (fun item => negb (pull_request item)) issueList in
      let yearlyIssues :=
        List.filter (fun item => inYear currentYear (created_at item))
                    filteredIssues in
      let yearlyPRs :=
        List.filter (fun item => inYear currentYear (pr_created_at item))
                    prList in
      Some {| rs_name := repo_name repo;
              rs_stars := stargazers_count repo;
              contributorStats := stats;
              issues :=
                {| i_opened := len yearlyIssues;
                   i_closed := len (List.filter isClosedIssue yearlyIssues);
                   i_monthlyStats :=
                     StatsCalculator.calculateMonthlyIssueStats
                       filteredIssues currentYear |};
              pullRequests :=
                {| p_opened := len yearlyPRs;
                   p_closed := len (List.filter StatsCalculator.isClosed yearlyPRs);
                   p_types := StatsCalculator.categorizePRTypes yearlyPRs |};
              createdAt := repo_created_at repo;
              archivedAt := repo_archived_at repo |}
  | _, _, _ => None
  end.

(** [Object.entries(repo.pullRequests.types).forEach(([type, count]) =>
    { types[type] = (types[type] || 0) + count; })]: the entries are the
    own properties, each once; the order in which they are visited does not
    show in the result. *)
Definition mergeTypes (types repoTypes : JsObject.t) : JsObject.t :=
  foldl (fun acc entry =>
           JsObject.set acc entry.1
             (JsObject.bump (JsObject.get acc entry.1) entry.2))
        types (map_to_list repoTypes).

(** [StatsCalculator.calculateYearlyStats] *)
Definition calculateYearlyStats (repoStats : list RepoStats)
    (currentYear : Z) : YearlyStats :=
  {| repositories_created :=
       len (List.filter (fun repo => inYear currentYear (createdAt repo)) repoStats);
     repositories_archived :=
       len (List.filter
              (fun repo => match archivedAt repo with
                           | Some t => inYear currentYear t
                           | None => false
                           end) repoStats);
     commits :=
       foldl (fun sum repo =>
                sum + match contributorStats repo with
                      | Some cs =>
                          foldl (fun tot contributor =>
                                   tot + yearCommits currentYear contributor) 0 cs
                      | None => 0
                      end)
             0 repoStats;
     issues_opened := foldl (fun sum repo => sum + i_opened (issues repo)) 0 repoStats;
     issues_closed := foldl (fun sum repo => sum + i_closed (issues repo)) 0 repoStats;
     pullRequests_opened :=
       foldl (fun sum repo => sum + p_opened (pullRequests repo)) 0 repoStats;
     pullRequests_closed :=
       foldl (fun sum repo => sum + p_closed (pullRequests repo)) 0 repoStats;
     pullRequests_types :=
       foldl (fun types repo => mergeTypes types (p_types (pullRequests repo)))
             ∅ repoStats |}.

(** [memberStats[login] = (memberStats[login] || 0) + yearCommits] for the
    contributors of one repository. *)
Definition addContributor (currentYear : Z) (memberStats : JsObject.t)
    (contributor : Contributor) : JsObject.t :=
  if JsString.truthy (author_login contributor) then
    let login := default EmptyString (author_login contributor) in
    JsObject.set memberStats login
      (JsObject.bump (JsObject.get memberStats login)
                     (JsObject.Num (yearCommits currentYear contributor)))
  else memberStats.

Definition addContributors (currentYear : Z) (memberStats : JsObject.t)
    (repo : RepoStats) : JsObject.t :=
  match contributorStats repo with
  | Some cs => foldl (addContributor currentYear) memberStats cs
  | None => memberStats
  end.

Definition reportRepo (currentYear : Z) (repo : RepoStats) : ReportRepo :=
  {| name := rs_name repo;
     stars := rs_stars repo;
     contributors :=
       NumberOf (match contributorStats repo with
                 | Some cs => len cs
                 | None => 0
                 end);
     closedIssues := i_closed (issues repo);
     commitCount :=
       match contributorStats repo with
       | Some cs =>
           foldl (fun sum contributor =>
                    sum + foldl (fun weekSum week =>
                                   weekSum + (if inYear currentYear (w week * 1000)
                                              then c week else 0))
                                0 (weeks contributor))
                 0 cs
       | None => 0
       end |}.

(** [processed++; if (onProgress) onProgress(processed, totalRepos)], run
    once for each repository as it settles. *)
Definition settle (onProgress : bool) (totalRepos : Z)
    (st : Z * list (Z * Z)) (_ : nat) : Z * list (Z * Z) :=
  let processed := st.1 + 1 in
  (processed, if onProgress then st.2 ++ [(processed, totalRepos)] else st.2).

Record Outcome := {
  result : Fetch Report;
  store' : Cache.Store Report;
  progress : list (Z * Z);      (* arguments of the calls of onProgress *)
  network : list Call           (* calls made on the API client *)
}.

(** [getOrganization(orgName, onProgress)].
    - [now] is the clock when the call starts, [later] the clock when the
      report is saved;
    - [onProgress] tells whether a callback was passed;
    - [order] lists the indices of the repositories in the order in which
      their fetches settle. *)
Definition getOrganization (api : Api) (now later : Z) (order : list nat)
    (store : Cache.Store Report) (orgName : string) (onProgress : bool)
    : Outcome :=
  match CacheManager.get now orgName store with
  | (Some cachedData, store1) =>
      {| result := Ok cachedData; store' := store1;
         progress := []; network := [] |}
  | (None, store1) =>
      let currentYear := getFullYear now in
      let listing := [CallMembers orgName; CallRepos orgName] in
      match getMembers api orgName, getRepos api orgName with
      | Ok memberList, Ok allRepos =>
          let ownRepos := List.filter (fun repo => negb (fork repo)) allRepos in
          let totalRepos := len ownRepos in
          let settled := map (repoStatsOf api orgName currentYear) ownRepos in
          let repoStats := omap id settled in
          let memberStats := foldl (addContributors currentYear) ∅ repoStats in
          let enhancedMembers :=
            map (fun m => {| member := m;
                             contributions :=
                               JsObject.orZero (JsObject.get memberStats (login m)) |})
                memberList in
          let report :=
            {| repos := map (reportRepo currentYear) repoStats;
               members := enhancedMembers;
               yearlyStats := calculateYearlyStats repoStats currentYear;
               monthlyIssueStats :=
                 foldl (fun acc repo => mergeMonthly acc (i_monthlyStats (issues repo)))
                       (replicate 12 zeroMonth) repoStats |} in
          {| result := Ok report;
             store' := CacheManager.save later orgName report store1;
             progress := (foldl (settle onProgress totalRepos) (0, []) order).2;
             network :=
               listing ++
               flat_map (fun repo =>
                           [CallContributorStats orgName (repo_name repo);
                            CallIssues orgName (repo_name repo) currentYear;
                            CallPullRequests orgName (repo_name repo)])
                        ownRepos |}
      | _, _ =>
          {| result := Err; store' := store1; progress := []; network := listing |}
      end
  end.

End WithHost.

(** The date-range revision of [getOrganization]: how one repository's
    issues are filtered and counted. *)
Module DateRange.

Definition inRange (fromDate toDate t : Z) : bool :=
  (fromDate <=? t) && (t <=? toDate).

Definition filteredIssues (issueList : list Issue) (fromDate toDate : Z)
    : list Issue :=
  List.filter (fun item => inRange fromDate toDate (created_at item))
              (List.filter (fun item => negb (pull_request item)) issueList).

(** The issues behind [issues.opened]. *)
Definition countedOpened (issueList : list Issue) (fromDate toDate : Z)
    : list Issue :=
  filteredIssues issueList fromDate toDate.

(** The issues behind [issues.closed]. *)
Definition countedClosed (issueList : list Issue) (fromDate toDate : Z)
    : list Issue :=
  List.filter isClosedIssue (filteredIssues issueList fromDate toDate).

Definition issuesOpened (issueList : list Issue) (fromDate toDate : Z) : Z :=
  len (countedOpened issueList fromDate toDate).

Definition issuesClosed (issueList : list Issue) (fromDate toDate : Z) : Z :=
  len (countedClosed issueList fromDate toDate).

End DateRange.

End Aggregator.

(** ** View model: [Organization] *)

Module Organization.

Record t := {
  org_name : string;
  org_repos : list ReportRepo;
  org_members : list ReportMember;
  org_yearlyStats : YearlyStats
}.

(** [new Organization(name, orgData.repos, orgData.members, orgData.yearlyStats)] *)
Definition ofReport (orgName : string) (r : Report) : t :=
  {| org_name := orgName; org_repos := repos r; org_members := members r;
     org_yearlyStats := yearlyStats r |}.

(** A [Map] from login to number, in insertion order. *)
Definition JsMap := list (string * Z).

Fixpoint mapSet (k : string) (v : Z) (m : JsMap) : JsMap :=
  match m with
  | [] => [(k, v)]
  | (k', v') :: m' =>
      if String.eqb k' k then (k', v) :: m' else (k', v') :: mapSet k v m'
  end.

Fixpoint mapGet (k : string) (m : JsMap) : option Z :=
  match m with
  | [] => None
  | (k', v') :: m' => if String.eqb k' k then Some v' else mapGet k m'
  end.

(** Stable insertion for [sort(([, a], [, b]) => b - a)]. *)
Fixpoint insertDesc (x : string * Z) (l : JsMap) : JsMap :=
  match l with
  | [] => [x]
  | y :: l' => if y.2 <=? x.2 then x :: y :: l' else y :: insertDesc x l'
  end.

Definition sortDesc (l : JsMap) : JsMap := foldr insertDesc [] l.

(** The callback of [repo.contributors.forEach]. *)
Definition addContribution (memberStats : JsMap) (contributor : ContributorEntry)
    : JsMap :=
  match mapGet (ce_login contributor) memberStats with
  | Some current =>
      mapSet (ce_login contributor) (current + ce_contributions contributor)
             memberStats
  | None => memberStats
  end.

(** The callback of [this.repos.forEach]. *)
Definition addRepo (memberStats : JsMap) (repo : ReportRepo) : JsMap :=
  match contributors repo with
  | ArrayOf l => foldl addContribution memberStats l
  | NumberOf _ => memberStats    (* Array.isArray fails *)
  end.

Definition getMostActiveMembers (o : t) (limit : nat) : list ContributorEntry :=
  let memberStats0 :=
    foldl (fun ms m => mapSet (login (member m)) 0 ms) [] (org_members o) in
  let memberStats := foldl addRepo memberStats0 (org_repos o) in
  map (fun e => {| ce_login := e.1; ce_contributions := e.2 |})
      (take limit (sortDesc memberStats)).

Definition getTotalStars (o : t) : Z :=
  foldl (fun sum repo => sum + stars repo) 0 (org_repos o).

End Organization.

(** ** The specification's wording, for comparison with the code *)

Module SpecWords.

(** "lower-cased", for the letters of the ASCII alphabet. *)
Definition upperLetters : string := "ABCDEFGHIJKLMNOPQRSTUVWXYZ".
Definition lowerLetters : string := "abcdefghijklmnopqrstuvwxyz".

Definition lowerLetter (ch : ascii) : ascii :=
  match JsString.indexOf ch upperLetters with
  | Some i => default ch (String.get i lowerLetters)
  | None => ch
  end.

Fixpoint lowerCased (s : string) : string :=
  match s with
  | EmptyString => EmptyString
  | String ch s' => String (lowerLetter ch) (lowerCased s')
  end.

(** "type = branchRef substring before the first [/], lower-cased, or
    [unknown] when no separator or no branch metadata is present"; the
    lower-casing is the engine's. *)
Definition prType `{Engine} (pr : PullRequest) : string :=
  match StatsCalculator.headRef pr with
  | None => "unknown"
  | Some branchRef =>
      match JsString.indexOf "/" branchRef with
      | Some i => toLowerCase (substring 0 i branchRef)
      | None => "unknown"
      end
  end.

(** How many closed pull requests of [prs] have type [t]. *)
Definition closedOfType `{Engine} (prs : list PullRequest) (t : string) : Z :=
  len (List.filter
         (fun pr => String.eqb (pr_state pr) "closed" && String.eqb (prType pr) t)
         prs).

End SpecWords.

(** [n] times the digit 1. *)
Definition ones (n : nat) : string :=
  Nat.iter n (fun s => String.append s "1") EmptyString.

(** What [categorizePRTypes] comes to hold under a type after [n] closed
    pull requests of that type: nothing under [__proto__], a string under a
    key that [Object.prototype] holds a function for, the count under any
    other. *)
Definition tally `{Engine} (type : string) (n : nat) : option JsObject.prim :=
  match n with
  | O => None
  | S _ =>
      if String.eqb type "__proto__" then None
      else if JsObject.inherits type
           then Some (JsObject.Str (String.append (nativeText type) (ones n)))
           else Some (JsObject.Num (Z.of_nat n))
  end.

(** A closed pull request on a branch. *)
Definition closedOn (branchRef : string) : PullRequest :=
  {| pr_state := "closed"; pr_head := Some {| ref := Some branchRef |};
     pr_created_at := 0 |}.

(** Events of a call that is answered "pending" [k] times before its last
    request. *)
Definition retryEvents (k : nat) : list Gateway.Event :=
  Nat.iter k (fun evs => Gateway.Request :: Gateway.Delay 1000 :: evs)
           [Gateway.Request].

(** The stop rule as the specification words it: the loop ends at a page
    "when the server signals no further page or when pages return empty". *)
Definition claimedLastPage {A} (method : Paginator.PageRequest -> Fetch (Paginator.Response A))
    (p : Z) : bool :=
  negb (Paginator.pageHasNext method p) ||
  match Paginator.pageData method p with [] => true | _ => false end.

(** ** Counting issues by month, for the statements about the series *)

Module Monthly.

(** The entry of month [m] (0 is January). *)
Definition slot (series : list MonthStat) (m : nat) : MonthStat :=
  default zeroMonth (series !! m).

(** The series and [runningTotal] before the first issue. *)
Definition seriesStart : list MonthStat * Z := (replicate 12 zeroMonth, 0).

(** 1 for [true], 0 for [false]. *)
Definition bump (b : bool) : Z := if b then 1 else 0.

(** The order in which [sortedIssues] lists the issues. *)
Definition createdLe (a b : Issue) : Prop := created_at a <= created_at b.

(** The issues [calculateMonthlyIssueStats] keeps: those without
    pull-request metadata. *)
Definition plainIssues (issues : list Issue) : list Issue :=
  List.filter (fun issue => negb (pull_request issue)) issues.

Section WithCalendar.
Context `{Calendar}.

(** Created in [year] or before. *)
Definition known (year : Z) (i : Issue) : bool :=
  getFullYear (created_at i) <=? year.

(** Created before [year]. *)
Definition backlog (year : Z) (i : Issue) : bool :=
  getFullYear (created_at i) <? year.

(** Created in month [m] of [year]. *)
Definition createdIn (year : Z) (m : nat) (i : Issue) : bool :=
  (getFullYear (created_at i) =? year) && (getMonth (created_at i) =? m)%nat.

(** Created in [year], in month [m] or an earlier month. *)
Definition createdUpTo (year : Z) (m : nat) (i : Issue) : bool :=
  (getFullYear (created_at i) =? year) && (getMonth (created_at i) <=? m)%nat.

(** Created before the end of month [m] of [year], earlier years included. *)
Definition seenBy (year : Z) (m : nat) (i : Issue) : bool :=
  backlog year i || createdUpTo year m i.

(** Closed at some time in [year]. *)
Definition closedInYear (year : Z) (i : Issue) : bool :=
  match closed_at i with
  | Some t => getFullYear t =? year
  | None => false
  end.

(** Closed in month [m] of [year]. *)
Definition closedIn (year : Z) (m : nat) (i : Issue) : bool :=
  match closed_at i with
  | Some t => (getFullYear t =? year) && (getMonth t =? m)%nat
  | None => false
  end.

(** The issues created before the end of month [m], less those of them that
    are closed at any time in [year]. *)
Definition runningAfter (issues : list Issue) (year : Z) (m : nat) : Z :=
  len (List.filter (seenBy year m) (plainIssues issues)) -
  len (List.filter (fun i => seenBy year m i && closedInYear year i)
                   (plainIssues issues)).

(** No issue dates from before [year]. *)
Definition noBacklog (issues : list Issue) (year : Z) : Prop :=
  Forall (fun i => backlog year i = false) (plainIssues issues).

(** Every issue of [year] that is closed in [year] is closed in the month
    in which it was created. *)
Definition closedInCreationMonth (issues : list Issue) (year : Z) : Prop :=
  Forall (fun i => getFullYear (created_at i) = year ->
                   forall t, closed_at i = Some t -> getFullYear t = year ->
                             getMonth t = getMonth (created_at i))
         (plainIssues issues).

End WithCalendar.

End Monthly.

(** ** Sums and selections, for the statements about reports *)

Module Totals.

(** The sum of [f] over a list. *)
Definition sumOf {A} (f : A -> Z) (l : list A) : Z :=
  foldr (fun x acc => f x + acc) 0 l.

(** Whether the three fetches made for a repository all succeed. *)
Definition settles (api : Aggregator.Api) (orgName : string) (sinceYear : Z)
    (repo : Repo) : bool :=
  match Aggregator.getContributorStats api orgName (repo_name repo),
        Aggregator.getIssues api orgName (repo_name repo) sinceYear,
        Aggregator.getPullRequests api orgName (repo_name repo) with
  | Ok _, Ok _, Ok _ => true
  | _, _, _ => false
  end.

(** The repositories that are not forks. *)
Definition ownRepos (allRepos : list Repo) : list Repo :=
  List.filter (fun repo => negb (fork repo)) allRepos.

(** The contributor entries of all the repositories of a run. *)
Definition allContributors (repoStats : list Aggregator.RepoStats) : list Contributor :=
  flat_map (fun repo => default [] (Aggregator.contributorStats repo)) repoStats.

(** Whether a contributor entry carries the (non-empty) login [l]. *)
Definition authoredBy (l : string) (contributor : Contributor) : bool :=
  JsString.truthy (author_login contributor) &&
  String.eqb (default EmptyString (author_login contributor)) l.

Section WithHost.
Context `{Calendar} `{Engine}.

(** The per-repository results that [Promise.all(...).then(filter(Boolean))]
    leaves. *)
Definition collected (api : Aggregator.Api) (orgName : string) (year : Z)
    (allRepos : list Repo) : list Aggregator.RepoStats :=
  omap id (map (Aggregator.repoStatsOf api orgName year) (ownRepos allRepos)).

(** The commits that a contributor entry records for the weeks that start
    in [year]. *)
Definition commitsInYear (year : Z) (contributor : Contributor) : Z :=
  sumOf (fun week => if getFullYear (1000 * w week) =? year then c week else 0)
        (weeks contributor).

(** The commits of [year] that the contributor entries with login [l] hold. *)
Definition commitsOf (year : Z) (l : string)
    (repoStats : list Aggregator.RepoStats) : Z :=
  sumOf (commitsInYear year)
        (List.filter (authoredBy l) (allContributors repoStats)).

End WithHost.

End Totals.

(** The sum of the counts of a histogram; an entry that is not a number
    counts for nothing. *)
Definition countOf (p : JsObject.prim) : Z :=
  match p with
  | JsObject.Num n => n
  | JsObject.Str _ => 0
  end.

Definition histogramTotal (types : JsObject.t) : Z :=
  map_fold (fun _ p acc => countOf p + acc) 0 types.

(** The number a dictionary holds under a key, 0 when it holds none. *)
Definition numberAt (o : JsObject.t) (key : string) : Z :=
  match o !! key with
  | Some p => countOf p
  | None => 0
  end.

(** Whether a dictionary holds no string under a key. *)
Definition noTextAt (o : JsObject.t) (key : string) : bool :=
  match o !! key with
  | Some (JsObject.Str _) => false
  | _ => true
  end.

(** How many closed pull requests of a list are counted under a type. *)
Definition typeCount `{Engine} (prs : list PullRequest) (type : string) : nat :=
  length (List.filter (fun pr => StatsCalculator.isClosed pr &&
                                 String.eqb (StatsCalculator.prType pr) type) prs).

(** Whether every closed pull request of a list has a type that reaches
    nothing of [Object.prototype]. *)
Definition ordinaryTypes `{Engine} (prs : list PullRequest) : bool :=
  forallb (fun pr => negb (StatsCalculator.isClosed pr) ||
                     JsObject.ordinary (StatsCalculator.prType pr)) prs.

(** ** View model: the ranking queries on repositories *)

Module Ranking.

(** Stable insertion for [sort((a, b) => key(b) - key(a))]. *)
Fixpoint insertDescBy {A} (key : A -> Z) (x : A) (l : list A) : list A :=
  match l with
  | [] => [x]
  | y :: l' => if key y <=? key x then x :: y :: l' else y :: insertDescBy key x l'
  end.

Definition sortDescBy {A} (key : A -> Z) (l : list A) : list A :=
  foldr (insertDescBy key) [] l.

(** [getMostPopularRepos(limit)]: name and stars of the first [limit]
    repositories by stars. *)
Definition getMostPopularRepos (o : Organization.t) (limit : nat)
    : list (string * Z) :=
  map (fun repo => (name repo, stars repo))
      (take limit (sortDescBy stars (Organization.org_repos o))).

(** [getMostActiveRepos(limit)].  The repository entries of a report carry no
    [fork] field, so [!repo.fork] keeps each of them; [commitCount || 0] is
    [commitCount] for a number. *)
Definition getMostActiveRepos (o : Organization.t) (limit : nat)
    : list (string * Z) :=
  map (fun repo => (name repo, commitCount repo))
      (take limit
         (sortDescBy commitCount
            (List.filter (fun _ => true) (Organization.org_repos o)))).

(** The contributor entries that [getMostActiveMembers] visits: those of the
    repositories whose [contributors] is an array. *)
Definition entriesOf (repoList : list ReportRepo) : list ContributorEntry :=
  flat_map (fun repo => match contributors repo with
                        | ArrayOf l => l
                        | NumberOf _ => []
                        end) repoList.

(** The contributions that the visited entries hold for a login. *)
Definition contributionsOf (l : string) (repoList : list ReportRepo) : Z :=
  Totals.sumOf ce_contributions
    (List.filter (fun e => String.eqb (ce_login e) l) (entriesOf repoList)).

(** Non-increasing in the second component. *)
Definition descending (l : list (string * Z)) : Prop :=
  StronglySorted (fun a b => b.2 <= a.2) l.

End Ranking.

(** ** The revision with the requests inline: [getRepositories] and
    [getMemberContributions] *)

Module Inline.

(** Outcome of [Promise.all] on two promises, each of which may stay
    pending ([None]): rejected as soon as one is, fulfilled when both are. *)
Definition both {A B} (a : option (Fetch A)) (b : option (Fetch B))
    : option (Fetch (A * B)) :=
  match a, b with
  | Some Err, _ => Some Err
  | _, Some Err => Some Err
  | Some (Ok x), Some (Ok y) => Some (Ok (x, y))
  | _, _ => None
  end.

(** The endpoints of the REST client that the two functions call. *)
Record Client := {
  listForOrg : string -> Paginator.PageRequest -> Fetch (Paginator.Response Repo);
  listContributors :
    string -> string -> Paginator.PageRequest ->
    Fetch (Paginator.Response ContributorEntry);
  listCommits :
    string -> string -> Z -> Paginator.PageRequest ->
    Fetch (Paginator.Response string);
  getContributorsStats : string -> string -> Fetch (option (list Contributor))
}.

(** The requests sent to the client. *)
Inductive Call :=
  | ListForOrg (org : string) (req : Paginator.PageRequest)
  | ListContributors (owner repo : string) (req : Paginator.PageRequest)
  | ListCommits (owner repo : string) (sinceYear : Z) (req : Paginator.PageRequest).

(** [getContributors]: all pages, or [[]] when the pagination fails; with
    the requests it sent. *)
Definition getContributors (client : Client) (fuel : nat) (owner repo : string)
    : option (Fetch (list ContributorEntry) * list Call) :=
  match Paginator.getAllPages (listContributors client owner repo) fuel with
  | Some (Ok l, sent) => Some (Ok l, map (ListContributors owner repo) sent)
  | Some (Err, sent) => Some (Ok [], map (ListContributors owner repo) sent)
  | None => None
  end.

(** [getCommits]: the number of commits on all pages, or 0 when the
    pagination fails; with the requests it sent. *)
Definition getCommits (client : Client) (fuel : nat) (owner repo : string)
    (sinceYear : Z) : option (Fetch Z * list Call) :=
  match Paginator.getAllPages (listCommits client owner repo sinceYear) fuel with
  | Some (Ok l, sent) => Some (Ok (len l), map (ListCommits owner repo sinceYear) sent)
  | Some (Err, sent) => Some (Ok 0, map (ListCommits owner repo sinceYear) sent)
  | None => None
  end.

(** An entry of the list [getRepositories] returns; [re_commitCount] is
    missing in the entries pushed by the [catch] block. *)
Record RepoEntry := {
  re_name : string;
  re_stars : Z;
  re_contributors : list ContributorEntry;
  re_commitCount : option Z
}.

(** What a run of [getRepositories] leaves: the promise's outcome, the calls
    of [onProgress] and the requests sent. *)
Record Run := {
  outcome : Fetch (list RepoEntry);
  progressCalls : list (Z * Z);
  requests : list Call
}.

(** The [for (const repo of allRepos)] loop, on the list pushed so far, the
    counter [processed], the calls of [onProgress] and the requests sent;
    [None] when a request stays pending.  The two paginations of a
    repository run concurrently: their requests are listed one pagination
    after the other. *)
Fixpoint visit (client : Client) (fuel : nat) (orgName : string) (sinceYear : Z)
    (onProgress : bool) (total : Z) (todo : list Repo)
    (ownRepos : list RepoEntry) (processed : Z) (log : list (Z * Z))
    (sent : list Call)
    : option (list RepoEntry * list (Z * Z) * list Call) :=
  match todo with
  | [] => Some (ownRepos, log, sent)
  | repo :: todo' =>
      let contributors := getContributors client fuel orgName (repo_name repo) in
      let commits := getCommits client fuel orgName (repo_name repo) sinceYear in
      match both (fst <$> contributors) (fst <$> commits) with
      | None => None
      | Some settled =>
          let ownRepos' :=
            match settled with
            | Ok (contributors, yearlyCommits) =>
                if negb (fork repo)
                then ownRepos ++ [ {| re_name := repo_name repo;
                                      re_stars := stargazers_count repo;
                                      re_contributors := contributors;
                                      re_commitCount := Some yearlyCommits |} ]
                else ownRepos
            | Err =>
                ownRepos ++ [ {| re_name := repo_name repo;
                                 re_stars := stargazers_count repo;
                                 re_contributors := [];
                                 re_commitCount := None |} ]
            end in
          let processed' := processed + 1 in
          let log' := if onProgress then log ++ [(processed', total)] else log in
          visit client fuel orgName sinceYear onProgress total todo'
                ownRepos' processed' log'
                (sent ++ default [] (snd <$> contributors)
                      ++ default [] (snd <$> commits))
      end
  end.

(** [getRepositories(orgName, onProgress)]; the listing loop is the loop of
    [getAllPages], written out in the source. *)
Definition getRepositories (client : Client) (fuel : nat) (orgName : string)
    (sinceYear : Z) (onProgress : bool) : option Run :=
  match Paginator.getAllPages (listForOrg client orgName) fuel with
  | None => None
  | Some (Err, sent) =>
      Some {| outcome := Err; progressCalls := [];
              requests := map (ListForOrg orgName) sent |}
  | Some (Ok allRepos, sent) =>
      match visit client fuel orgName sinceYear onProgress (len allRepos)
                  allRepos [] 0 [] (map (ListForOrg orgName) sent) with
      | Some (ownRepos, log, sent') =>
          Some {| outcome := Ok ownRepos; progressCalls := log; requests := sent' |}
      | None => None
      end
  end.

Section WithHost.
Context `{Calendar} `{Engine}.

(** The body of one task of a batch: the statistics of one repository added
    to [memberStats], or nothing when the request fails or carries no
    array. *)
Definition addStats (year : Z) (memberStats : JsObject.t)
    (answer : Fetch (option (list Contributor))) : JsObject.t :=
  match answer with
  | Ok (Some stats) =>
      foldl (fun ms contributor =>
               if JsString.truthy (author_login contributor) then
                 let login := default EmptyString (author_login contributor) in
                 JsObject.set ms login
                   (JsObject.bump (JsObject.get ms login)
                      (JsObject.Num (Aggregator.yearCommits year contributor)))
               else ms)
            memberStats stats
  | _ => memberStats
  end.

(** The [for (let i = 0; i < repos.length; i += batchSize)] loop on what is
    left of [repos].  [settleOrder] gives the order in which the tasks of a
    batch settle; the second component counts the delays. *)
Fixpoint runBatches (rounds : nat) (client : Client) (year : Z)
    (settleOrder : list Repo -> list Repo) (owner : string)
    (rest : list Repo) (memberStats : JsObject.t) (delays : list Z)
    : JsObject.t * list Z :=
  match rounds with
  | O => (memberStats, delays)
  | S rounds' =>
      match rest with
      | [] => (memberStats, delays)
      | _ :: _ =>
          let batch := take 5 rest in
          let memberStats' :=
            foldl (fun ms repo =>
                     addStats year ms (getContributorsStats client owner (repo_name repo)))
                  memberStats (settleOrder batch) in
          let delays' :=
            match drop 5 rest with
            | [] => delays
            | _ :: _ => delays ++ [1000]
            end in
          runBatches rounds' client year settleOrder owner (drop 5 rest)
                     memberStats' delays'
      end
  end.

Definition getMemberContributions (client : Client) (now : Z)
    (settleOrder : list Repo -> list Repo) (owner : string) (repos : list Repo)
    : JsObject.t * list Z :=
  runBatches (length repos) client (getFullYear now) settleOrder owner repos ∅ [].

End WithHost.

(** The statistics that the repositories of a list answer with. *)
Definition answered (client : Client) (owner : string) (repos : list Repo)
    : list Contributor :=
  flat_map (fun repo =>
              match getContributorsStats client owner (repo_name repo) with
              | Ok (Some stats) => stats
              | _ => []
              end) repos.

End Inline.

(** The requests that the pagination of a listing sends ([[]] while it does
    not return). *)
Definition sentBy {A} (method : Paginator.PageRequest -> Fetch (Paginator.Response A))
    (fuel : nat) : list Paginator.PageRequest :=
  match Paginator.getAllPages method fuel with
  | Some (_, sent) => sent
  | None => []
  end.

(** What [getRepositories] pushes for a repository whose two paginations
    return: the pages of contributors or [[]], the number of commits or 0. *)
Definition entryOf (client : Inline.Client) (fuel : nat) (orgName : string)
    (sinceYear : Z) (repo : Repo) : Inline.RepoEntry :=
  {| Inline.re_name := repo_name repo;
     Inline.re_stars := stargazers_count repo;
     Inline.re_contributors :=
       match Paginator.getAllPages
               (Inline.listContributors client orgName (repo_name repo)) fuel with
       | Some (Ok l, _) => l
       | _ => []
       end;
     Inline.re_commitCount :=
       Some match Paginator.getAllPages
                    (Inline.listCommits client orgName (repo_name repo) sinceYear)
                    fuel with
            | Some (Ok l, _) => len l
            | _ => 0
            end |}.

(** The requests that [getRepositories] sends for one listed repository. *)
Definition requestsFor (client : Inline.Client) (fuel : nat) (orgName : string)
    (sinceYear : Z) (repo : Repo) : list Inline.Call :=
  map (Inline.ListContributors orgName (repo_name repo))
      (sentBy (Inline.listContributors client orgName (repo_name repo)) fuel) ++
  map (Inline.ListCommits orgName (repo_name repo) sinceYear)
      (sentBy (Inline.listCommits client orgName (repo_name repo) sinceYear) fuel).

(** ** Sample data *)

Module Sample.

(** The engine of the sample runs, whose strings are all ASCII: it
    lower-cases the letters A to Z, and prints a built-in function the way
    V8 does. *)
Definition engine : Engine :=
  {| toLowerCase := JsString.asciiLowerCase;
     nativeText := fun key =>
       String.append "function "
         (String.append (if String.eqb key "constructor" then "Object" else key)
                        "() { [native code] }") |}.

(** 2024-06-10T06:13:20Z *)
Definition now : Z := 1718000000000.

(** 2024-02-10T00:00:00Z and 2024-04-10T00:00:00Z *)
Definition feb10 : Z := 1707523200000.
Definition apr10 : Z := 1712707200000.

(** 2023-11-14T22:13:20Z *)
Definition nov2023 : Z := 1700000000000.

Definition repoNamed (n : string) (isFork : bool) : Repo :=
  {| repo_name := n; stargazers_count := 3; fork := isFork;
     repo_created_at := nov2023; repo_archived_at := None |}.

Definition alice : Contributor :=
  {| author_login := Some "alice";
     weeks := [ {| w := 1707523200; c := 5 |}; {| w := 1700000000; c := 2 |} ] |}.

Definition issueAt (created : Z) (closedAt : option Z) : Issue :=
  {| created_at := created; closed_at := closedAt;
     state := match closedAt with Some _ => "closed" | None => "open" end;
     pull_request := false |}.

(** An organization with one member and the repositories [a], [b] and the
    fork [f]; the issues of [a] cannot be fetched. *)
Definition api : Aggregator.Api :=
  {| Aggregator.getMembers := fun _ => Ok [ {| login := "alice" |} ];
     Aggregator.getRepos := fun _ =>
       Ok [repoNamed "a" false; repoNamed "f" true; repoNamed "b" false];
     Aggregator.getContributorStats := fun _ _ => Ok (Some [alice]);
     Aggregator.getIssues := fun _ repo _ =>
       if String.eqb repo "a" then Err
       else Ok [issueAt feb10 (Some apr10)];
     Aggregator.getPullRequests := fun _ _ => Ok [] |}.

Definition run : Aggregator.Outcome :=
  @Aggregator.getOrganization utc engine api now now [1%nat; 0%nat] None "acme" true.

(** A server whose first page is empty but linked to a second page. *)
Definition emptyFirstPage (req : Paginator.PageRequest)
    : Fetch (Paginator.Response Z) :=
  if Paginator.page req =? 1 then
    Ok {| Paginator.data := [];
          Paginator.link := Some (String.append "<https://api.github.com/x?page=2>; "
                                                Paginator.relNext) |}
  else Ok {| Paginator.data := [7]; Paginator.link := None |}.

(** Three linked pages. *)
Definition threePages (req : Paginator.PageRequest)
    : Fetch (Paginator.Response Z) :=
  if Paginator.page req <? 3 then
    Ok {| Paginator.data := [Paginator.page req; 10 * Paginator.page req];
          Paginator.link := Some (String.append "<https://api.github.com/x>; "
                                                Paginator.relNext) |}
  else Ok {| Paginator.data := [30]; Paginator.link := Some "<https://api.github.com/x>; rel=prev" |}.

(** A server that keeps answering 202 with an empty object. *)
Definition alwaysPending (_ : nat) : Fetch Gateway.StatsResponse :=
  Ok {| Gateway.status := 202; Gateway.body := None |}.

End Sample.

Module SampleReports.

Definition emptyYear : YearlyStats :=
  {| repositories_created := 0; repositories_archived := 0; commits := 0;
     issues_opened := 0; issues_closed := 0;
     pullRequests_opened := 0; pullRequests_closed := 0;
     pullRequests_types := ∅ |}.

(** A report with one repository and one member. *)
Definition small : Report :=
  {| repos := [ {| name := "a"; stars := 3; contributors := NumberOf 1;
                   closedIssues := 2; commitCount := 5 |} ];
     members := [ {| member := {| login := "alice" |};
                    contributions := JsObject.Own (JsObject.Num 5) |} ];
     yearlyStats := emptyYear;
     monthlyIssueStats := replicate 12 zeroMonth |}.

(** 2024-01-01T00:00:00Z and 2024-03-01T00:00:00Z *)
Definition jan1 : Z := 1704067200000.
Definition mar1 : Z := 1709251200000.

(** An issue created on February 10th and closed on April 10th, 2024. *)
Definition lateClosure : Issue := Sample.issueAt Sample.feb10 (Some Sample.apr10).

(** Two issues of 2024, each closed in the month of its creation, and one
    still open. *)
Definition tidyIssues : list Issue :=
  [ Sample.issueAt Sample.apr10 (Some (Sample.apr10 + 1000));
    Sample.issueAt Sample.feb10 (Some (Sample.feb10 + 1000));
    Sample.issueAt (Sample.feb10 + 5000) None ].

End SampleReports.

(** ** More sample data *)

Module SampleServers.

(** Page 1 linked to page 2, whose fetch fails. *)
Definition secondPageFails (req : Paginator.PageRequest)
    : Fetch (Paginator.Response Z) :=
  if Paginator.page req =? 1 then
    Ok {| Paginator.data := [1; 2];
          Paginator.link := Some (String.append "<https://api.github.com/x?page=2>; "
                                                Paginator.relNext) |}
  else Err.

(** Every page is linked to a next one. *)
Definition endless (req : Paginator.PageRequest) : Fetch (Paginator.Response Z) :=
  Ok {| Paginator.data := [Paginator.page req];
        Paginator.link := Some (String.append "<https://api.github.com/x>; "
                                              Paginator.relNext) |}.

(** Statistics that are ready at the third request. *)
Definition readyAtThird (k : nat) : Fetch Gateway.StatsResponse :=
  if (k <? 2)%nat then Ok {| Gateway.status := 202; Gateway.body := None |}
  else Ok {| Gateway.status := 200; Gateway.body := Some [Sample.alice] |}.

End SampleServers.

Module SampleOrganizations.

(** The sample organization when the listing of its repositories fails. *)
Definition noListing : Aggregator.Api :=
  {| Aggregator.getMembers := Aggregator.getMembers Sample.api;
     Aggregator.getRepos := fun _ => Err;
     Aggregator.getContributorStats := Aggregator.getContributorStats Sample.api;
     Aggregator.getIssues := Aggregator.getIssues Sample.api;
     Aggregator.getPullRequests := Aggregator.getPullRequests Sample.api |}.

(** The report of the sample run. *)
Definition report : Report :=
  match Aggregator.result Sample.run with
  | Ok r => r
  | Err => SampleReports.small
  end.

Definition lastPage {A} (items : list A) (req : Paginator.PageRequest)
    : Fetch (Paginator.Response A) :=
  Ok {| Paginator.data := items; Paginator.link := None |}.

(** A client for the organization with the repositories [a], [b] and the
    fork [f]: the contributors of [a] cannot be listed, the statistics of
    [b] cannot be fetched and those of [f] are not ready. *)
Definition client : Inline.Client :=
  {| Inline.listForOrg := fun _ =>
       lastPage [Sample.repoNamed "a" false; Sample.repoNamed "f" true;
                 Sample.repoNamed "b" false];
     Inline.listContributors := fun _ repo req =>
       if String.eqb repo "a" then Err
       else lastPage [ {| ce_login := "alice"; ce_contributions := 7 |} ] req;
     Inline.listCommits := fun _ _ _ => lastPage ["c1"; "c2"];
     Inline.getContributorsStats := fun _ repo =>
       if String.eqb repo "b" then Err
       else if String.eqb repo "f" then Ok None
       else Ok (Some [Sample.alice]) |}.

(** Seven repositories, for two batches. *)
Definition sevenRepos : list Repo :=
  map (fun n => Sample.repoNamed n false) ["a"; "b"; "c"; "d"; "e"; "f"; "g"].

End SampleOrganizations.
Lemma nondecreasing_from_spec (f : Z -> Z) (n : nat) (i : Z) :
  UTC.nondecreasing_from f (f i) (i + 1) n = true ->
  forall j, i <= j <= i + Z.of_nat n -> f i <= f j.
Proof.
  revert i. induction n as [|n IH]; intros i H j Hj.
  - assert (j = i) by lia. subst. lia.
  - cbn [UTC.nondecreasing_from] in H.
    apply andb_true_iff in H as [H1 H2]. apply Z.leb_le in H1.
    destruct (Z.eq_dec j i) as [->|Hne]; [lia|].
    specialize (IH (i + 1) H2 j). lia.
Qed.

Lemma nondecreasing_from_mono (f : Z -> Z) (n : nat) (i : Z) :
  UTC.nondecreasing_from f (f i) (i + 1) n = true ->
  forall a b, i <= a -> a <= b -> b <= i + Z.of_nat n -> f a <= f b.
Proof.
  revert i. induction n as [|n IH]; intros i H a b Ha Hab Hb.
  - assert (a = b) by lia. subst. lia.
  - destruct (Z.eq_dec a i) as [->|Hne].
    + apply (nondecreasing_from_spec f (S n) i H). lia.
    + cbn [UTC.nondecreasing_from] in H.
      apply andb_true_iff in H as [_ H2].
      apply (IH (i + 1) H2); lia.
Qed.

Lemma month_of_era_table :
  UTC.nondecreasing_from UTC.month_of_era (UTC.month_of_era 0) (0 + 1)
    (Z.to_nat 146096) = true.
Proof. vm_cast_no_check (eq_refl true). Qed.

Lemma month_of_era_mono a b :
  0 <= a -> a <= b -> b < 146097 -> UTC.month_of_era a <= UTC.month_of_era b.
Proof.
  intros Ha Hab Hb.
  apply (nondecreasing_from_mono _ _ _ month_of_era_table); lia.
Qed.

Lemma month_of_era_range d :
  0 <= d < 146097 -> 0 <= UTC.month_of_era d < 4800.
Proof.
  intros Hd.
  assert (UTC.month_of_era 0 <= UTC.month_of_era d)
    by (apply month_of_era_mono; lia).
  assert (UTC.month_of_era d <= UTC.month_of_era 146096)
    by (apply month_of_era_mono; lia).
  assert (UTC.month_of_era 0 = 0) by reflexivity.
  assert (UTC.month_of_era 146096 = 4799) by reflexivity.
  lia.
Qed.

Lemma month_index_mono a b : a <= b -> UTC.month_index a <= UTC.month_index b.
Proof.
  intros Hab. unfold UTC.month_index.
  assert (Hd : UTC.days a + 719468 <= UTC.days b + 719468).
  { unfold UTC.days, UTC.ms_per_day.
    pose proof (Z.div_le_mono a b 86400000 ltac:(lia) Hab). lia. }
  set (za := UTC.days a + 719468) in *.
  set (zb := UTC.days b + 719468) in *.
  pose proof (Z.div_le_mono za zb 146097 ltac:(lia) Hd) as He.
  pose proof (Z.mod_pos_bound za 146097 ltac:(lia)) as Hma.
  pose proof (Z.mod_pos_bound zb 146097 ltac:(lia)) as Hmb.
  pose proof (month_of_era_range _ Hma).
  pose proof (month_of_era_range _ Hmb).
  destruct (Z.eq_dec (za / 146097) (zb / 146097)) as [Heq|Hne].
  - assert (za mod 146097 <= zb mod 146097).
    { rewrite !Z.mod_eq by lia. lia. }
    pose proof (month_of_era_mono (za mod 146097) (zb mod 146097)
                  ltac:(lia) ltac:(lia) ltac:(lia)).
    lia.
  - lia.
Qed.

Lemma utc_month_lt t : (UTC.month t < 12)%nat.
Proof.
  unfold UTC.month.
  pose proof (Z.mod_pos_bound (UTC.month_index t) 12 ltac:(lia)). lia.
Qed.

Lemma utc_mono a b : a <= b ->
  UTC.year a < UTC.year b \/
  (UTC.year a = UTC.year b /\ (UTC.month a <= UTC.month b)%nat).
Proof.
  intros Hab. apply month_index_mono in Hab.
  unfold UTC.year, UTC.month.
  set (x := UTC.month_index a) in *. set (y := UTC.month_index b) in *.
  pose proof (Z.div_le_mono x y 12 ltac:(lia) Hab).
  pose proof (Z.mod_pos_bound x 12 ltac:(lia)).
  pose proof (Z.mod_pos_bound y 12 ltac:(lia)).
  destruct (Z.eq_dec (x / 12) (y / 12)) as [Heq|Hne]; [right|left; lia].
  split; [exact Heq|].
  assert (x mod 12 <= y mod 12) by (rewrite !Z.mod_eq by lia; lia).
  lia.
Qed.

#[export] Instance utc_laws : CalendarLaws utc.
Proof. split; [exact utc_month_lt | exact utc_mono]. Qed.

Example utc_epoch : UTC.year 0 = 1970 /\ UTC.month 0 = 0%nat.
Proof. split; reflexivity. Qed.

(** 2024-02-29T12:00:00Z and 2024-03-01T00:00:00Z. *)
Example utc_leap_day :
  UTC.year 1709208000000 = 2024 /\ UTC.month 1709208000000 = 1%nat /\
  UTC.month 1709251200000 = 2%nat.
Proof. repeat split; reflexivity. Qed.


(** * Properties *)

(** ** Cache store *)

Section CacheFacts.
Context {D : Type}.

Lemma stale_iff (now : Z) (key : string) (entry : Cache.CacheEntry D) :
  Cache.stale now key entry = true <->
  (Cache.CACHE_EXPIRATION < now - Cache.timestamp entry \/ Cache.orgName entry <> key).
Proof.
  unfold Cache.stale. rewrite orb_true_iff, negb_true_iff, Z.ltb_lt.
  rewrite <- not_true_iff_false, String.eqb_eq. tauto.
Qed.

Lemma getFromCache_fresh (now : Z) (key : string) (entry : Cache.CacheEntry D) :
  Cache.stale now key entry = false ->
  Cache.getFromCache now key (Some entry) = (Some (Cache.data entry), Some entry).
Proof. intros Hs. unfold Cache.getFromCache. now rewrite Hs. Qed.

Lemma getFromCache_stale (now : Z) (key : string) (entry : Cache.CacheEntry D) :
  Cache.stale now key entry = true ->
  Cache.getFromCache now key (Some entry) = (None, None).
Proof. intros Hs. unfold Cache.getFromCache. now rewrite Hs. Qed.

Lemma stale_after_save (saved now : Z) (key : string) (d : D) :
  now - saved <= Cache.CACHE_EXPIRATION ->
  Cache.stale now key
    {| Cache.timestamp := saved; Cache.orgName := key; Cache.data := d |} = false.
Proof.
  intros Hage. apply not_true_iff_false. rewrite stale_iff. cbn. intros [Hlt|Hne].
  - lia.
  - now apply Hne.
Qed.

(** C6: a read of a stored entry answers absent and empties the store exactly
    when the entry is older than the 24-hour expiration or was stored under
    another key; otherwise it answers the stored payload and leaves the
    store as it is; a save replaces whatever the store held. *)
Theorem C6_get_purges_exactly_stale_entries
    (now : Z) (key : string) (entry : Cache.CacheEntry D) (d : D)
    (store : Cache.Store D) :
  Cache.CACHE_EXPIRATION = 24 * 3600 * 1000 /\
  (Cache.getFromCache now key (Some entry) = (None, None) <->
     (Cache.CACHE_EXPIRATION < now - Cache.timestamp entry \/
      Cache.orgName entry <> key)) /\
  (Cache.getFromCache now key (Some entry) = (Some (Cache.data entry), Some entry) <->
     ~ (Cache.CACHE_EXPIRATION < now - Cache.timestamp entry \/
        Cache.orgName entry <> key)) /\
  Cache.saveToCache now key d store =
    Some {| Cache.timestamp := now; Cache.orgName := key; Cache.data := d |}.
Proof.
  split; [reflexivity|]. rewrite <- stale_iff.
  destruct (Cache.stale now key entry) eqn:Hs.
  - rewrite (getFromCache_stale _ _ _ Hs).
    repeat split; try tauto; try congruence; try discriminate.
  - rewrite (getFromCache_fresh _ _ _ Hs).
    repeat split; try tauto; try congruence; try discriminate.
Qed.

End CacheFacts.

Section CacheHit.
Context `{Calendar} `{Engine}.

(** C5: when the store holds what [save] wrote for a key and at most the
    expiration time has passed since, [getOrganization] for that key returns
    the saved report as it was written, calls nothing on the API client, never
    calls the progress callback, and leaves the store untouched. *)
Theorem C5_cache_hit_round_trip
    (api : Aggregator.Api) (saved now later : Z) (order : list nat)
    (store : Cache.Store Report) (key : string) (report : Report)
    (onProgress : bool) :
  now - saved <= Cache.CACHE_EXPIRATION ->
  let written := CacheManager.save saved key report store in
  let o := Aggregator.getOrganization api now later order written key onProgress in
  Aggregator.result o = Ok report /\
  Aggregator.network o = [] /\
  Aggregator.progress o = [] /\
  Aggregator.store' o = written.
Proof.
  intros Hage written o. subst o written.
  unfold Aggregator.getOrganization, CacheManager.get, CacheManager.save,
    Cache.saveToCache.
  rewrite getFromCache_fresh by now apply stale_after_save.
  cbn. auto.
Qed.

End CacheHit.
(** ** Pull-request categories *)

Lemma len_cons {A} (x : A) (l : list A) : len (x :: l) = len l + 1.
Proof. unfold len. cbn [length]. lia. Qed.

Lemma len_nonneg {A} (l : list A) : 0 <= len l.
Proof. unfold len. lia. Qed.

Lemma filter_andb {A} (p q : A -> bool) (l : list A) :
  List.filter q (List.filter p l) = List.filter (fun x => p x && q x) l.
Proof.
  induction l as [|x l IH]; [reflexivity|]. cbn.
  destruct (p x); cbn; [destruct (q x)|]; now rewrite IH.
Qed.

Lemma prefix_slash (d : ascii) (r : string) :
  String.prefix "/" (String d r) = Ascii.eqb d "/".
Proof.
  cbn [String.prefix]. destruct (ascii_dec "/" d) as [<-|Hne].
  - now destruct r.
  - symmetry. apply Ascii.eqb_neq. congruence.
Qed.

Lemma includes_slash (r : string) :
  JsString.includes "/" r = true <-> is_Some (JsString.indexOf "/" r).
Proof.
  induction r as [|d r IH].
  - cbn. split; [discriminate | intros [? ?]; discriminate].
  - cbn [JsString.includes JsString.indexOf]. rewrite prefix_slash.
    destruct (Ascii.eqb d "/"); cbn [orb].
    + split; eauto.
    + rewrite IH, fmap_is_Some. reflexivity.
Qed.

Lemma split_nonempty (sep : ascii) (r : string) : JsString.split sep r <> [].
Proof.
  destruct r as [|d r]; cbn; [discriminate|].
  destruct (Ascii.eqb d sep); [discriminate|].
  destruct (JsString.split sep r); discriminate.
Qed.

Lemma split_hd (r : string) (i : nat) :
  JsString.indexOf "/" r = Some i ->
  hd EmptyString (JsString.split "/" r) = substring 0 i r.
Proof.
  revert i. induction r as [|d r IH]; intros i; cbn; [discriminate|].
  destruct (Ascii.eqb d "/").
  - intros [= <-]. reflexivity.
  - destruct (JsString.indexOf "/" r) as [j|] eqn:Hj; [|discriminate].
    intros [= <-]. specialize (IH j eq_refl).
    pose proof (split_nonempty "/" r) as Hne.
    destruct (JsString.split "/" r) as [|seg rest]; [congruence|].
    cbn in *. now rewrite IH.
Qed.

(** *** Lower-casing *)

Lemma lower_ascii_lowerLetter (ch : ascii) :
  JsString.lower_ascii ch = SpecWords.lowerLetter ch.
Proof.
  destruct ch as [[] [] [] [] [] [] [] []]; vm_compute; reflexivity.
Qed.

Lemma asciiLowerCase_lowerCased (s : string) :
  JsString.asciiLowerCase s = SpecWords.lowerCased s.
Proof.
  induction s as [|ch s IH]; [reflexivity|].
  cbn [JsString.asciiLowerCase SpecWords.lowerCased].
  now rewrite IH, lower_ascii_lowerLetter.
Qed.

(** The engine of the sample runs keeps the law of [toLowerCase]. *)
#[export] Instance sample_engine_laws : EngineLaws Sample.engine.
Proof. constructor. intros s _. reflexivity. Qed.

(** *** Strings *)

Lemma append_assoc (a b d : string) :
  String.append (String.append a b) d = String.append a (String.append b d).
Proof.
  induction a as [|ch a IH]; [reflexivity|].
  change (String ch (String.append (String.append a b) d) =
          String ch (String.append a (String.append b d))).
  now rewrite IH.
Qed.

Lemma append_nonempty (a b : string) :
  b <> EmptyString -> String.append a b <> EmptyString.
Proof. destruct a; [now cbn|discriminate]. Qed.

Lemma ones_S (n : nat) : ones (S n) = String.append (ones n) "1".
Proof. reflexivity. Qed.

Lemma ones_nonempty (n : nat) : ones (S n) <> EmptyString.
Proof. rewrite ones_S. apply append_nonempty. discriminate. Qed.

(** *** Reading and writing a dictionary *)

Lemma set_lookup_eq (o : JsObject.t) (key : string) (p : JsObject.prim) :
  JsObject.set o key p !! key =
  if String.eqb key "__proto__" then o !! key else Some p.
Proof.
  unfold JsObject.set. destruct (String.eqb key "__proto__"); [reflexivity|].
  apply lookup_insert_eq.
Qed.

Lemma set_lookup_ne (o : JsObject.t) (key key' : string) (p : JsObject.prim) :
  key <> key' -> JsObject.set o key p !! key' = o !! key'.
Proof.
  intros Hne. unfold JsObject.set. destruct (String.eqb key "__proto__"); [reflexivity|].
  now apply lookup_insert_ne.
Qed.

Lemma empty_lookup (key : string) : (∅ : JsObject.t) !! key = None.
Proof. apply lookup_empty. Qed.

Lemma numberAt_empty (key : string) : numberAt ∅ key = 0.
Proof. unfold numberAt. now rewrite empty_lookup. Qed.

Lemma noTextAt_empty (key : string) : noTextAt ∅ key = true.
Proof. unfold noTextAt. now rewrite empty_lookup. Qed.

Lemma ordinary_spec (key : string) :
  JsObject.ordinary key = true ->
  String.eqb key "__proto__" = false /\ JsObject.inherits key = false.
Proof.
  unfold JsObject.ordinary. intros H%andb_true_iff. destruct H as [H1 H2].
  split; now apply negb_true_iff.
Qed.

Section PullRequestTypes.
Context {engine : Engine}.

Lemma prType_spec (pr : PullRequest) :
  StatsCalculator.prType pr = SpecWords.prType pr.
Proof.
  unfold StatsCalculator.prType, SpecWords.prType.
  destruct (StatsCalculator.headRef pr) as [r|]; cbn; [|reflexivity].
  destruct (String.eqb_spec r EmptyString) as [->|Hne]; cbn; [reflexivity|].
  destruct (JsString.indexOf "/" r) as [i|] eqn:Hi.
  - assert (Hinc : JsString.includes "/" r = true)
      by (apply includes_slash; rewrite Hi; eauto).
    rewrite Hinc. now rewrite (split_hd r i Hi).
  - destruct (JsString.includes "/" r) eqn:Hinc; [|reflexivity].
    apply includes_slash in Hinc. rewrite Hi in Hinc.
    destruct Hinc; discriminate.
Qed.

(** One more pull request of a type, on a histogram that holds [tally type n]
    under it. *)
Lemma countType_tally (types : JsObject.t) (type : string) (n : nat) :
  types !! type = tally type n ->
  StatsCalculator.countType types type !! type = tally type (S n).
Proof.
  intros Hn. unfold StatsCalculator.countType. rewrite set_lookup_eq.
  unfold JsObject.get. rewrite Hn.
  destruct (String.eqb type "__proto__") eqn:Hproto.
  { destruct n; cbn [tally]; now rewrite Hproto. }
  cbn [tally]. rewrite Hproto.
  destruct n as [|n]; cbn [tally].
  - destruct (JsObject.inherits type); reflexivity.
  - rewrite Hproto. destruct (JsObject.inherits type).
    + unfold JsObject.bump, JsObject.orZero. cbn [JsObject.truthy].
      destruct (String.eqb_spec (String.append (nativeText type) (ones (S n)))
                                EmptyString) as [He|_].
      { exfalso. revert He. apply append_nonempty, ones_nonempty. }
      cbn [negb JsObject.text]. change (JsObject.decimal 1) with "1"%string.
      f_equal. f_equal.
      rewrite (ones_S (S n)). apply append_assoc.
    + unfold JsObject.bump, JsObject.orZero. cbn [JsObject.truthy].
      destruct (Z.eqb_spec (Z.of_nat (S n)) 0) as [He|_]; [lia|].
      cbn [negb]. f_equal. f_equal. lia.
Qed.

Lemma countType_other (types : JsObject.t) (type type' : string) :
  type <> type' ->
  StatsCalculator.countType types type !! type' = types !! type'.
Proof. intros Hne. unfold StatsCalculator.countType. now apply set_lookup_ne. Qed.

Lemma foldl_countType_lookup {A} (f : A -> string) (l : list A) (t : string) :
  foldl (fun types x => StatsCalculator.countType types (f x)) ∅ l !! t =
  tally t (length (List.filter (fun x => String.eqb (f x) t) l)).
Proof.
  induction l as [|x l IH] using rev_ind; [reflexivity|].
  rewrite foldl_snoc, List.filter_app, length_app. cbn [List.filter].
  destruct (String.eqb_spec (f x) t) as [->|Hne].
  - cbn [length]. rewrite Nat.add_1_r. now apply countType_tally.
  - cbn [length]. rewrite Nat.add_0_r, countType_other by exact Hne. exact IH.
Qed.

Lemma closedOfType_length (prs : list PullRequest) (t : string) :
  SpecWords.closedOfType prs t =
  Z.of_nat (length (List.filter
                      (fun pr => String.eqb (StatsCalculator.prType pr) t)
                      (List.filter StatsCalculator.isClosed prs))).
Proof.
  unfold SpecWords.closedOfType, len. rewrite filter_andb. f_equal. f_equal.
  apply List.filter_ext. intros pr. unfold StatsCalculator.isClosed.
  now rewrite prType_spec.
Qed.

Lemma categorizePRTypes_tally (prs : list PullRequest) (t : string) :
  StatsCalculator.categorizePRTypes prs !! t =
  tally t (Z.to_nat (SpecWords.closedOfType prs t)).
Proof.
  unfold StatsCalculator.categorizePRTypes. cbn zeta.
  rewrite foldl_countType_lookup, closedOfType_length. now rewrite Nat2Z.id.
Qed.

Lemma closedOfType_nonneg (prs : list PullRequest) (t : string) :
  0 <= SpecWords.closedOfType prs t.
Proof. apply len_nonneg. Qed.

Lemma categorizePRTypes_ordinary (prs : list PullRequest) (t : string) :
  JsObject.ordinary t = true ->
  StatsCalculator.categorizePRTypes prs !! t =
    if SpecWords.closedOfType prs t =? 0 then None
    else Some (JsObject.Num (SpecWords.closedOfType prs t)).
Proof.
  intros [Hproto Hinh]%ordinary_spec. rewrite categorizePRTypes_tally.
  pose proof (closedOfType_nonneg prs t) as Hn.
  destruct (Z.eqb_spec (SpecWords.closedOfType prs t) 0) as [->|Hne]; [reflexivity|].
  destruct (Z.to_nat (SpecWords.closedOfType prs t)) as [|n] eqn:Hk; [lia|].
  cbn [tally]. rewrite Hproto, Hinh. f_equal. f_equal. lia.
Qed.

Lemma categorizePRTypes_inherited (prs : list PullRequest) (t : string) :
  JsObject.inherits t = true ->
  0 < SpecWords.closedOfType prs t ->
  StatsCalculator.categorizePRTypes prs !! t =
    Some (JsObject.Str (String.append (nativeText t)
                          (ones (Z.to_nat (SpecWords.closedOfType prs t))))).
Proof.
  intros Hinh Hpos. rewrite categorizePRTypes_tally.
  destruct (Z.to_nat (SpecWords.closedOfType prs t)) as [|n] eqn:Hk; [lia|].
  cbn [tally]. rewrite Hinh.
  destruct (String.eqb_spec t "__proto__") as [->|_]; [discriminate Hinh|reflexivity].
Qed.

Lemma categorizePRTypes_proto (prs : list PullRequest) :
  StatsCalculator.categorizePRTypes prs !! "__proto__" = None.
Proof.
  rewrite categorizePRTypes_tally.
  destruct (Z.to_nat _); reflexivity.
Qed.

End PullRequestTypes.

Section PullRequestTypesLaws.
Context {engine : Engine} {laws : EngineLaws engine}.

Lemma prType_closedOn (prefix rest : string) :
  JsString.isAscii prefix = true ->
  JsString.indexOf "/" prefix = None ->
  StatsCalculator.prType (closedOn (String.append prefix (String "/" rest))) =
  SpecWords.lowerCased prefix.
Proof.
  intros Hascii Hnone. rewrite prType_spec.
  unfold SpecWords.prType, closedOn, StatsCalculator.headRef. cbn [pr_head ref].
  assert (Hi : JsString.indexOf "/" (String.append prefix (String "/" rest)) =
               Some (String.length prefix) /\
               substring 0 (String.length prefix)
                 (String.append prefix (String "/" rest)) = prefix).
  { clear Hascii. induction prefix as [|ch prefix IH]; [split; [reflexivity|]|].
    - cbn. reflexivity.
    - cbn [JsString.indexOf] in Hnone.
      change (String.append (String ch prefix) (String "/" rest))
        with (String ch (String.append prefix (String "/" rest))).
      cbn [JsString.indexOf String.length substring].
      destruct (Ascii.eqb ch "/"); [discriminate|].
      destruct (JsString.indexOf "/" prefix) eqn:Hp; [discriminate|].
      destruct (IH eq_refl) as [-> IH2]. split; [reflexivity|].
      now rewrite IH2. }
  destruct Hi as [-> Hsub]. rewrite Hsub, toLowerCase_ascii by exact Hascii.
  apply asciiLowerCase_lowerCased.
Qed.

(** C8: [categorizePRTypes] counts the closed pull requests only, each under
    the part of its branch reference before the first [/], lower-cased, or
    under [unknown] when the reference has no [/] or is missing
    ([feature/login] and [Feature/Login] give [feature], [hotfix] and a pull
    request without branch metadata give [unknown]).  Under a type that
    reaches nothing of [Object.prototype] the result holds the number of the
    closed pull requests of that type.  It is not a mapping from type to
    count for every list, though: the dictionary is a plain object, so that
    under a type such as [constructor] it holds a string, the text of the
    inherited function followed by one digit 1 for each pull request, and the
    pull requests of type [__proto__] are not recorded at all.  A closed
    pull request on [constructor/x] gives a string under [constructor], and
    closed pull requests on [__proto__/x] and [fix/y] give the count of [fix]
    alone. *)
Theorem C8_categorizePRTypes_miscounts_inherited_types :
  (forall pr, StatsCalculator.prType pr = SpecWords.prType pr) /\
  (forall s, JsString.isAscii s = true -> toLowerCase s = SpecWords.lowerCased s) /\
  (forall st created,
     StatsCalculator.prType
       {| pr_state := st; pr_head := Some {| ref := Some "feature/login" |};
          pr_created_at := created |} = "feature" /\
     StatsCalculator.prType
       {| pr_state := st; pr_head := Some {| ref := Some "Feature/Login" |};
          pr_created_at := created |} = "feature" /\
     StatsCalculator.prType
       {| pr_state := st; pr_head := Some {| ref := Some "hotfix" |};
          pr_created_at := created |} = "unknown" /\
     StatsCalculator.prType
       {| pr_state := st; pr_head := Some {| ref := None |};
          pr_created_at := created |} = "unknown" /\
     StatsCalculator.prType
       {| pr_state := st; pr_head := None; pr_created_at := created |} = "unknown") /\
  (forall (prs : list PullRequest) (t : string),
     JsObject.ordinary t = true ->
     StatsCalculator.categorizePRTypes prs !! t =
       if SpecWords.closedOfType prs t =? 0 then None
       else Some (JsObject.Num (SpecWords.closedOfType prs t))) /\
  (forall (prs : list PullRequest) (t : string),
     JsObject.inherits t = true ->
     0 < SpecWords.closedOfType prs t ->
     StatsCalculator.categorizePRTypes prs !! t =
       Some (JsObject.Str
               (String.append (nativeText t)
                              (ones (Z.to_nat (SpecWords.closedOfType prs t)))))) /\
  (forall prs : list PullRequest,
     StatsCalculator.categorizePRTypes prs !! "__proto__" = None) /\
  StatsCalculator.categorizePRTypes [closedOn "constructor/x"] =
    {[ "constructor" := JsObject.Str (String.append (nativeText "constructor") "1") ]} /\
  StatsCalculator.categorizePRTypes [closedOn "__proto__/x"; closedOn "fix/y"] =
    {[ "fix" := JsObject.Num 1 ]}.
Proof.
  assert (Hlower : forall s, JsString.isAscii s = true ->
                             toLowerCase s = SpecWords.lowerCased s).
  { intros s Hs. rewrite toLowerCase_ascii by exact Hs.
    apply asciiLowerCase_lowerCased. }
  assert (Hconstructor :
            StatsCalculator.prType (closedOn "constructor/x") = "constructor")
    by (apply (prType_closedOn "constructor" "x"); reflexivity).
  assert (Hproto : StatsCalculator.prType (closedOn "__proto__/x") = "__proto__")
    by (apply (prType_closedOn "__proto__" "x"); reflexivity).
  assert (Hfix : StatsCalculator.prType (closedOn "fix/y") = "fix")
    by (apply (prType_closedOn "fix" "y"); reflexivity).
  split; [exact prType_spec|]. split; [exact Hlower|].
  split.
  { intros st created. repeat split.
    - rewrite prType_spec. unfold SpecWords.prType. cbn.
      rewrite Hlower; reflexivity.
    - rewrite prType_spec. unfold SpecWords.prType. cbn.
      rewrite Hlower; reflexivity. }
  split; [exact categorizePRTypes_ordinary|].
  split; [exact categorizePRTypes_inherited|].
  split; [exact categorizePRTypes_proto|].
  unfold StatsCalculator.categorizePRTypes. cbn [List.filter foldl].
  assert (Hclosed : forall r, StatsCalculator.isClosed (closedOn r) = true)
    by reflexivity.
  rewrite !Hclosed. cbn [foldl]. rewrite Hconstructor, Hproto, Hfix.
  split; reflexivity.
Qed.

(** C10: a closed pull request whose branch reference starts with the
    separator, such as [/login], is counted under the empty string and not
    under [unknown]: the histogram then has an empty-string key. *)
Theorem C10_empty_prefix_is_counted_under_empty_string :
  exists pr : PullRequest,
    pr_state pr = "closed" /\
    StatsCalculator.headRef pr = Some "/login" /\
    JsString.includes "/" "/login" = true /\
    StatsCalculator.prType pr = EmptyString /\
    StatsCalculator.categorizePRTypes [pr] !! EmptyString = Some (JsObject.Num 1) /\
    StatsCalculator.categorizePRTypes [pr] !! "unknown" = None.
Proof.
  exists (closedOn "/login").
  assert (Htype : StatsCalculator.prType (closedOn "/login") = EmptyString)
    by (apply (prType_closedOn "" "login"); reflexivity).
  split; [reflexivity|]. split; [reflexivity|]. split; [reflexivity|].
  split; [exact Htype|].
  unfold StatsCalculator.categorizePRTypes. cbn [List.filter foldl].
  assert (Hclosed : StatsCalculator.isClosed (closedOn "/login") = true)
    by reflexivity.
  rewrite Hclosed. cbn [foldl]. rewrite Htype. split; reflexivity.
Qed.

End PullRequestTypesLaws.

(** ** Contributor statistics: bounded retry *)

Lemma retry_pending_prefix (server : nat -> Fetch Gateway.StatsResponse)
    (k : nat) :
  forall attempt retries,
    (k <= retries)%nat ->
    (forall j, (j < k)%nat -> Gateway.pending (server (attempt + j)%nat)) ->
    Gateway.getContributorStatsWithRetry server attempt retries =
    let r := Gateway.getContributorStatsWithRetry server (attempt + k) (retries - k) in
    (r.1, Nat.iter k (fun evs => Gateway.Request :: Gateway.Delay 1000 :: evs) r.2).
Proof.
  induction k as [|k IH]; intros attempt retries Hk Hp.
  - cbn. rewrite Nat.add_0_r, Nat.sub_0_r.
    now destruct (Gateway.getContributorStatsWithRetry server attempt retries).
  - destruct retries as [|retries]; [lia|].
    destruct (Hp 0%nat ltac:(lia)) as (resp & Hresp & Hst & _).
    rewrite Nat.add_0_r in Hresp.
    cbn [Gateway.getContributorStatsWithRetry]. rewrite Hresp, Hst. cbn [Z.eqb Pos.eqb].
    rewrite (IH (S attempt) retries) by
      (try lia; intros j Hj; replace (S attempt + j)%nat with (attempt + S j)%nat by lia;
       apply Hp; lia).
    cbn zeta. replace (S attempt + k)%nat with (attempt + S k)%nat by lia.
    replace (S retries - S k)%nat with (retries - k)%nat by lia.
    reflexivity.
Qed.

Lemma retry_events_bounded (server : nat -> Fetch Gateway.StatsResponse) :
  forall retries attempt,
    let evs := (Gateway.getContributorStatsWithRetry server attempt retries).2 in
    (length (List.filter Gateway.isRequest evs) <= S retries)%nat /\
    S (length (List.filter Gateway.isDelay evs)) =
      length (List.filter Gateway.isRequest evs) /\
    Forall (fun e => Gateway.isDelay e = true -> e = Gateway.Delay 1000) evs.
Proof.
  induction retries as [|retries IH]; intros attempt;
    cbn [Gateway.getContributorStatsWithRetry].
  - destruct (server attempt); cbn; repeat split; try lia;
      repeat constructor; discriminate.
  - destruct (server attempt) as [resp|].
    + destruct (Gateway.status resp =? 202).
      * specialize (IH (S attempt)). cbn zeta in IH. destruct IH as (H1 & H2 & H3).
        cbn. repeat split; try lia.
        constructor; [discriminate|]. constructor; [reflexivity|]. exact H3.
      * cbn; repeat split; try lia; repeat constructor; discriminate.
    + cbn; repeat split; try lia; repeat constructor; discriminate.
Qed.

(** C4: when the first [k] answers (at most 3) carry the pending status, and
    either a fourth pending answer follows the third retry or the next
    request fails, the call returns the empty list; it has then sent [k + 1]
    requests, with a delay of 1000 ms before each retry.  Whatever the server
    answers, the call sends at most 4 requests (3 retries), waits exactly
    1000 ms between two requests, and always returns a list. *)
Theorem C4_pending_status_is_retried_three_times
    (server : nat -> Fetch Gateway.StatsResponse) (k : nat) :
  (k <= 3)%nat ->
  (forall j, (j < k)%nat -> Gateway.pending (server j)) ->
  (k = 3%nat /\ Gateway.pending (server 3%nat)) \/ server k = Err ->
  Gateway.getContributorStats server = ([], retryEvents k) /\
  (length (List.filter Gateway.isRequest (retryEvents k)) <= 4)%nat /\
  (forall server',
     let evs := (Gateway.getContributorStats server').2 in
     (length (List.filter Gateway.isRequest evs) <= 4)%nat /\
     S (length (List.filter Gateway.isDelay evs)) =
       length (List.filter Gateway.isRequest evs) /\
     Forall (fun e => Gateway.isDelay e = true -> e = Gateway.Delay 1000) evs).
Proof.
  intros Hk Hp Hlast.
  assert (Hrun : Gateway.getContributorStats server = ([], retryEvents k)).
  { unfold Gateway.getContributorStats, retryEvents.
    rewrite (retry_pending_prefix server k 0 3 Hk) by (intros j Hj; now apply Hp).
    cbn zeta. cbn [Nat.add].
    destruct Hlast as [[-> (resp & Hresp & _ & Hbody)]|Herr].
    - cbn [Nat.sub Gateway.getContributorStatsWithRetry]. rewrite Hresp.
      unfold Gateway.validData. now rewrite Hbody.
    - destruct (3 - k)%nat; cbn [Gateway.getContributorStatsWithRetry];
        now rewrite Herr. }
  split; [exact Hrun|]. split.
  - pose proof (retry_events_bounded server 3 0) as HB. cbn zeta in HB.
    unfold Gateway.getContributorStats in Hrun. rewrite Hrun in HB. cbn in HB. tauto.
  - intros server'. apply (retry_events_bounded server' 3 0).
Qed.

(** ** Paginator *)

Section PaginatorFacts.
Context {A : Type} (method : Paginator.PageRequest -> Fetch (Paginator.Response A)).

Lemma loop_drains (m : nat) :
  forall (fuel s : nat) (allData : list A) (sent : list Paginator.PageRequest),
    (m < fuel)%nat ->
    (forall j, (j < m)%nat ->
       Paginator.pageOk method (Z.of_nat (s + j)) = true /\
       Paginator.pageHasNext method (Z.of_nat (s + j)) = true) ->
    Paginator.pageOk method (Z.of_nat (s + m)) = true ->
    Paginator.pageHasNext method (Z.of_nat (s + m)) = false ->
    Paginator.loop method fuel allData (Z.of_nat s) sent =
    Some (Ok (allData ++
              concat (map (Paginator.pageData method) (map Z.of_nat (seq s (S m))))),
          sent ++ map Paginator.request (map Z.of_nat (seq s (S m)))).
Proof.
  induction m as [|m IH]; intros fuel s allData sent Hfuel Hnext Hok Hlast;
    (destruct fuel as [|fuel]; [lia|]); cbn [Paginator.loop].
  - rewrite Nat.add_0_r in Hok, Hlast.
    unfold Paginator.pageOk, Paginator.pageHasNext, Paginator.pageData in *.
    cbn [seq map concat].
    destruct (method (Paginator.request (Z.of_nat s))) as [resp|]; [|discriminate].
    rewrite Hlast. now rewrite app_nil_r.
  - destruct (Hnext 0%nat ltac:(lia)) as [Hok0 Hnext0].
    rewrite Nat.add_0_r in Hok0, Hnext0.
    cbn [seq map concat].
    unfold Paginator.pageOk, Paginator.pageHasNext in Hok0, Hnext0.
    unfold Paginator.pageData at 1.
    destruct (method (Paginator.request (Z.of_nat s))) as [resp|]; [|discriminate].
    rewrite Hnext0.
    replace (Z.of_nat s + 1) with (Z.of_nat (S s)) by lia.
    rewrite (IH fuel (S s)).
    + now rewrite <- !app_assoc.
    + lia.
    + intros j Hj. replace (S s + j)%nat with (s + S j)%nat by lia. apply Hnext. lia.
    + now replace (S s + m)%nat with (s + S m)%nat by lia.
    + now replace (S s + m)%nat with (s + S m)%nat by lia.
Qed.

(** C7, as the code has it: when pages 1 to [n - 1] are answered with a
    [rel="next"] link and page [n] is answered without one, [getAllPages]
    requests exactly the pages 1 to [n], each with [per_page] 100, and returns
    their items concatenated in page order; the loop stops at the first answer
    that lacks the link, whether or not a page was empty. *)
Theorem C7_getAllPages_drains_until_no_next_link (n fuel : nat) :
  (1 <= n)%nat ->
  (n <= fuel)%nat ->
  (forall p, 1 <= p < Z.of_nat n ->
     Paginator.pageOk method p = true /\ Paginator.pageHasNext method p = true) ->
  Paginator.pageOk method (Z.of_nat n) = true ->
  Paginator.pageHasNext method (Z.of_nat n) = false ->
  Paginator.getAllPages method fuel =
    Some (Ok (concat (map (Paginator.pageData method) (Paginator.pages n))),
          map Paginator.request (Paginator.pages n)) /\
  Forall (fun req => Paginator.per_page req = 100)
         (map Paginator.request (Paginator.pages n)).
Proof.
  intros Hn Hfuel Hnext Hok Hlast. split.
  - unfold Paginator.getAllPages, Paginator.pages.
    destruct n as [|m]; [lia|].
    change 1 with (Z.of_nat 1).
    rewrite (loop_drains m fuel 1 [] []); try reflexivity; try lia; try assumption.
    intros j Hj. apply Hnext. lia.
  - apply List.Forall_forall. intros req Hin.
    apply in_map_iff in Hin as (p & <- & _). reflexivity.
Qed.

End PaginatorFacts.

(** ** Aggregator *)

(** C2, as the code has it: an issue counted as opened was created inside
    the range; an issue counted as closed was created inside the range and is
    in the closed state (its closing date is not looked at). *)
Theorem C2_counted_issues_are_created_in_range
    (issueList : list Issue) (fromDate toDate : Z) :
  Forall (fun issue => fromDate <= created_at issue <= toDate)
         (Aggregator.DateRange.countedOpened issueList fromDate toDate) /\
  Forall (fun issue => fromDate <= created_at issue <= toDate /\
                       state issue = "closed")
         (Aggregator.DateRange.countedClosed issueList fromDate toDate) /\
  Aggregator.DateRange.issuesOpened issueList fromDate toDate =
    len (Aggregator.DateRange.countedOpened issueList fromDate toDate) /\
  Aggregator.DateRange.issuesClosed issueList fromDate toDate =
    len (Aggregator.DateRange.countedClosed issueList fromDate toDate).
Proof.
  assert (Hopened : forall issue,
            In issue (Aggregator.DateRange.filteredIssues issueList fromDate toDate) ->
            fromDate <= created_at issue <= toDate).
  { intros issue Hin. apply filter_In in Hin as [_ Hr].
    unfold Aggregator.DateRange.inRange in Hr.
    apply andb_true_iff in Hr as [H1 H2]. lia. }
  repeat split; try reflexivity.
  - apply List.Forall_forall. exact Hopened.
  - apply List.Forall_forall. intros issue Hin.
    apply filter_In in Hin as [Hin Hc]. split; [now apply Hopened|].
    now apply String.eqb_eq.
Qed.

Lemma settle_all (total : Z) (order : list nat) :
  forall (processed : Z) (log : list (Z * Z)),
    foldl (Aggregator.settle true total) (processed, log) order =
    (processed + len order,
     log ++ map (fun k => (processed + Z.of_nat k, total)) (seq 1 (length order))).
Proof.
  induction order as [|i order IH]; intros processed log.
  - cbn. now rewrite Z.add_0_r, app_nil_r.
  - cbn [foldl]. unfold Aggregator.settle at 2. cbn [fst snd].
    rewrite IH, len_cons. cbn [length seq map]. rewrite <- app_assoc. cbn [app].
    rewrite <- (seq_shift _ 1), map_map.
    f_equal; [lia|]. do 2 f_equal.
    apply map_ext. intros k. f_equal. lia.
Qed.

Section AggregatorFacts.
Context `{Calendar} `{Engine}.

(** C1, as the code has it: with two own repositories of which one cannot
    have its issues fetched while the other's three fetches succeed, the
    report has one entry in [repos], that of the other repository, and the
    progress callback is called exactly twice, with (1, 2) and then (2, 2),
    in whichever order the two repositories settle. *)
Theorem C1_failing_repository_is_left_out_of_the_report
    (api : Aggregator.Api) (now later : Z) (order : list nat)
    (store : Cache.Store Report) (orgName : string)
    (memberList : list Member) (allRepos : list Repo) (failing healthy : Repo)
    (stats : option (list Contributor)) (issueList : list Issue)
    (prList : list PullRequest) :
  (CacheManager.get now orgName store).1 = None ->
  Aggregator.getMembers api orgName = Ok memberList ->
  Aggregator.getRepos api orgName = Ok allRepos ->
  List.filter (fun repo => negb (fork repo)) allRepos = [failing; healthy] \/
  List.filter (fun repo => negb (fork repo)) allRepos = [healthy; failing] ->
  Aggregator.getIssues api orgName (repo_name failing) (getFullYear now) = Err ->
  Aggregator.getContributorStats api orgName (repo_name healthy) = Ok stats ->
  Aggregator.getIssues api orgName (repo_name healthy) (getFullYear now) = Ok issueList ->
  Aggregator.getPullRequests api orgName (repo_name healthy) = Ok prList ->
  Permutation order [0%nat; 1%nat] ->
  let o := Aggregator.getOrganization api now later order store orgName true in
  exists report,
    Aggregator.result o = Ok report /\
    length (repos report) = 1%nat /\
    map name (repos report) = [repo_name healthy] /\
    Aggregator.progress o = [(1, 2); (2, 2)].
Proof.
  intros Hmiss Hmembers Hrepos Hown Hfail Hstats Hissues Hprs Horder o. subst o.
  unfold Aggregator.getOrganization.
  destruct (CacheManager.get now orgName store) as [[cached|] store1];
    [discriminate|].
  rewrite Hmembers, Hrepos.
  assert (Hf : Aggregator.repoStatsOf api orgName (getFullYear now) failing = None).
  { unfold Aggregator.repoStatsOf. rewrite Hfail.
    now destruct (Aggregator.getContributorStats api orgName (repo_name failing)). }
  assert (Hh : exists rs,
            Aggregator.repoStatsOf api orgName (getFullYear now) healthy = Some rs /\
            Aggregator.rs_name rs = repo_name healthy).
  { unfold Aggregator.repoStatsOf. rewrite Hstats, Hissues, Hprs.
    eexists. split; reflexivity. }
  destruct Hh as (rs & Hh & Hname).
  assert (Hlen : length order = 2%nat) by now rewrite Horder.
  eexists. split; [reflexivity|]. cbn [repos Aggregator.progress].
  rewrite settle_all, Hlen.
  destruct Hown as [-> | ->]; cbn [map omap length]; rewrite Hf, Hh;
    cbn; rewrite Hname; auto.
Qed.

Lemma repos_of_miss_are_counts
    (api : Aggregator.Api) (now later : Z) (order : list nat)
    (store : Cache.Store Report) (orgName : string) (onProgress : bool)
    (report : Report) :
  (CacheManager.get now orgName store).1 = None ->
  Aggregator.result
    (Aggregator.getOrganization api now later order store orgName onProgress)
    = Ok report ->
  Forall (fun repo => exists n, contributors repo = NumberOf n) (repos report).
Proof.
  intros Hmiss. unfold Aggregator.getOrganization.
  destruct (CacheManager.get now orgName store) as [[cached|] store1];
    [discriminate|].
  destruct (Aggregator.getMembers api orgName); [|discriminate].
  destruct (Aggregator.getRepos api orgName); [|discriminate].
  cbn. intros [= <-]. cbn. apply List.Forall_forall. intros repo Hin.
  apply in_map_iff in Hin as (rs & <- & _). cbn. eauto.
Qed.

End AggregatorFacts.

(** ** View model *)

Lemma mapSet_zero (k : string) (m : Organization.JsMap) :
  Forall (fun e => e.2 = 0) m -> Forall (fun e => e.2 = 0) (Organization.mapSet k 0 m).
Proof.
  induction 1 as [|[k' v'] m Hv Hm IH]; cbn.
  - repeat constructor.
  - destruct (String.eqb k' k); constructor; auto.
Qed.

Lemma insertDesc_Forall (P : string * Z -> Prop) (x : string * Z)
    (l : Organization.JsMap) :
  P x -> Forall P l -> Forall P (Organization.insertDesc x l).
Proof.
  intros Hx. induction 1 as [|y l Hy Hl IH]; cbn.
  - repeat constructor; assumption.
  - destruct (y.2 <=? x.2); repeat constructor; assumption.
Qed.

Lemma sortDesc_Forall (P : string * Z -> Prop) (l : Organization.JsMap) :
  Forall P l -> Forall P (Organization.sortDesc l).
Proof.
  induction 1 as [|x l Hx Hl IH]; cbn; [constructor|].
  now apply insertDesc_Forall.
Qed.

(** On the reports of [getOrganization], where [contributors] is a count,
    [getMostActiveMembers] adds nothing up: every member comes out with 0. *)
Lemma getMostActiveMembers_of_counts (o : Organization.t) (limit : nat) :
  Forall (fun repo => exists n, contributors repo = NumberOf n)
         (Organization.org_repos o) ->
  Forall (fun e => ce_contributions e = 0)
         (Organization.getMostActiveMembers o limit).
Proof.
  intros Hrepos. unfold Organization.getMostActiveMembers.
  set (m0 := foldl (fun ms m => Organization.mapSet (login (member m)) 0 ms) []
                   (Organization.org_members o)).
  assert (Hm0 : Forall (fun e : string * Z => e.2 = 0) m0).
  { subst m0.
    assert (Hnil : Forall (fun e : string * Z => e.2 = 0) []) by constructor.
    revert Hnil. generalize (@nil (string * Z)).
    induction (Organization.org_members o) as [|m ms IH]; intros acc Hacc;
      [exact Hacc|].
    cbn [foldl]. apply IH. now apply mapSet_zero. }
  assert (Hsame : foldl Organization.addRepo m0 (Organization.org_repos o) = m0).
  { generalize m0. induction Hrepos as [|repo rs [n Hn] _ IH]; intros acc;
      [reflexivity|].
    cbn [foldl]. unfold Organization.addRepo at 2. rewrite Hn. apply IH. }
  rewrite Hsame. apply Forall_map.
  apply Forall_take. now apply sortDesc_Forall.
Qed.

(** ** Monthly issue series *)

Lemma len_app {A} (l1 l2 : list A) : len (l1 ++ l2) = len l1 + len l2.
Proof. unfold len. rewrite length_app. lia. Qed.

Lemma len_filter_ext_in {A} (p q : A -> bool) (l : list A) :
  (forall x, In x l -> p x = q x) ->
  len (List.filter p l) = len (List.filter q l).
Proof. intros Hpq. now rewrite (List.filter_ext_in p q l Hpq). Qed.

Lemma len_filter_split {A} (p q r : A -> bool) (l : list A) :
  (forall x, In x l -> p x = q x || r x) ->
  (forall x, In x l -> q x && r x = false) ->
  len (List.filter p l) = len (List.filter q l) + len (List.filter r l).
Proof.
  induction l as [|x l IH]; intros Hp Hd; [reflexivity|].
  specialize (IH (fun y Hy => Hp y (or_intror Hy)) (fun y Hy => Hd y (or_intror Hy))).
  specialize (Hp x (or_introl eq_refl)). specialize (Hd x (or_introl eq_refl)).
  cbn [List.filter]. rewrite Hp.
  destruct (q x), (r x); try discriminate; cbn [orb]; rewrite ?len_cons; lia.
Qed.

Lemma len_filter_zero {A} (p : A -> bool) (l : list A) :
  len (List.filter p l) = 0 -> forall x, In x l -> p x = false.
Proof.
  induction l as [|y l IH]; intros Hz x Hin; [destruct Hin|].
  cbn [List.filter] in Hz. destruct (p y) eqn:Hy.
  - rewrite len_cons in Hz. pose proof (len_nonneg (List.filter p l)). lia.
  - destruct Hin as [<-|Hin]; [exact Hy | now apply IH].
Qed.

Lemma existsb_ext_in {A} (p q : A -> bool) (l : list A) :
  (forall x, In x l -> p x = q x) -> existsb p l = existsb q l.
Proof.
  induction l as [|x l IH]; intros Hpq; [reflexivity|]. cbn.
  rewrite (Hpq x (or_introl eq_refl)), IH; [reflexivity|].
  intros y Hy. apply Hpq. now right.
Qed.

Lemma existsb_never {A} (l : list A) : existsb (fun _ => false) l = false.
Proof. induction l; [reflexivity | exact IHl]. Qed.

Lemma filter_never {A} (l : list A) : List.filter (fun _ => false) l = [].
Proof. induction l; [reflexivity | exact IHl]. Qed.

Lemma existsb_false_filter {A} (p : A -> bool) (l : list A) :
  existsb p l = false -> List.filter p l = [].
Proof.
  induction l as [|x l IH]; [reflexivity|]. cbn.
  intros Hx. apply orb_false_iff in Hx as [Hx Hl]. rewrite Hx. now apply IH.
Qed.

(** *** Entries of the series under the updates of the loop body *)

Lemma slot_alter (f : MonthStat -> MonthStat) (j m : nat) (l : list MonthStat) :
  (m < length l)%nat ->
  Monthly.slot (alter f j l) m =
  if (j =? m)%nat then f (Monthly.slot l m) else Monthly.slot l m.
Proof.
  intros Hm. unfold Monthly.slot.
  destruct (lookup_lt_is_Some_2 l m Hm) as [s Hs].
  destruct (Nat.eqb_spec j m) as [->|Hne].
  - rewrite list_lookup_alter_eq, Hs. reflexivity.
  - now rewrite list_lookup_alter_ne.
Qed.

Lemma slot_alter_all (f : MonthStat -> MonthStat) (js : list nat) (m : nat) :
  (forall s, f (f s) = f s) ->
  forall l : list MonthStat,
    (m < length l)%nat ->
    Monthly.slot (foldl (fun stats i => alter f i stats) l js) m =
    if existsb (fun j => (j =? m)%nat) js then f (Monthly.slot l m)
    else Monthly.slot l m.
Proof.
  intros Hf. induction js as [|j js IH]; intros l Hm; [reflexivity|].
  cbn [foldl existsb]. rewrite IH by now rewrite length_alter.
  rewrite slot_alter by assumption.
  destruct (j =? m)%nat, (existsb (fun j0 => (j0 =? m)%nat) js); cbn [orb];
    now rewrite ?Hf.
Qed.

Lemma existsb_seq (a n m : nat) :
  existsb (fun j => (j =? m)%nat) (seq a n) = ((a <=? m) && (m <? a + n))%nat.
Proof.
  revert a. induction n as [|n IH]; intros a; cbn [seq existsb].
  - destruct (Nat.leb_spec a m), (Nat.ltb_spec m (a + 0)); cbn; try reflexivity; lia.
  - rewrite IH.
    destruct (Nat.eqb_spec a m), (Nat.leb_spec (S a) m), (Nat.ltb_spec m (S a + n)),
      (Nat.leb_spec a m), (Nat.ltb_spec m (a + S n)); cbn; try reflexivity; lia.
Qed.

Lemma length_fillTotal (month : nat) (v : Z) (l : list MonthStat) :
  length (StatsCalculator.fillTotal month v l) = length l.
Proof.
  unfold StatsCalculator.fillTotal. generalize (seq month (12 - month)).
  intros js. revert l. induction js as [|j js IH]; intros l; [reflexivity|].
  cbn [foldl]. now rewrite IH, length_alter.
Qed.

Lemma slot_fillTotal (month : nat) (v : Z) (l : list MonthStat) (m : nat) :
  length l = 12%nat -> (m < 12)%nat ->
  Monthly.slot (StatsCalculator.fillTotal month v l) m =
  if (month <=? m)%nat then StatsCalculator.setTotal v (Monthly.slot l m)
  else Monthly.slot l m.
Proof.
  intros Hl Hm. unfold StatsCalculator.fillTotal.
  rewrite slot_alter_all by (try reflexivity; lia).
  rewrite existsb_seq.
  destruct (Nat.leb_spec month m), (Nat.ltb_spec m (month + (12 - month)));
    cbn; try reflexivity; lia.
Qed.

(** *** The sort *)

Lemma insertByCreated_In (x y : Issue) (l : list Issue) :
  In y (StatsCalculator.insertByCreated x l) <-> y = x \/ In y l.
Proof.
  induction l as [|z l IH]; cbn.
  - intuition.
  - destruct (created_at x <=? created_at z); cbn; rewrite ?IH; intuition.
Qed.

Lemma insertByCreated_sorted (x : Issue) (l : list Issue) :
  StronglySorted Monthly.createdLe l ->
  StronglySorted Monthly.createdLe (StatsCalculator.insertByCreated x l).
Proof.
  induction 1 as [|z l Hl IH Hz]; cbn.
  - repeat constructor.
  - destruct (Z.leb_spec (created_at x) (created_at z)) as [Hle|Hgt].
    + constructor; [now constructor|].
      constructor; [exact Hle|].
      eapply Forall_impl; [exact Hz|]. unfold Monthly.createdLe. cbn. intros; lia.
    + constructor; [exact IH|].
      apply List.Forall_forall. intros y Hy.
      apply insertByCreated_In in Hy as [->|Hy].
      * unfold Monthly.createdLe. lia.
      * rewrite List.Forall_forall in Hz. now apply Hz.
Qed.

Lemma sortByCreated_sorted (l : list Issue) :
  StronglySorted Monthly.createdLe (StatsCalculator.sortByCreated l).
Proof.
  induction l as [|x l IH]; cbn; [constructor|].
  now apply insertByCreated_sorted.
Qed.

Lemma sortByCreated_In (y : Issue) (l : list Issue) :
  In y (StatsCalculator.sortByCreated l) <-> In y l.
Proof.
  induction l as [|x l IH]; cbn; [reflexivity|].
  rewrite insertByCreated_In, IH. intuition.
Qed.

Lemma len_filter_insertByCreated (p : Issue -> bool) (x : Issue) (l : list Issue) :
  len (List.filter p (StatsCalculator.insertByCreated x l)) =
  len (List.filter p (x :: l)).
Proof.
  induction l as [|z l IH]; [reflexivity|]. cbn [StatsCalculator.insertByCreated].
  destruct (created_at x <=? created_at z); [reflexivity|].
  cbn [List.filter] in *.
  destruct (p z), (p x); rewrite ?len_cons in *; rewrite IH; rewrite ?len_cons; lia.
Qed.

Lemma len_filter_sortByCreated (p : Issue -> bool) (l : list Issue) :
  len (List.filter p (StatsCalculator.sortByCreated l)) = len (List.filter p l).
Proof.
  induction l as [|x l IH]; [reflexivity|]. cbn [StatsCalculator.sortByCreated foldr].
  rewrite len_filter_insertByCreated. cbn [List.filter].
  fold (StatsCalculator.sortByCreated l).
  destruct (p x); rewrite ?len_cons; now rewrite IH.
Qed.

Lemma existsb_sortByCreated (p : Issue -> bool) (l : list Issue) :
  existsb p (StatsCalculator.sortByCreated l) = existsb p l.
Proof.
  apply eq_true_iff_eq. rewrite !existsb_exists.
  split; intros (x & Hx & Hp); exists x; split; try assumption;
    now apply sortByCreated_In.
Qed.

Lemma sorted_snoc (l : list Issue) (x : Issue) :
  StronglySorted Monthly.createdLe (l ++ [x]) ->
  StronglySorted Monthly.createdLe l /\ (forall y, In y l -> created_at y <= created_at x).
Proof.
  induction l as [|z l IH]; cbn; intros Hs.
  - split; [constructor | intros y []].
  - apply StronglySorted_inv in Hs as [Hs Hz].
    destruct (IH Hs) as [Hl Hx]. split.
    + constructor; [exact Hl|].
      rewrite List.Forall_forall in *. intros y Hy. apply Hz.
      apply in_or_app. now left.
    + intros y [<-|Hy]; [|now apply Hx].
      rewrite List.Forall_forall in Hz. apply Hz.
      apply in_or_app. right. now left.
Qed.

(** *** One turn of the loop *)

Section MonthlyFacts.
Context {cal : Calendar} {laws : CalendarLaws cal}.

Lemma processIssue_length (year : Z) (acc : list MonthStat * Z) (i : Issue) :
  length (StatsCalculator.processIssue year acc i).1 = length acc.1.
Proof.
  unfold StatsCalculator.processIssue.
  repeat (case_match; cbn [fst snd]);
    rewrite ?length_fillTotal, ?length_alter; reflexivity.
Qed.

Lemma processIssue_running (year : Z) (acc : list MonthStat * Z) (i : Issue) :
  (StatsCalculator.processIssue year acc i).2 =
  acc.2 + Monthly.bump (Monthly.known year i)
        - Monthly.bump (Monthly.known year i && Monthly.closedInYear year i).
Proof.
  unfold StatsCalculator.processIssue, Monthly.known, Monthly.closedInYear, Monthly.bump.
  destruct (getFullYear (created_at i) <=? year); cbn [andb]; [|lia].
  destruct (getFullYear (created_at i) =? year), (closed_at i) as [t|];
    cbn [fst snd]; try destruct (getFullYear t =? year); cbn [fst snd]; lia.
Qed.

Lemma processIssue_slot (year : Z) (acc : list MonthStat * Z) (i : Issue) (m : nat) :
  length acc.1 = 12%nat -> (m < 12)%nat ->
  let acc' := StatsCalculator.processIssue year acc i in
  opened (Monthly.slot acc'.1 m) =
    opened (Monthly.slot acc.1 m) + Monthly.bump (Monthly.createdIn year m i) /\
  closed (Monthly.slot acc'.1 m) =
    closed (Monthly.slot acc.1 m) +
    Monthly.bump (Monthly.known year i && Monthly.closedIn year m i) /\
  total (Monthly.slot acc'.1 m) =
    if Monthly.createdUpTo year m i then acc'.2 else total (Monthly.slot acc.1 m).
Proof.
  intros Hlen Hm acc'. subst acc'.
  unfold StatsCalculator.processIssue, Monthly.known, Monthly.createdIn,
    Monthly.closedIn, Monthly.createdUpTo, Monthly.bump.
  destruct (Z.leb_spec (getFullYear (created_at i)) year) as [Hle|Hgt]; cbn [andb].
  2:{ destruct (Z.eqb_spec (getFullYear (created_at i)) year); [lia|].
      cbn [andb]. repeat split; lia. }
  destruct (Z.eqb_spec (getFullYear (created_at i)) year) as [Hy|Hy];
    cbn [andb fst snd];
    destruct (closed_at i) as [t|]; cbn [fst snd];
    try destruct (getFullYear t =? year); cbn [andb fst snd];
    rewrite ?slot_fillTotal by (rewrite ?length_alter; assumption);
    rewrite ?slot_alter by (rewrite ?length_alter; lia);
    rewrite ?slot_alter by (rewrite ?length_alter; lia);
    repeat match goal with
      | |- context [(?a =? ?b)%nat] => destruct (Nat.eqb_spec a b)
      | |- context [(?a <=? ?b)%nat] => destruct (Nat.leb_spec a b)
      end;
    destruct (Monthly.slot acc.1 m); cbn; repeat split; lia.
Qed.

(** *** The whole loop *)

Lemma fold_length (year : Z) (l : list Issue) (acc : list MonthStat * Z) :
  length (foldl (StatsCalculator.processIssue year) acc l).1 = length acc.1.
Proof.
  revert acc. induction l as [|i l IH]; intros acc; [reflexivity|].
  cbn [foldl]. now rewrite IH, processIssue_length.
Qed.

Lemma fold_running (year : Z) (l : list Issue) (acc : list MonthStat * Z) :
  (foldl (StatsCalculator.processIssue year) acc l).2 =
  acc.2 + len (List.filter (Monthly.known year) l)
        - len (List.filter (fun i => Monthly.known year i && Monthly.closedInYear year i) l).
Proof.
  revert acc. induction l as [|i l IH]; intros acc; [cbn; lia|].
  cbn [foldl List.filter]. rewrite IH, processIssue_running. unfold Monthly.bump.
  destruct (Monthly.known year i), (Monthly.closedInYear year i);
    cbn [andb]; rewrite ?len_cons; lia.
Qed.

Lemma fold_counts (year : Z) (m : nat) (l : list Issue) (acc : list MonthStat * Z) :
  length acc.1 = 12%nat -> (m < 12)%nat ->
  let acc' := foldl (StatsCalculator.processIssue year) acc l in
  opened (Monthly.slot acc'.1 m) =
    opened (Monthly.slot acc.1 m) + len (List.filter (Monthly.createdIn year m) l) /\
  closed (Monthly.slot acc'.1 m) =
    closed (Monthly.slot acc.1 m) +
    len (List.filter (fun i => Monthly.known year i && Monthly.closedIn year m i) l).
Proof.
  intros Hlen Hm. revert acc Hlen.
  induction l as [|i l IH]; intros acc Hlen.
  { cbn zeta. cbn [foldl List.filter]. unfold len. cbn [length]. lia. }
  cbn [foldl List.filter]. cbn zeta in IH.
  destruct (IH (StatsCalculator.processIssue year acc i)) as [Ho Hc];
    [now rewrite processIssue_length|].
  destruct (processIssue_slot year acc i m Hlen Hm) as (Ho1 & Hc1 & _).
  cbn zeta. rewrite Ho, Hc, Ho1, Hc1. unfold Monthly.bump.
  destruct (Monthly.createdIn year m i),
    (Monthly.known year i && Monthly.closedIn year m i);
    rewrite ?len_cons; lia.
Qed.

End MonthlyFacts.

Section MonthlyTotals.
Context {cal : Calendar} {laws : CalendarLaws cal}.

Lemma slot_start (m : nat) : Monthly.slot Monthly.seriesStart.1 m = zeroMonth.
Proof.
  unfold Monthly.slot, Monthly.seriesStart. cbn [fst].
  destruct (replicate 12 zeroMonth !! m) as [s|] eqn:Hs; [|reflexivity].
  apply lookup_replicate in Hs as [-> _]. reflexivity.
Qed.

(** Issues sorted before an issue created in [year] by month [m] were all
    created by then, in [year] or earlier. *)
Lemma earlier_issue_seen (year : Z) (m : nat) (x y : Issue) :
  created_at y <= created_at x ->
  Monthly.createdUpTo year m x = true ->
  Monthly.known year y = true /\ Monthly.seenBy year m y = true.
Proof.
  unfold Monthly.createdUpTo, Monthly.known, Monthly.seenBy, Monthly.backlog.
  intros Hle Hx. apply andb_true_iff in Hx as [Hy Hm].
  apply Z.eqb_eq in Hy. apply Nat.leb_le in Hm.
  destruct (calendar_mono _ _ Hle) as [Hlt|[Heq Hmo]].
  - split; [apply Z.leb_le; lia|].
    apply orb_true_iff. left. apply Z.ltb_lt. lia.
  - split; [apply Z.leb_le; lia|].
    apply orb_true_iff. right. unfold Monthly.createdUpTo.
    apply andb_true_iff. split; [apply Z.eqb_eq; lia | apply Nat.leb_le; lia].
Qed.

(** An issue sorted after one created in [year] is not from an earlier year. *)
Lemma later_issue_not_backlog (year : Z) (m : nat) (x y : Issue) :
  created_at y <= created_at x ->
  Monthly.createdUpTo year m y = true ->
  Monthly.backlog year x = false.
Proof.
  unfold Monthly.createdUpTo, Monthly.backlog.
  intros Hle Hy. apply andb_true_iff in Hy as [Hy _]. apply Z.eqb_eq in Hy.
  apply Z.ltb_ge. destruct (calendar_mono _ _ Hle); lia.
Qed.

Lemma fold_total (year : Z) (m : nat) (l : list Issue) :
  (m < 12)%nat ->
  StronglySorted Monthly.createdLe l ->
  total (Monthly.slot (foldl (StatsCalculator.processIssue year) Monthly.seriesStart l).1 m) =
  if existsb (Monthly.createdUpTo year m) l
  then len (List.filter (Monthly.seenBy year m) l) -
       len (List.filter (fun i => Monthly.seenBy year m i && Monthly.closedInYear year i) l)
  else 0.
Proof.
  intros Hm. induction l as [|x l IH] using rev_ind; intros Hs.
  - cbn [foldl existsb]. now rewrite slot_start.
  - apply sorted_snoc in Hs as [Hs Hbefore]. specialize (IH Hs).
    rewrite foldl_app. cbn [foldl].
    set (acc := foldl (StatsCalculator.processIssue year) Monthly.seriesStart l) in *.
    assert (Hlen : length acc.1 = 12%nat).
    { subst acc. rewrite fold_length. unfold Monthly.seriesStart. cbn [fst].
      now rewrite length_replicate. }
    destruct (processIssue_slot year acc x m Hlen Hm) as (_ & _ & Ht).
    cbn zeta in Ht. rewrite Ht. clear Ht.
    rewrite existsb_app, !List.filter_app, !len_app. cbn [existsb List.filter].
    rewrite orb_false_r.
    destruct (Monthly.createdUpTo year m x) eqn:Hx.
    + rewrite orb_true_r, processIssue_running. subst acc.
      rewrite fold_running. unfold Monthly.seriesStart at 1. cbn [snd].
      assert (Hkx : Monthly.known year x = true /\ Monthly.seenBy year m x = true)
        by (apply (earlier_issue_seen year m x x); [lia | exact Hx]).
      destruct Hkx as [Hkx Hsx]. rewrite Hkx, Hsx. cbn [andb].
      rewrite (len_filter_ext_in (Monthly.known year) (Monthly.seenBy year m) l).
      2:{ intros y Hy.
          destruct (earlier_issue_seen year m x y (Hbefore y Hy) Hx) as [-> ->].
          reflexivity. }
      rewrite (len_filter_ext_in
                 (fun i => Monthly.known year i && Monthly.closedInYear year i)
                 (fun i => Monthly.seenBy year m i && Monthly.closedInYear year i) l).
      2:{ intros y Hy.
          destruct (earlier_issue_seen year m x y (Hbefore y Hy) Hx) as [-> ->].
          reflexivity. }
      unfold Monthly.bump.
      destruct (Monthly.closedInYear year x); rewrite ?len_cons; unfold len; cbn [length]; lia.
    + rewrite orb_false_r, IH.
      destruct (existsb (Monthly.createdUpTo year m) l) eqn:He; [|reflexivity].
      apply existsb_exists in He as (y & Hy & Hyu).
      assert (Hsx : Monthly.seenBy year m x = false).
      { unfold Monthly.seenBy. rewrite Hx, orb_false_r.
        exact (later_issue_not_backlog year m x y (Hbefore y Hy) Hyu). }
      rewrite Hsx. cbn [andb]. unfold len. cbn [length]. lia.
Qed.

(** The three columns of the series in closed form. *)
Lemma series_closed_form (issues : list Issue) (year : Z) (m : nat) :
  (m < 12)%nat ->
  let series := StatsCalculator.calculateMonthlyIssueStats issues year in
  let plain := Monthly.plainIssues issues in
  length series = 12%nat /\
  opened (Monthly.slot series m) =
    len (List.filter (Monthly.createdIn year m) plain) /\
  closed (Monthly.slot series m) =
    len (List.filter (fun i => Monthly.known year i && Monthly.closedIn year m i) plain) /\
  total (Monthly.slot series m) =
    if existsb (Monthly.createdUpTo year m) plain
    then Monthly.runningAfter issues year m else 0.
Proof.
  intros Hm series plain. subst series plain.
  unfold StatsCalculator.calculateMonthlyIssueStats, Monthly.runningAfter.
  fold (Monthly.plainIssues issues). fold Monthly.seriesStart.
  set (plain := Monthly.plainIssues issues).
  assert (Hlen0 : length Monthly.seriesStart.1 = 12%nat)
    by (unfold Monthly.seriesStart; cbn [fst]; now rewrite length_replicate).
  split; [now rewrite fold_length|].
  destruct (fold_counts year m (StatsCalculator.sortByCreated plain) Monthly.seriesStart Hlen0 Hm)
    as [Ho Hc].
  rewrite Ho, Hc, slot_start, !len_filter_sortByCreated. cbn [opened closed zeroMonth].
  split; [lia|]. split; [lia|].
  rewrite fold_total by (try assumption; apply sortByCreated_sorted).
  now rewrite existsb_sortByCreated, !len_filter_sortByCreated.
Qed.

End MonthlyTotals.

Section MonthlyRecurrence.
Context {cal : Calendar} {laws : CalendarLaws cal}.

Lemma createdUpTo_S (year : Z) (m : nat) (i : Issue) :
  Monthly.createdUpTo year (S m) i =
  Monthly.createdUpTo year m i || Monthly.createdIn year (S m) i.
Proof.
  unfold Monthly.createdUpTo, Monthly.createdIn.
  destruct (getFullYear (created_at i) =? year); cbn [andb]; [|reflexivity].
  destruct (Nat.leb_spec (getMonth (created_at i)) (S m)),
    (Nat.leb_spec (getMonth (created_at i)) m),
    (Nat.eqb_spec (getMonth (created_at i)) (S m)); cbn; try reflexivity; lia.
Qed.

Lemma createdUpTo_0 (year : Z) (i : Issue) :
  Monthly.createdUpTo year 0 i = Monthly.createdIn year 0 i.
Proof.
  unfold Monthly.createdUpTo, Monthly.createdIn.
  destruct (getFullYear (created_at i) =? year); cbn [andb]; [|reflexivity].
  destruct (Nat.leb_spec (getMonth (created_at i)) 0),
    (Nat.eqb_spec (getMonth (created_at i)) 0); cbn; try reflexivity; lia.
Qed.

Lemma createdUpTo_createdIn_disjoint (year : Z) (m : nat) (i : Issue) :
  Monthly.createdUpTo year m i && Monthly.createdIn year (S m) i = false.
Proof.
  unfold Monthly.createdUpTo, Monthly.createdIn.
  destruct (getFullYear (created_at i) =? year); cbn [andb]; [|reflexivity].
  destruct (Nat.leb_spec (getMonth (created_at i)) m),
    (Nat.eqb_spec (getMonth (created_at i)) (S m)); cbn; try reflexivity; lia.
Qed.

Lemma createdIn_createdUpTo (year : Z) (m : nat) (i : Issue) :
  Monthly.createdIn year m i = true -> Monthly.createdUpTo year m i = true.
Proof.
  unfold Monthly.createdUpTo, Monthly.createdIn.
  destruct (getFullYear (created_at i) =? year); cbn [andb]; [|discriminate].
  intros Hm. apply Nat.eqb_eq in Hm. apply Nat.leb_le. lia.
Qed.

(** Without issues from earlier years and with closures in the creation
    month, the closures counted in a month are those of the issues created
    in it. *)
Lemma closed_of_created (issues : list Issue) (year : Z) (m : nat) (i : Issue) :
  Monthly.noBacklog issues year ->
  Monthly.closedInCreationMonth issues year ->
  In i (Monthly.plainIssues issues) ->
  Monthly.known year i && Monthly.closedIn year m i =
  Monthly.createdIn year m i && Monthly.closedInYear year i.
Proof.
  unfold Monthly.noBacklog, Monthly.closedInCreationMonth.
  rewrite !List.Forall_forall. intros Hb Hc Hin.
  specialize (Hb i Hin). specialize (Hc i Hin).
  unfold Monthly.backlog in Hb. apply Z.ltb_ge in Hb.
  unfold Monthly.known, Monthly.closedIn, Monthly.createdIn, Monthly.closedInYear.
  destruct (closed_at i) as [t|]; [|now rewrite !andb_false_r].
  specialize (fun Hy => Hc Hy t eq_refl).
  destruct (Z.leb_spec (getFullYear (created_at i)) year) as [Hle|Hgt],
    (Z.eqb_spec (getFullYear (created_at i)) year) as [Hy|Hy],
    (Z.eqb_spec (getFullYear t) year) as [Ht|Ht];
    cbn [andb]; try reflexivity; try lia;
    rewrite ?andb_false_r, ?andb_true_r; try reflexivity.
  rewrite (Hc Hy Ht). reflexivity.
Qed.

Lemma total_without_backlog (issues : list Issue) (year : Z) (m : nat) :
  (m < 12)%nat ->
  Monthly.noBacklog issues year ->
  total (Monthly.slot (StatsCalculator.calculateMonthlyIssueStats issues year) m) =
  Monthly.runningAfter issues year m.
Proof.
  intros Hm Hb. destruct (series_closed_form issues year m Hm) as (_ & _ & _ & Ht).
  rewrite Ht.
  destruct (existsb (Monthly.createdUpTo year m) (Monthly.plainIssues issues)) eqn:He;
    [reflexivity|].
  unfold Monthly.runningAfter, Monthly.noBacklog in *.
  rewrite List.Forall_forall in Hb.
  rewrite (len_filter_ext_in (Monthly.seenBy year m) (Monthly.createdUpTo year m)),
    (len_filter_ext_in (fun i => Monthly.seenBy year m i && Monthly.closedInYear year i)
       (fun i => Monthly.createdUpTo year m i && Monthly.closedInYear year i)).
  - rewrite <- filter_andb, (existsb_false_filter _ _ He). reflexivity.
  - intros i Hi. unfold Monthly.seenBy. now rewrite (Hb i Hi).
  - intros i Hi. unfold Monthly.seenBy. now rewrite (Hb i Hi).
Qed.

Lemma runningAfter_S (issues : list Issue) (year : Z) (m : nat) :
  Monthly.runningAfter issues year (S m) =
  Monthly.runningAfter issues year m +
  len (List.filter (Monthly.createdIn year (S m)) (Monthly.plainIssues issues)) -
  len (List.filter (fun i => Monthly.createdIn year (S m) i && Monthly.closedInYear year i)
                   (Monthly.plainIssues issues)).
Proof.
  unfold Monthly.runningAfter.
  rewrite (len_filter_split (Monthly.seenBy year (S m)) (Monthly.seenBy year m)
             (Monthly.createdIn year (S m))),
    (len_filter_split
       (fun i => Monthly.seenBy year (S m) i && Monthly.closedInYear year i)
       (fun i => Monthly.seenBy year m i && Monthly.closedInYear year i)
       (fun i => Monthly.createdIn year (S m) i && Monthly.closedInYear year i)).
  - lia.
  - intros i _. unfold Monthly.seenBy. rewrite createdUpTo_S.
    destruct (Monthly.backlog year i), (Monthly.createdUpTo year m i),
      (Monthly.createdIn year (S m) i), (Monthly.closedInYear year i); reflexivity.
  - intros i _. unfold Monthly.seenBy.
    pose proof (createdUpTo_createdIn_disjoint year m i) as Hd.
    assert (Hbk : Monthly.backlog year i && Monthly.createdIn year (S m) i = false).
    { unfold Monthly.backlog, Monthly.createdIn.
      destruct (Z.ltb_spec (getFullYear (created_at i)) year),
        (Z.eqb_spec (getFullYear (created_at i)) year); cbn; try reflexivity; lia. }
    destruct (Monthly.backlog year i), (Monthly.createdUpTo year m i),
      (Monthly.createdIn year (S m) i), (Monthly.closedInYear year i);
      cbn in *; congruence.
  - intros i _. unfold Monthly.seenBy. rewrite createdUpTo_S.
    destruct (Monthly.backlog year i), (Monthly.createdUpTo year m i),
      (Monthly.createdIn year (S m) i); reflexivity.
  - intros i _. unfold Monthly.seenBy.
    pose proof (createdUpTo_createdIn_disjoint year m i) as Hd.
    assert (Hbk : Monthly.backlog year i && Monthly.createdIn year (S m) i = false).
    { unfold Monthly.backlog, Monthly.createdIn.
      destruct (Z.ltb_spec (getFullYear (created_at i)) year),
        (Z.eqb_spec (getFullYear (created_at i)) year); cbn; try reflexivity; lia. }
    destruct (Monthly.backlog year i), (Monthly.createdUpTo year m i),
      (Monthly.createdIn year (S m) i); cbn in *; congruence.
Qed.

(** A month in which an issue was created holds the running counter after
    the last issue created in it. *)
Lemma total_of_recomputed_month (issues : list Issue) (year : Z) (m : nat) :
  (m < 12)%nat ->
  0 < opened (Monthly.slot (StatsCalculator.calculateMonthlyIssueStats issues year) m) ->
  total (Monthly.slot (StatsCalculator.calculateMonthlyIssueStats issues year) m) =
  Monthly.runningAfter issues year m.
Proof.
  intros Hm Hop.
  destruct (series_closed_form issues year m Hm) as (_ & Ho & _ & Ht).
  rewrite Ht. rewrite Ho in Hop.
  destruct (existsb (Monthly.createdUpTo year m) (Monthly.plainIssues issues)) eqn:He;
    [reflexivity|].
  rewrite (len_filter_ext_in _ (fun _ => false)) in Hop.
  - rewrite filter_never in Hop. unfold len in Hop. cbn [length] in Hop. lia.
  - intros i Hi. destruct (Monthly.createdIn year m i) eqn:Hc; [|reflexivity].
    apply createdIn_createdUpTo in Hc.
    assert (existsb (Monthly.createdUpTo year m) (Monthly.plainIssues issues) = true)
      by (apply existsb_exists; eauto).
    congruence.
Qed.

(** What holds of the totals.  The series has 12 entries.  A month in which
    no issue was created carries the total of the month before (January: 0).
    The recurrence total[m] = total[m-1] + opened[m] - closed[m] holds for
    every month when no issue dates from an earlier year and every closure in
    the year falls in the month in which the issue was created. *)
Lemma monthly_totals_carry_forward (issues : list Issue) (year : Z) :
  let series := StatsCalculator.calculateMonthlyIssueStats issues year in
  let at_ := Monthly.slot series in
  length series = 12%nat /\
  (forall m, (m < 11)%nat -> opened (at_ (S m)) = 0 ->
             total (at_ (S m)) = total (at_ m)) /\
  (opened (at_ 0%nat) = 0 -> total (at_ 0%nat) = 0) /\
  (Monthly.noBacklog issues year ->
   Monthly.closedInCreationMonth issues year ->
   total (at_ 0%nat) = opened (at_ 0%nat) - closed (at_ 0%nat) /\
   forall m, (m < 11)%nat ->
     total (at_ (S m)) = total (at_ m) + opened (at_ (S m)) - closed (at_ (S m))).
Proof.
  intros series at_. subst at_ series.
  set (plain := Monthly.plainIssues issues).
  split; [apply (series_closed_form issues year 0); lia|].
  split; [|split].
  - intros m Hm Hop.
    destruct (series_closed_form issues year (S m) ltac:(lia)) as (_ & Ho & _ & Ht).
    destruct (series_closed_form issues year m ltac:(lia)) as (_ & _ & _ & Ht').
    rewrite Ht, Ht'. rewrite Ho in Hop.
    pose proof (len_filter_zero _ _ Hop) as Hnone.
    assert (Hup : forall i, In i (Monthly.plainIssues issues) ->
              Monthly.createdUpTo year (S m) i = Monthly.createdUpTo year m i).
    { intros i Hi. rewrite createdUpTo_S, (Hnone i Hi). apply orb_false_r. }
    rewrite (existsb_ext_in _ _ _ Hup). unfold Monthly.runningAfter.
    rewrite (len_filter_ext_in (Monthly.seenBy year (S m)) (Monthly.seenBy year m)),
      (len_filter_ext_in
         (fun i => Monthly.seenBy year (S m) i && Monthly.closedInYear year i)
         (fun i => Monthly.seenBy year m i && Monthly.closedInYear year i));
      try reflexivity;
      intros i Hi; unfold Monthly.seenBy; now rewrite (Hup i Hi).
  - intros Hop.
    destruct (series_closed_form issues year 0 ltac:(lia)) as (_ & Ho & _ & Ht).
    rewrite Ht. rewrite Ho in Hop.
    pose proof (len_filter_zero _ _ Hop) as Hnone.
    rewrite (existsb_ext_in _ (fun _ => false)).
    + now rewrite existsb_never.
    + intros i Hi. rewrite createdUpTo_0. now apply Hnone.
  - intros Hb Hc. split.
    + rewrite (total_without_backlog issues year 0) by (try lia; assumption).
      destruct (series_closed_form issues year 0 ltac:(lia)) as (_ & Ho & Hcl & _).
      rewrite Ho, Hcl. unfold Monthly.runningAfter.
      rewrite (len_filter_ext_in (Monthly.seenBy year 0) (Monthly.createdIn year 0)),
        (len_filter_ext_in
           (fun i => Monthly.seenBy year 0 i && Monthly.closedInYear year i)
           (fun i => Monthly.known year i && Monthly.closedIn year 0 i));
        try reflexivity.
      * intros i Hi. rewrite (closed_of_created issues year 0 i Hb Hc Hi).
        unfold Monthly.seenBy. rewrite createdUpTo_0.
        unfold Monthly.noBacklog in Hb. rewrite List.Forall_forall in Hb.
        now rewrite (Hb i Hi).
      * intros i Hi. unfold Monthly.seenBy. rewrite createdUpTo_0.
        unfold Monthly.noBacklog in Hb. rewrite List.Forall_forall in Hb.
        now rewrite (Hb i Hi).
    + intros m Hm.
      rewrite (total_without_backlog issues year (S m)) by (try lia; assumption).
      rewrite (total_without_backlog issues year m) by (try lia; assumption).
      destruct (series_closed_form issues year (S m) ltac:(lia)) as (_ & Ho & Hcl & _).
      rewrite Ho, Hcl, runningAfter_S.
      rewrite (len_filter_ext_in
                 (fun i => Monthly.known year i && Monthly.closedIn year (S m) i)
                 (fun i => Monthly.createdIn year (S m) i && Monthly.closedInYear year i));
        [lia|].
      intros i Hi. now apply (closed_of_created issues year (S m) i Hb Hc Hi).
Qed.

End MonthlyRecurrence.

(** * The properties on sample data *)

(** C1 as the specification states it fails on the sample organization: two
    own repositories, the issues of [a] cannot be fetched, and the report
    lists one repository, not two. *)
Lemma C1_report_lists_one_repository :
  length (List.filter (fun repo => negb (fork repo))
            [Sample.repoNamed "a" false; Sample.repoNamed "f" true;
             Sample.repoNamed "b" false]) = 2%nat /\
  Aggregator.getIssues Sample.api "acme" "a" 2024 = Err /\
  exists report,
    Aggregator.result Sample.run = Ok report /\
    map name (repos report) = ["b"] /\
    length (repos report) <> 2%nat /\
    Aggregator.progress Sample.run = [(1, 2); (2, 2)].
Proof.
  split; [reflexivity|]. split; [reflexivity|].
  eexists. split; [vm_compute; reflexivity|].
  split; [reflexivity|]. split; [cbn; lia | vm_compute; reflexivity].
Qed.

Lemma C1_on_sample_organization :
  exists report,
    Aggregator.result Sample.run = Ok report /\
    length (repos report) = 1%nat /\
    map name (repos report) = ["b"] /\
    Aggregator.progress Sample.run = [(1, 2); (2, 2)].
Proof.
  refine (@C1_failing_repository_is_left_out_of_the_report utc Sample.engine
            Sample.api Sample.now Sample.now [1%nat; 0%nat] None "acme"
            [ {| login := "alice" |} ]
            [Sample.repoNamed "a" false; Sample.repoNamed "f" true;
             Sample.repoNamed "b" false]
            (Sample.repoNamed "a" false) (Sample.repoNamed "b" false)
            (Some [Sample.alice])
            [Sample.issueAt Sample.feb10 (Some Sample.apr10)] []
            _ _ _ _ _ _ _ _ _).
  - reflexivity.
  - reflexivity.
  - reflexivity.
  - left. reflexivity.
  - reflexivity.
  - reflexivity.
  - reflexivity.
  - reflexivity.
  - apply perm_swap.
Defined.

(** C2 as the specification states it fails: an issue created inside the
    range January 1st to March 1st, 2024 and closed on April 10th is counted
    as closed although its closing date lies after the range. *)
Lemma C2_closed_issue_closed_after_the_range :
  In SampleReports.lateClosure
     (Aggregator.DateRange.countedClosed [SampleReports.lateClosure]
        SampleReports.jan1 SampleReports.mar1) /\
  Aggregator.DateRange.issuesClosed [SampleReports.lateClosure]
    SampleReports.jan1 SampleReports.mar1 = 1 /\
  closed_at SampleReports.lateClosure = Some Sample.apr10 /\
  ~ (SampleReports.jan1 <= Sample.apr10 <= SampleReports.mar1).
Proof.
  split; [left; reflexivity|]. split; [reflexivity|]. split; [reflexivity|].
  unfold SampleReports.jan1, SampleReports.mar1, Sample.apr10. lia.
Qed.

(** C3 fails on the code.  For one issue created in February 2024 and
    closed in April 2024, February is recomputed (an issue was opened in it)
    and its total is 0, while the issue was open at the end of February and
    the recurrence (the total of January plus the issues opened in February
    less those closed in February) gives 1: the loop takes the closure off
    the running total in the turn that counts the creation, although the
    [closed] column books it in April.  For one open issue of 2023 and one
    opened in February 2024, the total of January is 0 with one issue open,
    and the total of February is 2, while the recurrence gives 1. *)
Theorem C3_recurrence_fails_for_late_closure :
  let series :=
    @StatsCalculator.calculateMonthlyIssueStats utc [SampleReports.lateClosure] 2024 in
  let carried :=
    @StatsCalculator.calculateMonthlyIssueStats utc
      [Sample.issueAt Sample.nov2023 None; Sample.issueAt Sample.feb10 None] 2024 in
  (opened (Monthly.slot series 1) = 1 /\
   closed (Monthly.slot series 1) = 0 /\
   closed (Monthly.slot series 3) = 1 /\
   total (Monthly.slot series 0) = 0 /\
   total (Monthly.slot series 1) = 0 /\
   total (Monthly.slot series 1) <>
     total (Monthly.slot series 0) + opened (Monthly.slot series 1)
     - closed (Monthly.slot series 1)) /\
  (opened (Monthly.slot carried 1) = 1 /\
   closed (Monthly.slot carried 1) = 0 /\
   total (Monthly.slot carried 0) = 0 /\
   total (Monthly.slot carried 1) = 2 /\
   total (Monthly.slot carried 1) <>
     total (Monthly.slot carried 0) + opened (Monthly.slot carried 1)
     - closed (Monthly.slot carried 1)).
Proof. vm_compute. repeat split; discriminate. Qed.

Example carry_forward_on_tidy_issues :
  let series :=
    @StatsCalculator.calculateMonthlyIssueStats utc SampleReports.tidyIssues 2024 in
  let at_ := Monthly.slot series in
  length series = 12%nat /\
  (forall m, (m < 11)%nat -> opened (at_ (S m)) = 0 ->
             total (at_ (S m)) = total (at_ m)) /\
  (opened (at_ 0%nat) = 0 -> total (at_ 0%nat) = 0) /\
  (@Monthly.noBacklog utc SampleReports.tidyIssues 2024 ->
   @Monthly.closedInCreationMonth utc SampleReports.tidyIssues 2024 ->
   total (at_ 0%nat) = opened (at_ 0%nat) - closed (at_ 0%nat) /\
   forall m, (m < 11)%nat ->
     total (at_ (S m)) = total (at_ m) + opened (at_ (S m)) - closed (at_ (S m))).
Proof.
  exact (@monthly_totals_carry_forward utc utc_laws SampleReports.tidyIssues 2024).
Qed.

(** The sample issues meet the two conditions of the recurrence, and the
    series they give. *)
Example tidy_issues_series :
  @Monthly.noBacklog utc SampleReports.tidyIssues 2024 /\
  @Monthly.closedInCreationMonth utc SampleReports.tidyIssues 2024 /\
  map total (@StatsCalculator.calculateMonthlyIssueStats utc SampleReports.tidyIssues 2024)
    = [0; 1; 1; 1; 1; 1; 1; 1; 1; 1; 1; 1] /\
  map opened (@StatsCalculator.calculateMonthlyIssueStats utc SampleReports.tidyIssues 2024)
    = [0; 2; 0; 1; 0; 0; 0; 0; 0; 0; 0; 0] /\
  map closed (@StatsCalculator.calculateMonthlyIssueStats utc SampleReports.tidyIssues 2024)
    = [0; 1; 0; 1; 0; 0; 0; 0; 0; 0; 0; 0].
Proof.
  split; [|split].
  - unfold Monthly.noBacklog.
    change (Monthly.plainIssues SampleReports.tidyIssues) with SampleReports.tidyIssues.
    repeat (apply List.Forall_cons; [vm_compute; reflexivity|]). apply List.Forall_nil.
  - unfold Monthly.closedInCreationMonth.
    change (Monthly.plainIssues SampleReports.tidyIssues) with SampleReports.tidyIssues.
    repeat (apply List.Forall_cons;
            [intros _ t Ht _; cbn [closed_at Sample.issueAt] in Ht;
             try discriminate; injection Ht as <-; vm_compute; reflexivity|]).
    apply List.Forall_nil.
  - vm_compute. repeat split; reflexivity.
Qed.

Lemma C4_on_pending_server :
  Gateway.getContributorStats Sample.alwaysPending =
    ([], [Gateway.Request; Gateway.Delay 1000; Gateway.Request; Gateway.Delay 1000;
          Gateway.Request; Gateway.Delay 1000; Gateway.Request]) /\
  (length (List.filter Gateway.isRequest (retryEvents 3)) <= 4)%nat /\
  (forall server',
     let evs := (Gateway.getContributorStats server').2 in
     (length (List.filter Gateway.isRequest evs) <= 4)%nat /\
     S (length (List.filter Gateway.isDelay evs)) =
       length (List.filter Gateway.isRequest evs) /\
     Forall (fun e => Gateway.isDelay e = true -> e = Gateway.Delay 1000) evs).
Proof.
  refine (C4_pending_status_is_retried_three_times Sample.alwaysPending 3 _ _ _).
  - lia.
  - intros j _. eexists. repeat split; reflexivity.
  - left. split; [reflexivity|]. eexists. repeat split; reflexivity.
Defined.

Lemma C5_on_small_report :
  Aggregator.result
    (@Aggregator.getOrganization utc Sample.engine Sample.api (Sample.now + 3600000) 0 []
       (CacheManager.save Sample.now "acme" SampleReports.small None) "acme" true)
    = Ok SampleReports.small /\
  Aggregator.network
    (@Aggregator.getOrganization utc Sample.engine Sample.api (Sample.now + 3600000) 0 []
       (CacheManager.save Sample.now "acme" SampleReports.small None) "acme" true)
    = [] /\
  Aggregator.progress
    (@Aggregator.getOrganization utc Sample.engine Sample.api (Sample.now + 3600000) 0 []
       (CacheManager.save Sample.now "acme" SampleReports.small None) "acme" true)
    = [] /\
  Aggregator.store'
    (@Aggregator.getOrganization utc Sample.engine Sample.api (Sample.now + 3600000) 0 []
       (CacheManager.save Sample.now "acme" SampleReports.small None) "acme" true)
    = CacheManager.save Sample.now "acme" SampleReports.small None.
Proof.
  refine (@C5_cache_hit_round_trip utc Sample.engine Sample.api Sample.now (Sample.now + 3600000) 0 []
            None "acme" SampleReports.small true _).
  unfold Cache.CACHE_EXPIRATION, Sample.now. lia.
Defined.

(** C7 as the specification states it fails: the first page is empty, which
    the specification takes as the end of the loop, and yet the paginator
    goes on to request the second page and returns its item. *)
Lemma C7_empty_page_does_not_stop_the_loop :
  Paginator.pageData Sample.emptyFirstPage 1 = [] /\
  claimedLastPage Sample.emptyFirstPage 1 = true /\
  Paginator.getAllPages Sample.emptyFirstPage 5 =
    Some (Ok [7], [Paginator.request 1; Paginator.request 2]).
Proof. repeat split; vm_compute; reflexivity. Qed.

Lemma C7_on_three_pages :
  Paginator.getAllPages Sample.threePages 5 =
    Some (Ok (concat (map (Paginator.pageData Sample.threePages) (Paginator.pages 3))),
          map Paginator.request (Paginator.pages 3)) /\
  Forall (fun req => Paginator.per_page req = 100)
         (map Paginator.request (Paginator.pages 3)).
Proof.
  refine (C7_getAllPages_drains_until_no_next_link Sample.threePages 3 5 _ _ _ _ _).
  - lia.
  - lia.
  - intros p Hp. assert (Hcases : p = 1 \/ p = 2) by lia.
    destruct Hcases as [-> | ->]; split; reflexivity.
  - reflexivity.
  - reflexivity.
Defined.

Example three_pages_items :
  Paginator.getAllPages Sample.threePages 5 =
    Some (Ok [1; 10; 2; 20; 30],
          [Paginator.request 1; Paginator.request 2; Paginator.request 3]).
Proof. vm_compute. reflexivity. Qed.

(** C9 fails on the reports of [getOrganization].  Whatever the API answers,
    [getMostActiveMembers] gives every member of a freshly built report 0
    contributions, because the report's [contributors] fields are counts and
    not lists.  On the sample organization alice has 5 commits in the year of
    the report, the report says so in [members], and
    [getMostActiveMembers] gives her 0. *)
Theorem C9_most_active_members_ignore_report_contributions :
  (forall (cal : Calendar) (engine : Engine) (api : Aggregator.Api) (now later : Z)
          (order : list nat) (orgName : string) (onProgress : bool) (limit : nat)
          (report : Report),
     Aggregator.result
       (@Aggregator.getOrganization cal engine api now later order None orgName
          onProgress)
       = Ok report ->
     Forall (fun e => ce_contributions e = 0)
            (Organization.getMostActiveMembers
               (Organization.ofReport orgName report) limit)) /\
  exists report,
    Aggregator.result Sample.run = Ok report /\
    map (fun m => (login (member m), contributions m)) (members report)
      = [("alice", JsObject.Own (JsObject.Num 5))] /\
    map contributors (repos report) = [NumberOf 1] /\
    Organization.getMostActiveMembers (Organization.ofReport "acme" report) 5
      = [ {| ce_login := "alice"; ce_contributions := 0 |} ].
Proof.
  split.
  - intros cal engine api now later order orgName onProgress limit report Hrun.
    apply getMostActiveMembers_of_counts. cbn [Organization.ofReport Organization.org_repos].
    now apply (@repos_of_miss_are_counts cal engine api now later order None orgName
                 onProgress report).
  - eexists. split; [vm_compute; reflexivity|]. repeat split; vm_compute; reflexivity.
Qed.


Lemma C8_on_sample_engine :
  @StatsCalculator.categorizePRTypes Sample.engine [closedOn "constructor/x"] =
    {[ "constructor" := JsObject.Str "function Object() { [native code] }1" ]} /\
  @StatsCalculator.categorizePRTypes Sample.engine
    [closedOn "__proto__/x"; closedOn "fix/y"] = {[ "fix" := JsObject.Num 1 ]} /\
  @StatsCalculator.categorizePRTypes Sample.engine
    [closedOn "feature/login"; closedOn "Feature/Logout"] !! "feature"
    = Some (JsObject.Num 2).
Proof.
  destruct (@C8_categorizePRTypes_miscounts_inherited_types Sample.engine
              sample_engine_laws)
    as (_ & _ & _ & Hordinary & _ & _ & Hconstructor & Hproto).
  split; [exact Hconstructor|]. split; [exact Hproto|].
  exact (Hordinary [closedOn "feature/login"; closedOn "Feature/Logout"] "feature"
           eq_refl).
Defined.

Lemma C10_on_sample_engine :
  exists pr : PullRequest,
    pr_state pr = "closed" /\
    StatsCalculator.headRef pr = Some "/login" /\
    JsString.includes "/" "/login" = true /\
    @StatsCalculator.prType Sample.engine pr = EmptyString /\
    @StatsCalculator.categorizePRTypes Sample.engine [pr] !! EmptyString
      = Some (JsObject.Num 1) /\
    @StatsCalculator.categorizePRTypes Sample.engine [pr] !! "unknown" = None.
Proof.
  exact (@C10_empty_prefix_is_counted_under_empty_string Sample.engine
           sample_engine_laws).
Defined.

(** * Further properties *)

(** ** Paginator: failure, divergence, and what a result tells *)

Section PaginatorMore.
Context {A : Type} (method : Paginator.PageRequest -> Fetch (Paginator.Response A)).

Lemma loop_fails (m : nat) :
  forall (fuel s : nat) (allData : list A) (sent : list Paginator.PageRequest),
    (m < fuel)%nat ->
    (forall j, (j < m)%nat ->
       Paginator.pageOk method (Z.of_nat (s + j)) = true /\
       Paginator.pageHasNext method (Z.of_nat (s + j)) = true) ->
    Paginator.pageOk method (Z.of_nat (s + m)) = false ->
    Paginator.loop method fuel allData (Z.of_nat s) sent =
    Some (Err, sent ++ map Paginator.request (map Z.of_nat (seq s (S m)))).
Proof.
  induction m as [|m IH]; intros fuel s allData sent Hfuel Hnext Hbad;
    (destruct fuel as [|fuel]; [lia|]); cbn [Paginator.loop].
  - rewrite Nat.add_0_r in Hbad. unfold Paginator.pageOk in Hbad.
    cbn [seq map].
    destruct (method (Paginator.request (Z.of_nat s))) as [resp|];
      [discriminate | reflexivity].
  - destruct (Hnext 0%nat ltac:(lia)) as [Hok0 Hnext0].
    rewrite Nat.add_0_r in Hok0, Hnext0.
    cbn [seq map].
    unfold Paginator.pageOk, Paginator.pageHasNext in Hok0, Hnext0.
    destruct (method (Paginator.request (Z.of_nat s))) as [resp|]; [|discriminate].
    rewrite Hnext0.
    replace (Z.of_nat s + 1) with (Z.of_nat (S s)) by lia.
    rewrite (IH fuel (S s)).
    + now rewrite <- !app_assoc.
    + lia.
    + intros j Hj. replace (S s + j)%nat with (s + S j)%nat by lia. apply Hnext. lia.
    + now replace (S s + m)%nat with (s + S m)%nat by lia.
Qed.

(** X1: when the fetch of page [k] fails after [k - 1] linked pages, the
    whole pagination fails: no item of the earlier pages is returned, and the
    pages 1 to [k] are the requests that were sent. *)
Theorem getAllPages_failure_discards_earlier_pages (k fuel : nat) :
  (1 <= k)%nat ->
  (k <= fuel)%nat ->
  (forall p, 1 <= p < Z.of_nat k ->
     Paginator.pageOk method p = true /\ Paginator.pageHasNext method p = true) ->
  Paginator.pageOk method (Z.of_nat k) = false ->
  Paginator.getAllPages method fuel =
    Some (Err, map Paginator.request (Paginator.pages k)).
Proof.
  intros Hk Hfuel Hnext Hbad. unfold Paginator.getAllPages, Paginator.pages.
  destruct k as [|m]; [lia|]. change 1 with (Z.of_nat 1).
  rewrite (loop_fails m fuel 1 [] []); try reflexivity; try lia; try assumption.
  intros j Hj. apply Hnext. lia.
Qed.

Lemma loop_never_returns (fuel : nat) :
  forall (s : Z) (allData : list A) (sent : list Paginator.PageRequest),
    1 <= s ->
    (forall p, 1 <= p ->
       Paginator.pageOk method p = true /\ Paginator.pageHasNext method p = true) ->
    Paginator.loop method fuel allData s sent = None.
Proof.
  induction fuel as [|fuel IH]; intros s allData sent Hs Hall; [reflexivity|].
  cbn [Paginator.loop]. destruct (Hall s Hs) as [Hok Hnext].
  unfold Paginator.pageOk, Paginator.pageHasNext in Hok, Hnext.
  destruct (method (Paginator.request s)) as [resp|]; [|discriminate].
  rewrite Hnext. apply IH; [lia | exact Hall].
Qed.

(** X2: the loop has no bound of its own: against a server that links
    every page to a next one it never returns, however many rounds it is
    given. *)
Theorem getAllPages_never_returns_while_linked :
  (forall p, 1 <= p ->
     Paginator.pageOk method p = true /\ Paginator.pageHasNext method p = true) ->
  forall fuel, Paginator.getAllPages method fuel = None.
Proof.
  intros Hall fuel. unfold Paginator.getAllPages.
  apply loop_never_returns; [lia | exact Hall].
Qed.

Lemma loop_result (fuel : nat) :
  forall (s : nat) (allData items : list A) (sent sent' : list Paginator.PageRequest),
    Paginator.loop method fuel allData (Z.of_nat s) sent = Some (Ok items, sent') ->
    exists m : nat,
      (m < fuel)%nat /\
      sent' = sent ++ map Paginator.request (map Z.of_nat (seq s (S m))) /\
      items = allData ++
              concat (map (Paginator.pageData method) (map Z.of_nat (seq s (S m)))) /\
      (forall j, (j < m)%nat ->
         Paginator.pageHasNext method (Z.of_nat (s + j)) = true) /\
      Paginator.pageOk method (Z.of_nat (s + m)) = true /\
      Paginator.pageHasNext method (Z.of_nat (s + m)) = false.
Proof.
  induction fuel as [|fuel IH]; intros s allData items sent sent' Hrun;
    [discriminate|].
  cbn [Paginator.loop] in Hrun.
  destruct (method (Paginator.request (Z.of_nat s))) as [resp|] eqn:Hresp;
    [|discriminate].
  destruct (Paginator.hasNext (Paginator.link resp)) eqn:Hnext.
  - replace (Z.of_nat s + 1) with (Z.of_nat (S s)) in Hrun by lia.
    apply IH in Hrun as (m & Hm & Hsent & Hitems & Hlinked & Hok & Hlast).
    exists (S m). split; [lia|].
    cbn [seq map concat]. unfold Paginator.pageData at 1. rewrite Hresp.
    rewrite <- !app_assoc in *. cbn [app] in *.
    repeat split; try assumption.
    + intros j Hj. destruct j as [|j].
      * rewrite Nat.add_0_r. unfold Paginator.pageHasNext. now rewrite Hresp.
      * replace (s + S j)%nat with (S s + j)%nat by lia. apply Hlinked. lia.
    + now replace (s + S m)%nat with (S s + m)%nat by lia.
    + now replace (s + S m)%nat with (S s + m)%nat by lia.
  - injection Hrun as <- <-. exists 0%nat. split; [lia|].
    cbn [seq map concat]. unfold Paginator.pageData. rewrite Hresp, app_nil_r.
    rewrite Nat.add_0_r. unfold Paginator.pageOk, Paginator.pageHasNext.
    rewrite Hresp. repeat split; try assumption. intros j Hj. lia.
Qed.

(** X3: a list returned by the paginator is never partial.  It is the
    concatenation of the pages 1 to [n] for the first page [n] answered
    without a [rel="next"] link; these pages, and no other, were requested. *)
Theorem getAllPages_result_is_complete (fuel : nat) (items : list A)
    (sent : list Paginator.PageRequest) :
  Paginator.getAllPages method fuel = Some (Ok items, sent) ->
  exists n : nat,
    (1 <= n <= fuel)%nat /\
    sent = map Paginator.request (Paginator.pages n) /\
    items = concat (map (Paginator.pageData method) (Paginator.pages n)) /\
    (forall p, 1 <= p < Z.of_nat n -> Paginator.pageHasNext method p = true) /\
    Paginator.pageOk method (Z.of_nat n) = true /\
    Paginator.pageHasNext method (Z.of_nat n) = false.
Proof.
  unfold Paginator.getAllPages. change 1 with (Z.of_nat 1). intros Hrun.
  apply loop_result in Hrun as (m & Hm & Hsent & Hitems & Hlinked & Hok & Hlast).
  exists (S m). unfold Paginator.pages. split; [lia|].
  repeat split; try assumption.
  intros p Hp. replace p with (Z.of_nat (1 + Z.to_nat (p - 1))) by lia.
  apply Hlinked. lia.
Qed.

End PaginatorMore.

(** ** Contributor statistics: the answer that is returned *)

Lemma retry_202_prefix (server : nat -> Fetch Gateway.StatsResponse) (k : nat) :
  forall attempt retries,
    (k <= retries)%nat ->
    (forall j, (j < k)%nat ->
       exists r, server (attempt + j)%nat = Ok r /\ Gateway.status r = 202) ->
    Gateway.getContributorStatsWithRetry server attempt retries =
    let r := Gateway.getContributorStatsWithRetry server (attempt + k) (retries - k) in
    (r.1, Nat.iter k (fun evs => Gateway.Request :: Gateway.Delay 1000 :: evs) r.2).
Proof.
  induction k as [|k IH]; intros attempt retries Hk Hp.
  - cbn. rewrite Nat.add_0_r, Nat.sub_0_r.
    now destruct (Gateway.getContributorStatsWithRetry server attempt retries).
  - destruct retries as [|retries]; [lia|].
    destruct (Hp 0%nat ltac:(lia)) as (resp & Hresp & Hst).
    rewrite Nat.add_0_r in Hresp.
    cbn [Gateway.getContributorStatsWithRetry]. rewrite Hresp, Hst. cbn [Z.eqb Pos.eqb].
    rewrite (IH (S attempt) retries) by
      (try lia; intros j Hj; replace (S attempt + j)%nat with (attempt + S j)%nat by lia;
       apply Hp; lia).
    cbn zeta. replace (S attempt + k)%nat with (attempt + S k)%nat by lia.
    replace (S retries - S k)%nat with (retries - k)%nat by lia.
    reflexivity.
Qed.

(** X4: the call returns the data of the first answer that is not a 202, or
    of the fourth answer whatever its status: after [k] answers with status
    202 ([k] at most 3), an answer that has another status, or that is the
    fourth, ends the call with its array (the empty list if its body is not an
    array), after [k] delays of 1000 ms. *)
Theorem retry_returns_the_first_settled_answer
    (server : nat -> Fetch Gateway.StatsResponse) (k : nat)
    (resp : Gateway.StatsResponse) :
  (k <= 3)%nat ->
  (forall j, (j < k)%nat -> exists r, server j = Ok r /\ Gateway.status r = 202) ->
  server k = Ok resp ->
  k = 3%nat \/ Gateway.status resp <> 202 ->
  Gateway.getContributorStats server =
    (match Gateway.body resp with
     | Some contributors => contributors
     | None => []
     end,
     retryEvents k).
Proof.
  intros Hk Hp Hresp Hlast. unfold Gateway.getContributorStats, retryEvents.
  rewrite (retry_202_prefix server k 0 3 Hk) by (intros j Hj; now apply Hp).
  cbn zeta. cbn [Nat.add].
  assert (Hdata : Gateway.validData resp =
                  match Gateway.body resp with
                  | Some contributors => contributors
                  | None => []
                  end)
    by (unfold Gateway.validData; destruct (Gateway.body resp); reflexivity).
  destruct (3 - k)%nat as [|r] eqn:Hr; cbn [Gateway.getContributorStatsWithRetry];
    rewrite Hresp; [now rewrite Hdata|].
  destruct Hlast as [->|Hne]; [discriminate|].
  destruct (Z.eqb_spec (Gateway.status resp) 202); [contradiction|].
  now rewrite Hdata.
Qed.

(** ** Cache: one slot *)

Section CacheMore.
Context {D : Type}.

(** X5: the store has one slot for all organizations: a read under another
    key than the one saved answers absent and removes the entry, so that the
    next read under the saved key finds nothing either, however fresh the
    entry was. *)
Theorem cache_read_under_another_key_evicts
    (saved now now' : Z) (key key' : string) (d : D) (store : Cache.Store D) :
  key <> key' ->
  Cache.getFromCache now key' (Cache.saveToCache saved key d store) = (None, None) /\
  Cache.getFromCache now' key
    (Cache.getFromCache now key' (Cache.saveToCache saved key d store)).2
    = (None, None).
Proof.
  intros Hne.
  assert (H1 : Cache.getFromCache now key' (Cache.saveToCache saved key d store)
               = (None, None)).
  { unfold Cache.saveToCache. apply getFromCache_stale, stale_iff. right. exact Hne. }
  rewrite H1. split; reflexivity.
Qed.

(** X6: a saved entry is served under its key up to and including 24 hours
    after the save (also when the clock reads earlier than the save), and no
    longer from the next millisecond on. *)
Theorem cache_entry_is_served_for_24_hours
    (saved now : Z) (key : string) (d : D) (store : Cache.Store D) :
  ((Cache.getFromCache now key (Cache.saveToCache saved key d store)).1 = Some d <->
   now <= saved + 86400000) /\
  ((Cache.getFromCache now key (Cache.saveToCache saved key d store)) = (None, None) <->
   saved + 86400000 < now).
Proof.
  unfold Cache.saveToCache.
  destruct (Cache.stale now key
              {| Cache.timestamp := saved; Cache.orgName := key; Cache.data := d |})
    eqn:Hs.
  - rewrite (getFromCache_stale _ _ _ Hs).
    apply stale_iff in Hs. cbn in Hs. unfold Cache.CACHE_EXPIRATION in Hs.
    destruct Hs as [Hs|Hs]; [|congruence].
    split; split; intros; try discriminate; try reflexivity; lia.
  - rewrite (getFromCache_fresh _ _ _ Hs). cbn [fst Cache.data].
    apply not_true_iff_false in Hs. rewrite stale_iff in Hs. cbn in Hs.
    unfold Cache.CACHE_EXPIRATION in Hs.
    split; split; intros; try discriminate; try reflexivity; lia.
Qed.

(** X7: reading twice is reading once: a second read at the same time under
    the same key gives the same answer and leaves the store as the first read
    left it; a read that finds the entry does not change the store. *)
Theorem cache_read_is_idempotent (now : Z) (key : string) (store : Cache.Store D) :
  Cache.getFromCache now key (Cache.getFromCache now key store).2 =
    Cache.getFromCache now key store /\
  (forall d, (Cache.getFromCache now key store).1 = Some d ->
             (Cache.getFromCache now key store).2 = store).
Proof.
  unfold Cache.getFromCache. destruct store as [entry|]; [|split; [reflexivity|discriminate]].
  destruct (Cache.stale now key entry) eqn:Hs; cbn [fst snd].
  - split; [reflexivity | discriminate].
  - rewrite Hs. split; reflexivity.
Qed.

End CacheMore.

(** ** Aggregator: failure, caching, progress and the contents of a report *)

Lemma sumOf_app {A} (f : A -> Z) (l1 l2 : list A) :
  Totals.sumOf f (l1 ++ l2) = Totals.sumOf f l1 + Totals.sumOf f l2.
Proof.
  induction l1 as [|x l1 IH]; [reflexivity|].
  cbn [app]. unfold Totals.sumOf in *. cbn [foldr]. rewrite IH. lia.
Qed.

Lemma sumOf_cons {A} (f : A -> Z) (x : A) (l : list A) :
  Totals.sumOf f (x :: l) = f x + Totals.sumOf f l.
Proof. reflexivity. Qed.

Lemma foldl_add_sumOf {A} (f : A -> Z) (l : list A) (a : Z) :
  foldl (fun sum x => sum + f x) a l = a + Totals.sumOf f l.
Proof.
  revert a. induction l as [|x l IH]; intros a; cbn [foldl].
  - cbn. lia.
  - rewrite IH, sumOf_cons. lia.
Qed.

Lemma sumOf_ext_in {A} (f g : A -> Z) (l : list A) :
  (forall x, In x l -> f x = g x) -> Totals.sumOf f l = Totals.sumOf g l.
Proof.
  induction l as [|x l IH]; intros Hfg; [reflexivity|].
  rewrite !sumOf_cons, (Hfg x (or_introl eq_refl)), IH; [reflexivity|].
  intros y Hy. apply Hfg. now right.
Qed.

Lemma sumOf_map {A B} (g : A -> B) (f : B -> Z) (l : list A) :
  Totals.sumOf f (map g l) = Totals.sumOf (fun x => f (g x)) l.
Proof.
  induction l as [|x l IH]; [reflexivity|].
  cbn [map]. now rewrite !sumOf_cons, IH.
Qed.

Lemma sumOf_Permutation {A} (f : A -> Z) (l l' : list A) :
  Permutation l l' -> Totals.sumOf f l = Totals.sumOf f l'.
Proof.
  induction 1 as [|x l l' _ IH|x y l|l l' l'' _ IH1 _ IH2].
  - reflexivity.
  - now rewrite !sumOf_cons, IH.
  - rewrite !sumOf_cons. lia.
  - now rewrite IH1.
Qed.

Lemma filter_nil_of_existsb {A} (p : A -> bool) (l : list A) :
  existsb p l = false -> List.filter p l = [].
Proof.
  induction l as [|y l IH]; [reflexivity|].
  cbn [existsb List.filter]. intros He.
  apply orb_false_iff in He as [Hy He]. rewrite Hy. now apply IH.
Qed.

Lemma settle_silent (total : Z) (order : list nat) :
  forall (processed : Z) (log : list (Z * Z)),
    (foldl (Aggregator.settle false total) (processed, log) order).2 = log.
Proof.
  induction order as [|i order IH]; intros processed log; [reflexivity|].
  cbn [foldl]. unfold Aggregator.settle at 2. cbn [fst snd]. apply IH.
Qed.

Section AggregatorMore.
Context {cal : Calendar} {engine : Engine}.

(** What a run that misses the cache and gets both listings returns. *)
Lemma getOrganization_miss
    (api : Aggregator.Api) (now later : Z) (order : list nat)
    (store : Cache.Store Report) (orgName : string) (onProgress : bool)
    (memberList : list Member) (allRepos : list Repo) :
  (CacheManager.get now orgName store).1 = None ->
  Aggregator.getMembers api orgName = Ok memberList ->
  Aggregator.getRepos api orgName = Ok allRepos ->
  let o := Aggregator.getOrganization api now later order store orgName onProgress in
  let repoStats := Totals.collected api orgName (getFullYear now) allRepos in
  exists report,
    Aggregator.result o = Ok report /\
    Aggregator.store' o =
      Some {| Cache.timestamp := later; Cache.orgName := orgName;
              Cache.data := report |} /\
    Aggregator.progress o =
      (foldl (Aggregator.settle onProgress (len (Totals.ownRepos allRepos)))
             (0, []) order).2 /\
    repos report = map (Aggregator.reportRepo (getFullYear now)) repoStats /\
    members report =
      map (fun m => {| member := m;
                       contributions :=
                         JsObject.orZero
                           (JsObject.get
                              (foldl (Aggregator.addContributors (getFullYear now))
                                     ∅ repoStats)
                              (login m)) |})
          memberList /\
    yearlyStats report = Aggregator.calculateYearlyStats repoStats (getFullYear now) /\
    monthlyIssueStats report =
      foldl (fun acc repo =>
               Aggregator.mergeMonthly acc
                 (Aggregator.i_monthlyStats (Aggregator.issues repo)))
            (replicate 12 zeroMonth) repoStats.
Proof.
  intros Hmiss Hmembers Hrepos o repoStats. subst o repoStats.
  unfold Aggregator.getOrganization.
  destruct (CacheManager.get now orgName store) as [[cached|] store1];
    [discriminate|].
  rewrite Hmembers, Hrepos. eexists. repeat split; reflexivity.
Qed.

(** X8: a failure of the member listing or of the repository listing fails
    the whole call: no report, nothing written to the cache, no progress
    call, and no request for any repository. *)
Theorem getOrganization_listing_failure_is_fatal
    (api : Aggregator.Api) (now later : Z) (order : list nat)
    (store : Cache.Store Report) (orgName : string) (onProgress : bool) :
  (CacheManager.get now orgName store).1 = None ->
  Aggregator.getMembers api orgName = Err \/ Aggregator.getRepos api orgName = Err ->
  let o := Aggregator.getOrganization api now later order store orgName onProgress in
  Aggregator.result o = Err /\
  Aggregator.store' o = (CacheManager.get now orgName store).2 /\
  Aggregator.progress o = [] /\
  Aggregator.network o =
    [Aggregator.CallMembers orgName; Aggregator.CallRepos orgName].
Proof.
  intros Hmiss Hfail o. subst o. unfold Aggregator.getOrganization.
  destruct (CacheManager.get now orgName store) as [[cached|] store1];
    [discriminate|].
  destruct Hfail as [Hf|Hf]; rewrite Hf;
    destruct (Aggregator.getMembers api orgName); repeat split; reflexivity.
Qed.



End AggregatorMore.

(** *** Which repositories a report lists *)

Section ReportContents.
Context {cal : Calendar} {engine : Engine}.

Lemma repoStatsOf_settles (api : Aggregator.Api) (orgName : string) (year : Z)
    (repo : Repo) :
  match Aggregator.repoStatsOf api orgName year repo with
  | Some rs =>
      Totals.settles api orgName year repo = true /\
      Aggregator.rs_name rs = repo_name repo /\
      Aggregator.rs_stars rs = stargazers_count repo /\
      0 <= Aggregator.i_closed (Aggregator.issues rs)
        <= Aggregator.i_opened (Aggregator.issues rs) /\
      0 <= Aggregator.p_closed (Aggregator.pullRequests rs)
        <= Aggregator.p_opened (Aggregator.pullRequests rs) /\
      length (Aggregator.i_monthlyStats (Aggregator.issues rs)) = 12%nat
  | None => Totals.settles api orgName year repo = false
  end.
Proof.
  unfold Aggregator.repoStatsOf, Totals.settles.
  destruct (Aggregator.getContributorStats api orgName (repo_name repo));
    [|reflexivity].
  destruct (Aggregator.getIssues api orgName (repo_name repo) year); [|reflexivity].
  destruct (Aggregator.getPullRequests api orgName (repo_name repo)); [|reflexivity].
  cbn. repeat split; try apply len_nonneg.
  - unfold len. pose proof (List.filter_length_le Aggregator.isClosedIssue
      (List.filter (fun item => Aggregator.inYear year (created_at item))
         (List.filter (fun item => negb (pull_request item)) a0))). lia.
  - unfold len. pose proof (List.filter_length_le StatsCalculator.isClosed
      (List.filter (fun item => Aggregator.inYear year (pr_created_at item)) a1)). lia.
  - unfold StatsCalculator.calculateMonthlyIssueStats. rewrite fold_length.
    cbn [fst]. apply length_replicate.
Qed.

Lemma omap_id_Some {A} (x : A) (l : list (option A)) :
  omap id (Some x :: l) = x :: omap id l.
Proof. reflexivity. Qed.

Lemma omap_id_None {A} (l : list (option A)) :
  omap id (@None A :: l) = omap id l.
Proof. reflexivity. Qed.

Lemma collected_names (api : Aggregator.Api) (orgName : string) (year : Z)
    (l : list Repo) :
  map (fun rs => (Aggregator.rs_name rs, Aggregator.rs_stars rs))
      (omap id (map (Aggregator.repoStatsOf api orgName year) l)) =
  map (fun repo => (repo_name repo, stargazers_count repo))
      (List.filter (Totals.settles api orgName year) l).
Proof.
  induction l as [|repo l IH]; [reflexivity|].
  cbn [map List.filter].
  pose proof (repoStatsOf_settles api orgName year repo) as Hs.
  destruct (Aggregator.repoStatsOf api orgName year repo) as [rs|].
  - destruct Hs as (-> & Hn & Hst & _). rewrite omap_id_Some. cbn [map].
    now rewrite Hn, Hst, IH.
  - rewrite Hs, omap_id_None. exact IH.
Qed.

Lemma collected_Forall (api : Aggregator.Api) (orgName : string) (year : Z)
    (allRepos : list Repo) :
  Forall (fun rs =>
            0 <= Aggregator.i_closed (Aggregator.issues rs)
              <= Aggregator.i_opened (Aggregator.issues rs) /\
            0 <= Aggregator.p_closed (Aggregator.pullRequests rs)
              <= Aggregator.p_opened (Aggregator.pullRequests rs) /\
            length (Aggregator.i_monthlyStats (Aggregator.issues rs)) = 12%nat)
         (Totals.collected api orgName year allRepos).
Proof.
  unfold Totals.collected. induction (Totals.ownRepos allRepos) as [|repo l IH];
    [constructor|].
  cbn [map].
  pose proof (repoStatsOf_settles api orgName year repo) as Hs.
  destruct (Aggregator.repoStatsOf api orgName year repo) as [rs|];
    [rewrite omap_id_Some | rewrite omap_id_None; exact IH].
  constructor; [|exact IH]. tauto.
Qed.

(** X10: the progress callback is called once for every repository that is
    not a fork, whether its fetches succeed or fail and in whichever order
    the repositories settle: the calls are (1, n), (2, n), ..., (n, n) for
    the n repositories that are not forks.  Without a callback nothing is
    reported. *)
Theorem getOrganization_progress_counts_every_own_repository
    (api : Aggregator.Api) (now later : Z) (order : list nat)
    (store : Cache.Store Report) (orgName : string)
    (memberList : list Member) (allRepos : list Repo) :
  (CacheManager.get now orgName store).1 = None ->
  Aggregator.getMembers api orgName = Ok memberList ->
  Aggregator.getRepos api orgName = Ok allRepos ->
  Permutation order (seq 0 (length (Totals.ownRepos allRepos))) ->
  Aggregator.progress
    (Aggregator.getOrganization api now later order store orgName true) =
    map (fun k => (Z.of_nat k, len (Totals.ownRepos allRepos)))
        (seq 1 (length (Totals.ownRepos allRepos))) /\
  Aggregator.progress
    (Aggregator.getOrganization api now later order store orgName false) = [].
Proof.
  intros Hmiss Hmembers Hrepos Horder.
  destruct (getOrganization_miss api now later order store orgName true
              memberList allRepos Hmiss Hmembers Hrepos)
    as (r1 & _ & _ & Hp1 & _).
  destruct (getOrganization_miss api now later order store orgName false
              memberList allRepos Hmiss Hmembers Hrepos)
    as (r2 & _ & _ & Hp2 & _).
  rewrite Hp1, Hp2, settle_all, settle_silent. cbn [snd app].
  assert (Hlen : length order = length (Totals.ownRepos allRepos))
    by (rewrite Horder; apply length_seq).
  rewrite Hlen. split; [|reflexivity].
  apply map_ext. intros k. reflexivity.
Qed.

(** X11: the report lists, in the order of the listing, exactly the
    repositories that are not forks and whose three fetches (contributor
    statistics, issues, pull requests) all succeeded, each with its name and
    its star count; forks and repositories with a failed fetch have no
    entry. *)
Theorem getOrganization_report_lists_settled_own_repositories
    (api : Aggregator.Api) (now later : Z) (order : list nat)
    (store : Cache.Store Report) (orgName : string) (onProgress : bool)
    (memberList : list Member) (allRepos : list Repo) :
  (CacheManager.get now orgName store).1 = None ->
  Aggregator.getMembers api orgName = Ok memberList ->
  Aggregator.getRepos api orgName = Ok allRepos ->
  exists report,
    Aggregator.result
      (Aggregator.getOrganization api now later order store orgName onProgress)
      = Ok report /\
    map (fun r => (name r, stars r)) (repos report) =
      map (fun repo => (repo_name repo, stargazers_count repo))
          (List.filter (fun repo => negb (fork repo) &&
                                    Totals.settles api orgName (getFullYear now) repo)
                       allRepos) /\
    (length (repos report) <= length allRepos)%nat.
Proof.
  intros Hmiss Hmembers Hrepos.
  destruct (getOrganization_miss api now later order store orgName onProgress
              memberList allRepos Hmiss Hmembers Hrepos)
    as (report & Hres & _ & _ & Hr & _).
  exists report. split; [exact Hres|].
  assert (Hnames : map (fun r => (name r, stars r)) (repos report) =
            map (fun repo => (repo_name repo, stargazers_count repo))
                (List.filter (fun repo => negb (fork repo) &&
                                 Totals.settles api orgName (getFullYear now) repo)
                             allRepos)).
  { rewrite Hr, map_map. cbn [name stars Aggregator.reportRepo].
    unfold Totals.collected. rewrite <- filter_andb. apply collected_names. }
  split; [exact Hnames|].
  apply (f_equal (@length _)) in Hnames. rewrite !length_map in Hnames.
  rewrite Hnames. apply List.filter_length_le.
Qed.

End ReportContents.

(** *** Totals of a report *)

Lemma slot_nil (m : nat) : Monthly.slot [] m = zeroMonth.
Proof. reflexivity. Qed.

Lemma slot_cons_S (x : MonthStat) (l : list MonthStat) (m : nat) :
  Monthly.slot (x :: l) (S m) = Monthly.slot l m.
Proof. reflexivity. Qed.

Lemma mergeMonthly_slot (ms : list MonthStat) :
  forall (acc : list MonthStat) (m : nat),
    length acc = length ms ->
    length (Aggregator.mergeMonthly acc ms) = length ms /\
    opened (Monthly.slot (Aggregator.mergeMonthly acc ms) m) =
      opened (Monthly.slot acc m) + opened (Monthly.slot ms m) /\
    closed (Monthly.slot (Aggregator.mergeMonthly acc ms) m) =
      closed (Monthly.slot acc m) + closed (Monthly.slot ms m) /\
    total (Monthly.slot (Aggregator.mergeMonthly acc ms) m) =
      total (Monthly.slot acc m) + total (Monthly.slot ms m).
Proof.
  induction ms as [|x ms IH]; intros acc m Hlen.
  - destruct acc; [|discriminate]. cbn. repeat split; lia.
  - destruct acc as [|a acc]; [discriminate|]. cbn [Aggregator.mergeMonthly].
    injection Hlen as Hlen. destruct (IH acc (pred m) Hlen) as (Hl & Ho & Hc & Ht).
    split; [cbn [length]; now rewrite Hl|].
    destruct m as [|m]; [cbn; repeat split; lia|].
    rewrite !slot_cons_S. cbn [pred] in *. repeat split; assumption.
Qed.

Lemma mergeMonthly_all (repoStats : list Aggregator.RepoStats) :
  forall (acc : list MonthStat) (m : nat),
    length acc = 12%nat ->
    Forall (fun rs =>
              length (Aggregator.i_monthlyStats (Aggregator.issues rs)) = 12%nat)
           repoStats ->
    let merged :=
      foldl (fun acc repo =>
               Aggregator.mergeMonthly acc
                 (Aggregator.i_monthlyStats (Aggregator.issues repo)))
            acc repoStats in
    let series rs := Aggregator.i_monthlyStats (Aggregator.issues rs) in
    length merged = 12%nat /\
    opened (Monthly.slot merged m) =
      opened (Monthly.slot acc m) +
      Totals.sumOf (fun rs => opened (Monthly.slot (series rs) m)) repoStats /\
    closed (Monthly.slot merged m) =
      closed (Monthly.slot acc m) +
      Totals.sumOf (fun rs => closed (Monthly.slot (series rs) m)) repoStats /\
    total (Monthly.slot merged m) =
      total (Monthly.slot acc m) +
      Totals.sumOf (fun rs => total (Monthly.slot (series rs) m)) repoStats.
Proof.
  induction repoStats as [|rs repoStats IH]; intros acc m Hacc Hall; cbn zeta.
  - cbn. repeat split; try assumption; lia.
  - apply Forall_cons_1 in Hall as [Hrs Hall]. cbn [foldl].
    destruct (mergeMonthly_slot (Aggregator.i_monthlyStats (Aggregator.issues rs))
                acc m ltac:(lia)) as (Hl & Ho & Hc & Ht).
    destruct (IH (Aggregator.mergeMonthly acc
                    (Aggregator.i_monthlyStats (Aggregator.issues rs)))
                 m ltac:(lia) Hall) as (Hl' & Ho' & Hc' & Ht').
    cbn zeta in *. rewrite !sumOf_cons.
    repeat split; try assumption; lia.
Qed.

Lemma sumOf_filter {A} (p : A -> bool) (f : A -> Z) (l : list A) :
  Totals.sumOf f (List.filter p l) = Totals.sumOf (fun x => if p x then f x else 0) l.
Proof.
  induction l as [|x l IH]; [reflexivity|].
  cbn [List.filter]. destruct (p x) eqn:Hp; rewrite ?sumOf_cons, ?Hp, IH; lia.
Qed.

Section ReportTotals.
Context {cal : Calendar} {engine : Engine}.

Lemma yearCommits_sum (year : Z) (contributor : Contributor) :
  Aggregator.yearCommits year contributor =
  foldl (fun weekSum week =>
           weekSum + (if Aggregator.inYear year (w week * 1000) then c week else 0))
        0 (weeks contributor).
Proof.
  unfold Aggregator.yearCommits.
  rewrite (foldl_add_sumOf c), sumOf_filter.
  now rewrite (foldl_add_sumOf
                 (fun week => if Aggregator.inYear year (w week * 1000)
                              then c week else 0)).
Qed.

Lemma commitCount_reportRepo (year : Z) (rs : Aggregator.RepoStats) :
  commitCount (Aggregator.reportRepo year rs) =
  match Aggregator.contributorStats rs with
  | Some cs => Totals.sumOf (Aggregator.yearCommits year) cs
  | None => 0
  end.
Proof.
  unfold Aggregator.reportRepo. cbn [commitCount].
  destruct (Aggregator.contributorStats rs) as [cs|]; [|reflexivity].
  rewrite (foldl_add_sumOf
             (fun contributor =>
                foldl (fun weekSum week =>
                         weekSum + (if Aggregator.inYear year (w week * 1000)
                                    then c week else 0))
                      0 (weeks contributor))).
  rewrite Z.add_0_l. apply sumOf_ext_in. intros x _.
  symmetry. apply yearCommits_sum.
Qed.

(** X13: the series of the report has 12 entries, and each of its entries
    is the sum of the entries of that month over the repositories of the
    report: opened with opened, closed with closed, total with total. *)
Theorem getOrganization_monthly_series_is_the_sum_over_repositories
    (api : Aggregator.Api) (now later : Z) (order : list nat)
    (store : Cache.Store Report) (orgName : string) (onProgress : bool)
    (memberList : list Member) (allRepos : list Repo) :
  (CacheManager.get now orgName store).1 = None ->
  Aggregator.getMembers api orgName = Ok memberList ->
  Aggregator.getRepos api orgName = Ok allRepos ->
  let repoStats := Totals.collected api orgName (getFullYear now) allRepos in
  let series rs := Aggregator.i_monthlyStats (Aggregator.issues rs) in
  exists report,
    Aggregator.result
      (Aggregator.getOrganization api now later order store orgName onProgress)
      = Ok report /\
    length (monthlyIssueStats report) = 12%nat /\
    forall m : nat,
      opened (Monthly.slot (monthlyIssueStats report) m) =
        Totals.sumOf (fun rs => opened (Monthly.slot (series rs) m)) repoStats /\
      closed (Monthly.slot (monthlyIssueStats report) m) =
        Totals.sumOf (fun rs => closed (Monthly.slot (series rs) m)) repoStats /\
      total (Monthly.slot (monthlyIssueStats report) m) =
        Totals.sumOf (fun rs => total (Monthly.slot (series rs) m)) repoStats.
Proof.
  intros Hmiss Hmembers Hrepos repoStats series. subst series.
  destruct (getOrganization_miss api now later order store orgName onProgress
              memberList allRepos Hmiss Hmembers Hrepos)
    as (report & Hres & _ & _ & _ & _ & _ & Hm).
  exists report. split; [exact Hres|]. rewrite Hm. fold repoStats.
  assert (Hall : Forall (fun rs =>
            length (Aggregator.i_monthlyStats (Aggregator.issues rs)) = 12%nat)
            repoStats).
  { eapply Forall_impl; [apply collected_Forall|]. cbn. tauto. }
  assert (H12 : length (replicate 12 zeroMonth) = 12%nat) by apply length_replicate.
  split.
  - apply (mergeMonthly_all repoStats (replicate 12 zeroMonth) 0 H12 Hall).
  - intros m.
    destruct (mergeMonthly_all repoStats (replicate 12 zeroMonth) m H12 Hall)
      as (_ & Ho & Hc & Ht).
    cbn zeta in Ho, Hc, Ht.
    assert (Hz : Monthly.slot (replicate 12 zeroMonth) m = zeroMonth)
      by exact (slot_start m).
    rewrite Hz in Ho, Hc, Ht. cbn [opened closed total zeroMonth] in *.
    repeat split; lia.
Qed.

(** X14: the yearly figures agree with the repository entries of the same
    report: the yearly commit total is the sum of the [commitCount] of the
    listed repositories, and the yearly number of closed issues is the sum of
    their [closedIssues]. *)
Theorem getOrganization_yearly_totals_match_repository_entries
    (api : Aggregator.Api) (now later : Z) (order : list nat)
    (store : Cache.Store Report) (orgName : string) (onProgress : bool)
    (memberList : list Member) (allRepos : list Repo) :
  (CacheManager.get now orgName store).1 = None ->
  Aggregator.getMembers api orgName = Ok memberList ->
  Aggregator.getRepos api orgName = Ok allRepos ->
  exists report,
    Aggregator.result
      (Aggregator.getOrganization api now later order store orgName onProgress)
      = Ok report /\
    commits (yearlyStats report) = Totals.sumOf commitCount (repos report) /\
    issues_closed (yearlyStats report) = Totals.sumOf closedIssues (repos report).
Proof.
  intros Hmiss Hmembers Hrepos.
  destruct (getOrganization_miss api now later order store orgName onProgress
              memberList allRepos Hmiss Hmembers Hrepos)
    as (report & Hres & _ & _ & Hr & _ & Hy & _).
  exists report. split; [exact Hres|]. rewrite Hy, Hr.
  unfold Aggregator.calculateYearlyStats. cbn [commits issues_closed].
  rewrite !sumOf_map. split.
  - rewrite (foldl_add_sumOf
               (fun repo => match Aggregator.contributorStats repo with
                            | Some cs =>
                                foldl (fun tot contributor =>
                                         tot + Aggregator.yearCommits (getFullYear now)
                                                 contributor) 0 cs
                            | None => 0
                            end)).
    rewrite Z.add_0_l. apply sumOf_ext_in. intros rs _.
    rewrite commitCount_reportRepo.
    destruct (Aggregator.contributorStats rs) as [cs|]; [|reflexivity].
    now rewrite foldl_add_sumOf.
  - now rewrite (foldl_add_sumOf
                   (fun repo => Aggregator.i_closed (Aggregator.issues repo))).
Qed.

Lemma sumOf_le {A} (f g : A -> Z) (l : list A) :
  Forall (fun x => 0 <= f x <= g x) l ->
  0 <= Totals.sumOf f l <= Totals.sumOf g l.
Proof.
  induction 1 as [|x l Hx _ IH]; [cbn; lia|]. rewrite !sumOf_cons. lia.
Qed.

(** X15: in every report the yearly number of closed issues is at most the
    yearly number of opened issues, and likewise for pull requests; neither
    is negative. *)
Theorem getOrganization_closed_never_exceeds_opened
    (api : Aggregator.Api) (now later : Z) (order : list nat)
    (store : Cache.Store Report) (orgName : string) (onProgress : bool)
    (memberList : list Member) (allRepos : list Repo) :
  (CacheManager.get now orgName store).1 = None ->
  Aggregator.getMembers api orgName = Ok memberList ->
  Aggregator.getRepos api orgName = Ok allRepos ->
  exists report,
    Aggregator.result
      (Aggregator.getOrganization api now later order store orgName onProgress)
      = Ok report /\
    0 <= issues_closed (yearlyStats report) <= issues_opened (yearlyStats report) /\
    0 <= pullRequests_closed (yearlyStats report)
      <= pullRequests_opened (yearlyStats report) /\
    Forall (fun r => 0 <= closedIssues r) (repos report).
Proof.
  intros Hmiss Hmembers Hrepos.
  destruct (getOrganization_miss api now later order store orgName onProgress
              memberList allRepos Hmiss Hmembers Hrepos)
    as (report & Hres & _ & _ & Hr & _ & Hy & _).
  exists report. split; [exact Hres|]. rewrite Hy, Hr.
  unfold Aggregator.calculateYearlyStats.
  cbn [issues_closed issues_opened pullRequests_closed pullRequests_opened].
  pose proof (collected_Forall api orgName (getFullYear now) allRepos) as Hall.
  rewrite (foldl_add_sumOf (fun repo => Aggregator.i_closed (Aggregator.issues repo))),
    (foldl_add_sumOf (fun repo => Aggregator.i_opened (Aggregator.issues repo))),
    (foldl_add_sumOf (fun repo => Aggregator.p_closed (Aggregator.pullRequests repo))),
    (foldl_add_sumOf (fun repo => Aggregator.p_opened (Aggregator.pullRequests repo))).
  rewrite !Z.add_0_l. split; [|split].
  - apply sumOf_le. eapply Forall_impl; [exact Hall|]. cbn. tauto.
  - apply sumOf_le. eapply Forall_impl; [exact Hall|]. cbn. tauto.
  - apply Forall_map. eapply Forall_impl; [exact Hall|]. cbn. tauto.
Qed.

End ReportTotals.

(** *** Member contributions *)

Section MemberContributions.
Context {cal : Calendar} {engine : Engine}.

Lemma yearCommits_commitsInYear (year : Z) (contributor : Contributor) :
  Aggregator.yearCommits year contributor = Totals.commitsInYear year contributor.
Proof.
  rewrite yearCommits_sum, foldl_add_sumOf, Z.add_0_l.
  unfold Totals.commitsInYear. apply sumOf_ext_in. intros week _.
  unfold Aggregator.inYear. now rewrite (Z.mul_comm (w week) 1000).
Qed.

Lemma addContributor_lookup (year : Z) (l : string) (ms : JsObject.t)
    (x : Contributor) :
  JsObject.ordinary l = true ->
  noTextAt ms l = true ->
  Aggregator.addContributor year ms x !! l =
    if Totals.authoredBy l x
    then Some (JsObject.Num (numberAt ms l + Totals.commitsInYear year x))
    else ms !! l.
Proof.
  intros [Hproto Hinh]%ordinary_spec Hnum.
  unfold Aggregator.addContributor, Totals.authoredBy.
  destruct (JsString.truthy (author_login x)); cbn [andb]; [|reflexivity].
  cbn zeta.
  destruct (String.eqb_spec (default EmptyString (author_login x)) l) as [->|Hne].
  - rewrite set_lookup_eq, Hproto, yearCommits_commitsInYear.
    unfold JsObject.get, numberAt, noTextAt in *. rewrite Hproto.
    destruct (ms !! l) as [[n|s]|]; [| discriminate |].
    + unfold JsObject.bump, JsObject.orZero. cbn [JsObject.truthy countOf].
      destruct (Z.eqb_spec n 0) as [->|_]; reflexivity.
    + rewrite Hinh. reflexivity.
  - now apply set_lookup_ne.
Qed.

Lemma addContributor_fold (year : Z) (l : string) (cs : list Contributor) :
  JsObject.ordinary l = true ->
  forall ms : JsObject.t,
    noTextAt ms l = true ->
    foldl (Aggregator.addContributor year) ms cs !! l =
      if existsb (Totals.authoredBy l) cs
      then Some (JsObject.Num (numberAt ms l +
                               Totals.sumOf (Totals.commitsInYear year)
                                 (List.filter (Totals.authoredBy l) cs)))
      else ms !! l.
Proof.
  intros Hord. induction cs as [|x cs IH]; intros ms Hnum; [reflexivity|].
  cbn [foldl existsb List.filter].
  pose proof (addContributor_lookup year l ms x Hord Hnum) as Hx.
  assert (Hnum' : noTextAt (Aggregator.addContributor year ms x) l = true).
  { unfold noTextAt in *. rewrite Hx.
    destruct (Totals.authoredBy l x); [reflexivity|exact Hnum]. }
  rewrite (IH _ Hnum').
  assert (Hat : numberAt (Aggregator.addContributor year ms x) l =
                if Totals.authoredBy l x
                then numberAt ms l + Totals.commitsInYear year x
                else numberAt ms l).
  { unfold numberAt at 1. rewrite Hx.
    destruct (Totals.authoredBy l x); reflexivity. }
  rewrite Hat, Hx.
  destruct (Totals.authoredBy l x); cbn [orb].
  - rewrite sumOf_cons.
    destruct (existsb (Totals.authoredBy l) cs) eqn:He.
    + f_equal. f_equal. lia.
    + rewrite (filter_nil_of_existsb _ _ He). cbn. f_equal. f_equal. lia.
  - reflexivity.
Qed.

(** A login that no entry carries is left as it is, whatever the login. *)
Lemma addContributor_fold_other (year : Z) (l : string) (cs : list Contributor) :
  existsb (Totals.authoredBy l) cs = false ->
  forall ms : JsObject.t,
    foldl (Aggregator.addContributor year) ms cs !! l = ms !! l.
Proof.
  induction cs as [|x cs IH]; intros He ms; [reflexivity|].
  cbn [existsb] in He. apply orb_false_iff in He as [Hx He].
  cbn [foldl]. rewrite (IH He).
  unfold Aggregator.addContributor. unfold Totals.authoredBy in Hx.
  destruct (JsString.truthy (author_login x)); [|reflexivity].
  cbn [andb] in Hx. cbn zeta. apply set_lookup_ne.
  intros Heq. rewrite Heq, String.eqb_refl in Hx. discriminate.
Qed.

Lemma addContributors_flat (year : Z) (repoStats : list Aggregator.RepoStats) :
  forall ms : JsObject.t,
    foldl (Aggregator.addContributors year) ms repoStats =
    foldl (Aggregator.addContributor year) ms (Totals.allContributors repoStats).
Proof.
  unfold Totals.allContributors.
  induction repoStats as [|rs repoStats IH]; intros ms; [reflexivity|].
  cbn [foldl flat_map]. rewrite foldl_app, IH. f_equal.
  unfold Aggregator.addContributors.
  destruct (Aggregator.contributorStats rs); reflexivity.
Qed.

(** X12: the report has one entry for each listed member, in the order of
    the listing.  For a member whose login reaches nothing of
    [Object.prototype], [contributions] is the sum, over the repositories of
    the report, of the commits that the contributor entries with the
    member's login record for the weeks of the current year, and 0 for a
    member without such an entry.  The dictionary is a plain object: a
    member without entries whose login names a function of
    [Object.prototype] gets that function, not 0. *)
Theorem getOrganization_member_contributions
    (api : Aggregator.Api) (now later : Z) (order : list nat)
    (store : Cache.Store Report) (orgName : string) (onProgress : bool)
    (memberList : list Member) (allRepos : list Repo) :
  (CacheManager.get now orgName store).1 = None ->
  Aggregator.getMembers api orgName = Ok memberList ->
  Aggregator.getRepos api orgName = Ok allRepos ->
  let repoStats := Totals.collected api orgName (getFullYear now) allRepos in
  exists report,
    Aggregator.result
      (Aggregator.getOrganization api now later order store orgName onProgress)
      = Ok report /\
    map member (members report) = memberList /\
    (forall e, In e (members report) ->
       JsObject.ordinary (login (member e)) = true ->
       contributions e =
         JsObject.Own (JsObject.Num
           (Totals.commitsOf (getFullYear now) (login (member e)) repoStats))) /\
    (forall e, In e (members report) ->
       JsObject.ordinary (login (member e)) = true ->
       List.filter (Totals.authoredBy (login (member e)))
                   (Totals.allContributors repoStats) = [] ->
       contributions e = JsObject.Own (JsObject.Num 0)) /\
    (forall e, In e (members report) ->
       JsObject.inherits (login (member e)) = true ->
       List.filter (Totals.authoredBy (login (member e)))
                   (Totals.allContributors repoStats) = [] ->
       contributions e = JsObject.Inherited (login (member e))).
Proof.
  intros Hmiss Hmembers Hrepos repoStats.
  destruct (getOrganization_miss api now later order store orgName onProgress
              memberList allRepos Hmiss Hmembers Hrepos)
    as (report & Hres & _ & _ & _ & Hm & _).
  fold repoStats in Hm.
  exists report. split; [exact Hres|].
  split.
  { rewrite Hm, map_map. cbn [member]. apply map_id. }
  assert (Hord : forall e, In e (members report) ->
            JsObject.ordinary (login (member e)) = true ->
            contributions e =
              JsObject.Own (JsObject.Num
                (Totals.commitsOf (getFullYear now) (login (member e)) repoStats))).
  { intros e He Hord. rewrite Hm in He. apply in_map_iff in He as (m & <- & _).
    cbn [member contributions] in Hord |- *.
    destruct (ordinary_spec _ Hord) as [Hproto Hinh].
    unfold JsObject.get. rewrite Hproto, addContributors_flat.
    rewrite (addContributor_fold _ _ _ Hord) by apply noTextAt_empty.
    unfold Totals.commitsOf.
    rewrite numberAt_empty, empty_lookup, Hinh, Z.add_0_l.
    destruct (existsb (Totals.authoredBy (login m))
                (Totals.allContributors repoStats)) eqn:He.
    - unfold JsObject.orZero. cbn [JsObject.truthy].
      destruct (Z.eqb_spec
                  (Totals.sumOf (Totals.commitsInYear (getFullYear now))
                     (List.filter (Totals.authoredBy (login m))
                        (Totals.allContributors repoStats))) 0) as [->|_];
        reflexivity.
    - rewrite (filter_nil_of_existsb _ _ He). reflexivity. }
  split; [exact Hord|]. split.
  - intros e He Hord' Hnone. rewrite (Hord e He Hord').
    unfold Totals.commitsOf. now rewrite Hnone.
  - intros e He Hinh Hnone. rewrite Hm in He. apply in_map_iff in He as (m & <- & _).
    cbn [member contributions] in *.
    assert (Hex : existsb (Totals.authoredBy (login m))
                    (Totals.allContributors repoStats) = false).
    { destruct (existsb _ _) eqn:Hex; [|reflexivity].
      apply existsb_exists in Hex as (x & Hin & Hx).
      assert (Hf : In x (List.filter (Totals.authoredBy (login m))
                           (Totals.allContributors repoStats)))
        by (apply filter_In; auto).
      rewrite Hnone in Hf. destruct Hf. }
    unfold JsObject.get.
    rewrite addContributors_flat, (addContributor_fold_other _ _ _ Hex), empty_lookup.
    rewrite Hinh.
    destruct (String.eqb_spec (login m) "__proto__") as [Heq|_].
    + rewrite Heq in Hinh. discriminate Hinh.
    + reflexivity.
Qed.

End MemberContributions.

(** ** Pull-request histogram: totals, merging, order *)

Lemma len_filter_Permutation {A} (p : A -> bool) (l l' : list A) :
  Permutation l l' -> len (List.filter p l) = len (List.filter p l').
Proof.
  induction 1 as [|x l l' _ IH|x y l|l l' l'' _ IH1 _ IH2].
  - reflexivity.
  - cbn [List.filter]. destruct (p x); rewrite ?len_cons; lia.
  - cbn [List.filter]. destruct (p x), (p y); rewrite ?len_cons; lia.
  - lia.
Qed.

Lemma existsb_Permutation {A} (p : A -> bool) (l l' : list A) :
  Permutation l l' -> existsb p l = existsb p l'.
Proof.
  induction 1 as [|x l l' _ IH|x y l|l l' l'' _ IH1 _ IH2]; cbn [existsb].
  - reflexivity.
  - now rewrite IH.
  - destruct (p x), (p y); reflexivity.
  - congruence.
Qed.

Lemma filter_Permutation {A} (p : A -> bool) (l l' : list A) :
  Permutation l l' -> Permutation (List.filter p l) (List.filter p l').
Proof.
  induction 1 as [|x l l' _ IH|x y l|l l' l'' _ IH1 _ IH2]; cbn [List.filter].
  - constructor.
  - destruct (p x); [now constructor|exact IH].
  - destruct (p x), (p y); try reflexivity. constructor.
  - now transitivity (List.filter p l').
Qed.

(** *** Merging dictionaries entry by entry *)

Section Entries.
Context {engine : Engine}.

Lemma get_set_ne (o : JsObject.t) (key key' : string) (p : JsObject.prim) :
  key <> key' -> JsObject.get (JsObject.set o key p) key' = JsObject.get o key'.
Proof.
  intros Hne. unfold JsObject.get. now rewrite set_lookup_ne.
Qed.

Lemma entries_absent (k : string) (l : list (string * JsObject.prim)) :
  k ∉ l.*1 ->
  forall acc : JsObject.t,
    foldl (fun acc entry =>
             JsObject.set acc entry.1
               (JsObject.bump (JsObject.get acc entry.1) entry.2)) acc l !! k =
    acc !! k.
Proof.
  induction l as [|[k1 c1] l IH]; intros Hk acc; [reflexivity|].
  cbn [foldl fst snd]. rewrite fmap_cons in Hk. cbn [fst] in Hk.
  apply not_elem_of_cons in Hk as [Hne Hk].
  rewrite (IH Hk). apply set_lookup_ne. congruence.
Qed.

Lemma entries_present (k : string) (cnt : JsObject.prim)
    (l : list (string * JsObject.prim)) :
  NoDup l.*1 -> (k, cnt) ∈ l ->
  forall acc : JsObject.t,
    foldl (fun acc entry =>
             JsObject.set acc entry.1
               (JsObject.bump (JsObject.get acc entry.1) entry.2)) acc l !! k =
    if String.eqb k "__proto__" then acc !! k
    else Some (JsObject.bump (JsObject.get acc k) cnt).
Proof.
  induction l as [|[k1 c1] l IH]; intros Hnd Hin acc.
  - apply elem_of_nil in Hin. destruct Hin.
  - rewrite fmap_cons in Hnd. cbn [fst] in Hnd.
    apply NoDup_cons in Hnd as [Hk1 Hnd].
    cbn [foldl fst snd]. apply elem_of_cons in Hin as [[= <- <-]|Hin].
    + rewrite (entries_absent k l Hk1). apply set_lookup_eq.
    + assert (Hne : k1 <> k).
      { intros ->. apply Hk1. apply list_elem_of_fmap. now exists (k, cnt). }
      rewrite (IH Hnd Hin), set_lookup_ne, get_set_ne by exact Hne. reflexivity.
Qed.

Lemma mergeTypes_lookup (types repoTypes : JsObject.t) (k : string) :
  Aggregator.mergeTypes types repoTypes !! k =
  match repoTypes !! k with
  | Some cnt =>
      if String.eqb k "__proto__" then types !! k
      else Some (JsObject.bump (JsObject.get types k) cnt)
  | None => types !! k
  end.
Proof.
  unfold Aggregator.mergeTypes.
  destruct (repoTypes !! k) as [cnt|] eqn:Hk.
  - apply entries_present; [apply NoDup_fst_map_to_list|].
    now apply elem_of_map_to_list.
  - apply entries_absent. intros Hin.
    apply list_elem_of_fmap in Hin as ([k' c'] & -> & Hin).
    apply elem_of_map_to_list in Hin. cbn [fst] in Hk. congruence.
Qed.

(** *** The histogram *)

Lemma categorizePRTypes_count (prs : list PullRequest) (t : string) :
  StatsCalculator.categorizePRTypes prs !! t = tally t (typeCount prs t).
Proof.
  unfold StatsCalculator.categorizePRTypes, typeCount. cbn zeta.
  now rewrite foldl_countType_lookup, filter_andb.
Qed.

Lemma typeCount_app (l1 l2 : list PullRequest) (t : string) :
  typeCount (l1 ++ l2) t = (typeCount l1 t + typeCount l2 t)%nat.
Proof. unfold typeCount. now rewrite List.filter_app, length_app. Qed.

Lemma typeCount_Permutation (l l' : list PullRequest) (t : string) :
  Permutation l l' -> typeCount l t = typeCount l' t.
Proof.
  intros Hp. unfold typeCount. apply Permutation_length.
  now apply filter_Permutation.
Qed.

Lemma typeCount_pos (prs : list PullRequest) (t : string) :
  (0 < typeCount prs t)%nat <->
  exists pr, In pr prs /\ StatsCalculator.isClosed pr = true /\
             StatsCalculator.prType pr = t.
Proof.
  unfold typeCount.
  set (p := fun pr => StatsCalculator.isClosed pr &&
                      String.eqb (StatsCalculator.prType pr) t).
  split.
  - intros Hpos. destruct (List.filter p prs) as [|pr l] eqn:Hf; [cbn in Hpos; lia|].
    assert (Hin : In pr (List.filter p prs)) by (rewrite Hf; now left).
    apply filter_In in Hin as [Hin Hp]. subst p. cbn beta in Hp.
    apply andb_true_iff in Hp as [Hc Ht]. apply String.eqb_eq in Ht. eauto.
  - intros (pr & Hin & Hc & Ht).
    assert (Hin' : In pr (List.filter p prs)).
    { apply filter_In. split; [exact Hin|]. subst p. cbn beta.
      rewrite Hc. cbn [andb]. now apply String.eqb_eq. }
    destruct (List.filter p prs); [destruct Hin'|cbn [length]; lia].
Qed.

Lemma ordinaryTypes_count (prs : list PullRequest) (t : string) :
  ordinaryTypes prs = true ->
  (0 < typeCount prs t)%nat -> JsObject.ordinary t = true.
Proof.
  intros Hord (pr & Hin & Hc & <-)%typeCount_pos.
  unfold ordinaryTypes in Hord. rewrite forallb_forall in Hord.
  specialize (Hord pr Hin). rewrite Hc in Hord. exact Hord.
Qed.

Lemma tally_ordinary (t : string) (n : nat) :
  JsObject.ordinary t = true ->
  tally t (S n) = Some (JsObject.Num (Z.of_nat (S n))).
Proof.
  intros [Hproto Hinh]%ordinary_spec. cbn [tally]. now rewrite Hproto, Hinh.
Qed.

Lemma countType_ordinary (types : JsObject.t) (t : string) :
  JsObject.ordinary t = true ->
  noTextAt types t = true ->
  StatsCalculator.countType types t =
    <[t := JsObject.Num (numberAt types t + 1)]> types.
Proof.
  intros [Hproto Hinh]%ordinary_spec Hnum.
  unfold StatsCalculator.countType, JsObject.set, JsObject.get.
  rewrite Hproto. f_equal.
  unfold numberAt, noTextAt in *.
  destruct (types !! t) as [[n|s]|]; [| discriminate |].
  - unfold JsObject.bump, JsObject.orZero. cbn [JsObject.truthy countOf].
    destruct (Z.eqb_spec n 0) as [->|_]; reflexivity.
  - rewrite Hinh. reflexivity.
Qed.

Lemma histogramTotal_insert (types : JsObject.t) (t : string) (n : Z) :
  histogramTotal (<[t := JsObject.Num n]> types) =
    histogramTotal types - numberAt types t + n.
Proof.
  unfold histogramTotal, numberAt.
  destruct (types !! t) as [v|] eqn:Hv.
  - rewrite <- (insert_delete_eq types t (JsObject.Num n)).
    rewrite map_fold_insert_L; [|intros; lia|apply lookup_delete_eq].
    rewrite (map_fold_delete_L _ 0 t v types); [|intros; lia|exact Hv].
    cbn [countOf]. lia.
  - rewrite map_fold_insert_L; [|intros; lia|exact Hv]. cbn [countOf]. lia.
Qed.

Lemma histogramTotal_fold (l : list PullRequest) :
  forall types : JsObject.t,
    (forall pr, In pr l ->
       JsObject.ordinary (StatsCalculator.prType pr) = true) ->
    (forall t, noTextAt types t = true) ->
    histogramTotal
      (foldl (fun types pr =>
                StatsCalculator.countType types (StatsCalculator.prType pr))
             types l) = histogramTotal types + len l.
Proof.
  induction l as [|pr l IH]; intros types Hord Hnum; cbn [foldl].
  - unfold len. cbn [length]. lia.
  - assert (Hpr : JsObject.ordinary (StatsCalculator.prType pr) = true)
      by (apply Hord; now left).
    rewrite IH.
    + rewrite (countType_ordinary _ _ Hpr (Hnum _)), histogramTotal_insert, len_cons.
      lia.
    + intros pr' Hin. apply Hord. now right.
    + intros t. rewrite (countType_ordinary _ _ Hpr (Hnum _)).
      unfold noTextAt.
      destruct (String.eqb_spec (StatsCalculator.prType pr) t) as [->|Hne].
      * now rewrite lookup_insert_eq.
      * rewrite lookup_insert_ne by exact Hne. apply Hnum.
Qed.

(** X16: when no closed pull request of the list has a type that names a
    member of [Object.prototype], the counts of the histogram add up to the
    number of closed pull requests of the list, every entry is a number that
    is at least 1, and a type is present exactly when a closed pull request
    has it. *)
Theorem categorizePRTypes_counts_add_up_to_the_closed (prs : list PullRequest) :
  ordinaryTypes prs = true ->
  histogramTotal (StatsCalculator.categorizePRTypes prs) =
    len (List.filter StatsCalculator.isClosed prs) /\
  (forall t p, StatsCalculator.categorizePRTypes prs !! t = Some p ->
               exists n, p = JsObject.Num n /\ 1 <= n) /\
  (forall t, is_Some (StatsCalculator.categorizePRTypes prs !! t) <->
             exists pr, In pr prs /\ StatsCalculator.isClosed pr = true /\
                        StatsCalculator.prType pr = t).
Proof.
  intros Hord. split; [|split].
  - unfold StatsCalculator.categorizePRTypes. cbn zeta.
    rewrite histogramTotal_fold.
    + unfold histogramTotal. rewrite map_fold_empty. lia.
    + intros pr [Hin Hc]%filter_In.
      unfold ordinaryTypes in Hord. rewrite forallb_forall in Hord.
      specialize (Hord pr Hin). now rewrite Hc in Hord.
    + apply noTextAt_empty.
  - intros t p. rewrite categorizePRTypes_count.
    destruct (typeCount prs t) as [|n] eqn:Hn; [discriminate|].
    rewrite tally_ordinary by (apply (ordinaryTypes_count prs); [exact Hord|lia]).
    intros [= <-]. eexists. split; [reflexivity|lia].
  - intros t. rewrite categorizePRTypes_count, <- typeCount_pos.
    destruct (typeCount prs t) as [|n] eqn:Hn.
    + split; [intros [? ?]; discriminate|lia].
    + rewrite tally_ordinary by (apply (ordinaryTypes_count prs); [exact Hord|lia]).
      split; [lia|eauto].
Qed.

(** X17: for lists in which no closed pull request has a type that names a
    member of [Object.prototype], merging the histogram of one list into
    that of another, as [calculateYearlyStats] merges those of the
    repositories, gives the histogram of the two lists put together; and
    the histogram of any list does not depend on the order of its pull
    requests. *)
Theorem categorizePRTypes_merges_and_ignores_order :
  (forall l1 l2 : list PullRequest,
     ordinaryTypes l1 = true -> ordinaryTypes l2 = true ->
     Aggregator.mergeTypes (StatsCalculator.categorizePRTypes l1)
                           (StatsCalculator.categorizePRTypes l2) =
     StatsCalculator.categorizePRTypes (l1 ++ l2)) /\
  (forall l l' : list PullRequest,
     Permutation l l' ->
     StatsCalculator.categorizePRTypes l = StatsCalculator.categorizePRTypes l').
Proof.
  split.
  - intros l1 l2 H1 H2. apply map_eq. intros t.
    rewrite mergeTypes_lookup, !categorizePRTypes_count, typeCount_app.
    pose proof (ordinaryTypes_count l1 t H1) as Ho1.
    pose proof (ordinaryTypes_count l2 t H2) as Ho2.
    destruct (typeCount l2 t) as [|j].
    + now rewrite Nat.add_0_r.
    + specialize (Ho2 ltac:(lia)).
      destruct (ordinary_spec _ Ho2) as [Hproto Hinh].
      rewrite (tally_ordinary _ _ Ho2), Hproto.
      unfold JsObject.get. rewrite Hproto, categorizePRTypes_count.
      destruct (typeCount l1 t) as [|i].
      * cbn [tally]. rewrite Hinh. cbn [Nat.add].
        rewrite (tally_ordinary _ _ Ho2). reflexivity.
      * rewrite (tally_ordinary _ _ Ho2).
        replace (S i + S j)%nat with (S (i + S j)) by lia.
        rewrite (tally_ordinary _ _ Ho2).
        unfold JsObject.bump, JsObject.orZero. cbn [JsObject.truthy].
        destruct (Z.eqb_spec (Z.of_nat (S i)) 0) as [|_]; [lia|].
        cbn [negb]. f_equal. f_equal. lia.
  - intros l l' Hperm. apply map_eq. intros t.
    rewrite !categorizePRTypes_count.
    now rewrite (typeCount_Permutation l l' t Hperm).
Qed.

End Entries.

(** ** Monthly series: the columns, and the order of the input *)

Section MonthlyMore.
Context {cal : Calendar} {laws : CalendarLaws cal}.

(** X18: what the three columns of the series count.  For each month of
    the year, [opened] is the number of issues (pull requests left out)
    created in that month; [closed] is the number of issues created in that
    year or before and closed in that month; [total] is 0 as long as no issue
    of the year has been created and, from the first such issue on, the
    number of issues created up to the end of that month, earlier years
    included, less those of them closed at any time in the year.  Issues
    created in later years are ignored. *)
Theorem calculateMonthlyIssueStats_columns (issues : list Issue) (year : Z) (m : nat) :
  (m < 12)%nat ->
  let series := StatsCalculator.calculateMonthlyIssueStats issues year in
  let plain := Monthly.plainIssues issues in
  opened (Monthly.slot series m) =
    len (List.filter (Monthly.createdIn year m) plain) /\
  closed (Monthly.slot series m) =
    len (List.filter (fun i => Monthly.known year i && Monthly.closedIn year m i) plain) /\
  total (Monthly.slot series m) =
    if existsb (Monthly.createdUpTo year m) plain
    then Monthly.runningAfter issues year m else 0.
Proof. intros Hm. apply (series_closed_form issues year m Hm). Qed.

Lemma plainIssues_Permutation (issues issues' : list Issue) (p : Issue -> bool) :
  Permutation issues issues' ->
  len (List.filter p (Monthly.plainIssues issues)) =
    len (List.filter p (Monthly.plainIssues issues')) /\
  existsb p (Monthly.plainIssues issues) = existsb p (Monthly.plainIssues issues').
Proof.
  intros Hperm. unfold Monthly.plainIssues. split.
  - rewrite !filter_andb. now apply len_filter_Permutation.
  - apply eq_true_iff_eq. rewrite !existsb_exists.
    split; intros (x & Hx & Hp); exists x; split; try assumption;
      apply filter_In in Hx as [Hx Hn]; apply filter_In; split; try assumption.
    + now rewrite <- Hperm.
    + now rewrite Hperm.
Qed.

(** X19: the series does not depend on the order in which the issues are
    given: any rearrangement of the list gives the same 12 entries. *)
Theorem calculateMonthlyIssueStats_ignores_input_order
    (issues issues' : list Issue) (year : Z) :
  Permutation issues issues' ->
  StatsCalculator.calculateMonthlyIssueStats issues year =
  StatsCalculator.calculateMonthlyIssueStats issues' year.
Proof.
  intros Hperm. apply list_eq. intros m.
  destruct (series_closed_form issues year 0 ltac:(lia)) as (Hl & _).
  destruct (series_closed_form issues' year 0 ltac:(lia)) as (Hl' & _).
  cbn zeta in Hl, Hl'.
  destruct (Nat.lt_ge_cases m 12) as [Hm|Hm].
  - destruct (series_closed_form issues year m Hm) as (_ & Ho & Hc & Ht).
    destruct (series_closed_form issues' year m Hm) as (_ & Ho' & Hc' & Ht').
    cbn zeta in *. unfold Monthly.runningAfter in Ht, Ht'.
    rewrite (proj1 (plainIssues_Permutation issues issues' _ Hperm)) in Ho.
    rewrite (proj1 (plainIssues_Permutation issues issues' _ Hperm)) in Hc.
    rewrite (proj1 (plainIssues_Permutation issues issues' (Monthly.seenBy year m) Hperm)),
      (proj1 (plainIssues_Permutation issues issues'
                (fun i => Monthly.seenBy year m i && Monthly.closedInYear year i) Hperm)),
      (proj2 (plainIssues_Permutation issues issues' _ Hperm)) in Ht.
    rewrite <- Ho' in Ho. rewrite <- Hc' in Hc. rewrite <- Ht' in Ht.
    unfold Monthly.slot in Ho, Hc, Ht.
    destruct (lookup_lt_is_Some_2
                (StatsCalculator.calculateMonthlyIssueStats issues year) m
                ltac:(lia)) as [s Hs].
    destruct (lookup_lt_is_Some_2
                (StatsCalculator.calculateMonthlyIssueStats issues' year) m
                ltac:(lia)) as [s' Hs'].
    rewrite Hs, Hs' in *. cbn [default] in *. unfold id in *.
    destruct s, s'. cbn in Ho, Hc, Ht. congruence.
  - rewrite !lookup_ge_None_2 by lia. reflexivity.
Qed.

End MonthlyMore.

(** ** View model: rankings *)

Section SortDesc.
Context {A : Type} (key : A -> Z).

Lemma insertDescBy_Permutation (x : A) (l : list A) :
  Permutation (Ranking.insertDescBy key x l) (x :: l).
Proof.
  induction l as [|y l IH]; cbn; [reflexivity|].
  destruct (key y <=? key x); [reflexivity|].
  rewrite IH. apply perm_swap.
Qed.

Lemma sortDescBy_Permutation (l : list A) :
  Permutation (Ranking.sortDescBy key l) l.
Proof.
  induction l as [|x l IH]; cbn; [reflexivity|].
  rewrite insertDescBy_Permutation. now apply perm_skip.
Qed.

Lemma insertDescBy_sorted (x : A) (l : list A) :
  StronglySorted (fun a b => key b <= key a) l ->
  StronglySorted (fun a b => key b <= key a) (Ranking.insertDescBy key x l).
Proof.
  induction 1 as [|y l Hl IH Hy]; cbn.
  - repeat constructor.
  - destruct (Z.leb_spec (key y) (key x)) as [Hle|Hgt].
    + constructor; [now constructor|].
      constructor; [exact Hle|].
      eapply Forall_impl; [exact Hy|]. cbn. intros; lia.
    + constructor; [exact IH|].
      rewrite insertDescBy_Permutation. constructor; [lia | exact Hy].
Qed.

Lemma sortDescBy_sorted (l : list A) :
  StronglySorted (fun a b => key b <= key a) (Ranking.sortDescBy key l).
Proof.
  induction l as [|x l IH]; cbn; [constructor|].
  now apply insertDescBy_sorted.
Qed.

(** Entries with the same key keep their relative order. *)
Lemma insertDescBy_stable (k : Z) (x : A) (l : list A) :
  List.filter (fun y => key y =? k) (Ranking.insertDescBy key x l) =
  List.filter (fun y => key y =? k) (x :: l).
Proof.
  induction l as [|y l IH]; [reflexivity|]. cbn [Ranking.insertDescBy].
  destruct (Z.leb_spec (key y) (key x)) as [Hle|Hgt]; [reflexivity|].
  cbn [List.filter] in *. rewrite IH.
  destruct (Z.eqb_spec (key x) k), (Z.eqb_spec (key y) k); try reflexivity; lia.
Qed.

Lemma sortDescBy_stable (k : Z) (l : list A) :
  List.filter (fun y => key y =? k) (Ranking.sortDescBy key l) =
  List.filter (fun y => key y =? k) l.
Proof.
  induction l as [|x l IH]; [reflexivity|]. cbn [Ranking.sortDescBy foldr].
  rewrite insertDescBy_stable. cbn [List.filter].
  fold (Ranking.sortDescBy key l). now rewrite IH.
Qed.

Lemma sorted_take_drop (n : nat) (l : list A) :
  StronglySorted (fun a b => key b <= key a) l ->
  forall a b, In a (take n l) -> In b (drop n l) -> key b <= key a.
Proof.
  intros Hs. revert n. induction Hs as [|x l Hl IH Hx]; intros n a b Ha Hb.
  - destruct n; destruct Ha.
  - destruct n as [|n]; [destruct Ha|]. cbn in Ha, Hb.
    destruct Ha as [<-|Ha]; [|now apply (IH n)].
    rewrite List.Forall_forall in Hx. apply Hx.
    apply list_elem_of_In. apply (subseteq_drop n l). now apply list_elem_of_In.
Qed.

Lemma sorted_take (n : nat) (l : list A) :
  StronglySorted (fun a b => key b <= key a) l ->
  StronglySorted (fun a b => key b <= key a) (take n l).
Proof.
  intros Hs. revert n. induction Hs as [|x l Hl IH Hx]; intros n.
  - destruct n; constructor.
  - destruct n as [|n]; [constructor|]. cbn [take].
    constructor; [apply IH|].
    rewrite List.Forall_forall in *. intros y Hy. apply Hx.
    apply list_elem_of_In. apply (subseteq_take n l). now apply list_elem_of_In.
Qed.

Lemma descending_map (name_ : A -> string) (l : list A) :
  StronglySorted (fun a b => key b <= key a) l ->
  Ranking.descending (map (fun x => (name_ x, key x)) l).
Proof.
  unfold Ranking.descending.
  induction 1 as [|x l Hl IH Hx]; cbn [map]; constructor; [exact IH|].
  apply Forall_map. exact Hx.
Qed.

End SortDesc.

(** X20: [getMostPopularRepos] returns [limit] entries, or all of them when
    there are fewer; their stars never increase along the list; every
    repository left out has at most the stars of every repository listed;
    the entries are those of the repositories, each once; and repositories
    with the same number of stars come in the order in which they were
    given. *)
Theorem getMostPopularRepos_is_the_top_of_a_stable_ranking
    (o : Organization.t) (limit : nat) :
  let ranked := Ranking.sortDescBy stars (Organization.org_repos o) in
  length (Ranking.getMostPopularRepos o limit) =
    Nat.min limit (length (Organization.org_repos o)) /\
  Ranking.descending (Ranking.getMostPopularRepos o limit) /\
  Ranking.getMostPopularRepos o limit =
    map (fun repo => (name repo, stars repo)) (take limit ranked) /\
  Permutation (take limit ranked ++ drop limit ranked) (Organization.org_repos o) /\
  (forall a b, In a (take limit ranked) -> In b (drop limit ranked) ->
               stars b <= stars a) /\
  (forall k, List.filter (fun repo => stars repo =? k) ranked =
             List.filter (fun repo => stars repo =? k) (Organization.org_repos o)).
Proof.
  intros ranked. subst ranked. unfold Ranking.getMostPopularRepos.
  pose proof (sortDescBy_sorted stars (Organization.org_repos o)) as Hs.
  pose proof (sortDescBy_Permutation stars (Organization.org_repos o)) as Hp.
  repeat split.
  - rewrite length_map, length_take. now rewrite Hp.
  - apply (descending_map stars name). now apply sorted_take.
  - now rewrite take_drop.
  - apply sorted_take_drop. exact Hs.
  - intros k. apply sortDescBy_stable.
Qed.

(** X21: [getMostActiveRepos] ranks the repository entries of a report by
    [commitCount] in the same way: [limit] entries at most, commit counts
    never increasing, nothing left out that has more commits than an entry
    listed, and equal counts in the order given. *)
Theorem getMostActiveRepos_is_the_top_of_a_stable_ranking
    (o : Organization.t) (limit : nat) :
  let ranked := Ranking.sortDescBy commitCount (Organization.org_repos o) in
  length (Ranking.getMostActiveRepos o limit) =
    Nat.min limit (length (Organization.org_repos o)) /\
  Ranking.getMostActiveRepos o limit =
    map (fun repo => (name repo, commitCount repo)) (take limit ranked) /\
  Ranking.descending (Ranking.getMostActiveRepos o limit) /\
  Permutation (take limit ranked ++ drop limit ranked) (Organization.org_repos o) /\
  (forall a b, In a (take limit ranked) -> In b (drop limit ranked) ->
               commitCount b <= commitCount a) /\
  (forall k, List.filter (fun repo => commitCount repo =? k) ranked =
             List.filter (fun repo => commitCount repo =? k) (Organization.org_repos o)).
Proof.
  intros ranked. subst ranked. unfold Ranking.getMostActiveRepos.
  assert (Hall : List.filter (fun _ : ReportRepo => true) (Organization.org_repos o)
                 = Organization.org_repos o).
  { induction (Organization.org_repos o) as [|x l IH]; [reflexivity|].
    cbn [List.filter]. now rewrite IH. }
  rewrite Hall.
  pose proof (sortDescBy_sorted commitCount (Organization.org_repos o)) as Hs.
  pose proof (sortDescBy_Permutation commitCount (Organization.org_repos o)) as Hp.
  repeat split.
  - rewrite length_map, length_take. now rewrite Hp.
  - apply (descending_map commitCount name). now apply sorted_take.
  - now rewrite take_drop.
  - apply sorted_take_drop. exact Hs.
  - intros k. apply sortDescBy_stable.
Qed.

(** *** The insertion-ordered map of [getMostActiveMembers] *)

Lemma mapGet_mapSet_eq (k : string) (v : Z) (m : Organization.JsMap) :
  Organization.mapGet k (Organization.mapSet k v m) = Some v.
Proof.
  induction m as [|[k' v'] m IH]; cbn.
  - now rewrite String.eqb_refl.
  - destruct (String.eqb k' k) eqn:Hk; cbn; now rewrite Hk.
Qed.

Lemma mapGet_mapSet_ne (k k' : string) (v : Z) (m : Organization.JsMap) :
  k <> k' ->
  Organization.mapGet k' (Organization.mapSet k v m) = Organization.mapGet k' m.
Proof.
  intros Hne. induction m as [|[k0 v0] m IH]; cbn.
  - destruct (String.eqb_spec k k'); [contradiction | reflexivity].
  - destruct (String.eqb_spec k0 k) as [->|Hk]; cbn.
    + destruct (String.eqb_spec k k'); [contradiction | reflexivity].
    + now rewrite IH.
Qed.

Lemma mapGet_None (k : string) (m : Organization.JsMap) :
  Organization.mapGet k m = None <-> ~ In k (map fst m).
Proof.
  induction m as [|[k' v'] m IH]; cbn.
  - tauto.
  - destruct (String.eqb_spec k' k) as [->|Hne].
    + split; [discriminate | intros Hn; exfalso; apply Hn; now left].
    + rewrite IH. tauto.
Qed.

Lemma mapGet_In (k : string) (v : Z) (m : Organization.JsMap) :
  NoDup (map fst m) -> In (k, v) m -> Organization.mapGet k m = Some v.
Proof.
  induction m as [|[k' v'] m IH]; cbn; intros Hnd Hin; [destruct Hin|].
  apply NoDup_cons in Hnd as [Hk' Hnd].
  destruct Hin as [[= -> ->]|Hin].
  - now rewrite String.eqb_refl.
  - destruct (String.eqb_spec k' k) as [->|Hne]; [|now apply IH].
    exfalso. apply Hk'. apply list_elem_of_In. apply in_map_iff.
    exists (k, v). split; [reflexivity | exact Hin].
Qed.

Lemma keys_mapSet (k : string) (v : Z) (m : Organization.JsMap) :
  map fst (Organization.mapSet k v m) =
  match Organization.mapGet k m with
  | Some _ => map fst m
  | None => map fst m ++ [k]
  end.
Proof.
  induction m as [|[k' v'] m IH]; cbn; [reflexivity|].
  destruct (String.eqb_spec k' k) as [->|Hne]; cbn; [reflexivity|].
  rewrite IH. now destruct (Organization.mapGet k m).
Qed.

Lemma NoDup_keys_mapSet (k : string) (v : Z) (m : Organization.JsMap) :
  NoDup (map fst m) -> NoDup (map fst (Organization.mapSet k v m)).
Proof.
  intros Hnd. rewrite keys_mapSet.
  destruct (Organization.mapGet k m) eqn:Hk; [exact Hnd|].
  apply mapGet_None in Hk. apply NoDup_app. split; [exact Hnd|].
  split; [|apply NoDup_singleton].
  intros x Hx Hx'. apply list_elem_of_singleton in Hx'. subst x.
  apply Hk. now apply list_elem_of_In.
Qed.

Lemma memberStats_start (ms : list ReportMember) :
  forall acc : Organization.JsMap,
    NoDup (map fst acc) ->
    let start :=
      foldl (fun ms m => Organization.mapSet (login (member m)) 0 ms) acc ms in
    NoDup (map fst start) /\
    (length start <= length acc + length ms)%nat /\
    forall k, Organization.mapGet k start =
              if existsb (fun m => String.eqb (login (member m)) k) ms
              then Some 0 else Organization.mapGet k acc.
Proof.
  induction ms as [|m ms IH]; intros acc Hnd; cbn zeta.
  - cbn. repeat split; [exact Hnd | lia].
  - cbn [foldl existsb length].
    destruct (IH (Organization.mapSet (login (member m)) 0 acc)
                 (NoDup_keys_mapSet _ _ _ Hnd)) as (Hnd' & Hlen & Hget).
    cbn zeta in *. split; [exact Hnd'|]. split.
    + assert (length (Organization.mapSet (login (member m)) 0 acc)
              <= S (length acc))%nat.
      { rewrite <- (length_map fst), keys_mapSet.
        destruct (Organization.mapGet (login (member m)) acc);
          rewrite ?length_app, length_map; cbn; lia. }
      lia.
    + intros k. rewrite Hget.
      destruct (existsb (fun m0 => String.eqb (login (member m0)) k) ms);
        [now rewrite orb_true_r|]. rewrite orb_false_r.
      destruct (String.eqb_spec (login (member m)) k) as [->|Hne].
      * apply mapGet_mapSet_eq.
      * now apply mapGet_mapSet_ne.
Qed.

Lemma addContribution_get (k : string) (ms : Organization.JsMap)
    (e : ContributorEntry) :
  map fst (Organization.addContribution ms e) = map fst ms /\
  Organization.mapGet k (Organization.addContribution ms e) =
    (fun v => v + (if String.eqb (ce_login e) k then ce_contributions e else 0))
      <$> Organization.mapGet k ms.
Proof.
  unfold Organization.addContribution.
  destruct (Organization.mapGet (ce_login e) ms) as [cur|] eqn:Hcur.
  - split; [rewrite keys_mapSet; now rewrite Hcur|].
    destruct (String.eqb_spec (ce_login e) k) as [<-|Hne].
    + now rewrite mapGet_mapSet_eq, Hcur.
    + rewrite mapGet_mapSet_ne by exact Hne.
      destruct (Organization.mapGet k ms); cbn; [f_equal; lia | reflexivity].
  - split; [reflexivity|].
    destruct (String.eqb_spec (ce_login e) k) as [<-|Hne].
    + now rewrite Hcur.
    + destruct (Organization.mapGet k ms); cbn; [f_equal; lia | reflexivity].
Qed.

Lemma addContribution_all (k : string) (es : list ContributorEntry) :
  forall ms : Organization.JsMap,
    map fst (foldl Organization.addContribution ms es) = map fst ms /\
    Organization.mapGet k (foldl Organization.addContribution ms es) =
      (fun v => v + Totals.sumOf ce_contributions
                      (List.filter (fun e => String.eqb (ce_login e) k) es))
        <$> Organization.mapGet k ms.
Proof.
  induction es as [|e es IH]; intros ms; cbn [foldl List.filter].
  - split; [reflexivity|].
    destruct (Organization.mapGet k ms); cbn; [f_equal; lia | reflexivity].
  - destruct (IH (Organization.addContribution ms e)) as [Hk Hg].
    destruct (addContribution_get k ms e) as [Hk1 Hg1].
    split; [now rewrite Hk, Hk1|]. rewrite Hg, Hg1.
    destruct (Organization.mapGet k ms) as [v|]; cbn; [|reflexivity].
    f_equal. destruct (String.eqb (ce_login e) k); rewrite ?sumOf_cons; lia.
Qed.

Lemma addRepo_all (repoList : list ReportRepo) :
  forall ms : Organization.JsMap,
    foldl Organization.addRepo ms repoList =
    foldl Organization.addContribution ms (Ranking.entriesOf repoList).
Proof.
  induction repoList as [|repo l IH]; intros ms; [reflexivity|].
  cbn [foldl Ranking.entriesOf flat_map]. rewrite foldl_app, IH.
  unfold Organization.addRepo. now destruct (contributors repo).
Qed.

Lemma sortDesc_is_sortDescBy (l : Organization.JsMap) :
  Organization.sortDesc l = Ranking.sortDescBy snd l.
Proof.
  unfold Organization.sortDesc, Ranking.sortDescBy.
  induction l as [|x l IH]; [reflexivity|]. cbn [foldr]. rewrite IH.
  generalize (foldr (Ranking.insertDescBy snd) [] l). intros s.
  induction s as [|y s IHs]; [reflexivity|]. cbn. now rewrite IHs.
Qed.

(** X22: [getMostActiveMembers] on repositories that carry contributor
    lists.  It lists members only, each login once, at most [limit] of them;
    the contributions of a listed login are the sum of the contributions of
    the contributor entries with that login, over the repositories whose
    [contributors] is a list (entries of non-members are ignored); the
    contributions never increase along the list; and with [limit] at least
    the number of members every member is listed. *)
Theorem getMostActiveMembers_sums_the_entries_of_members
    (o : Organization.t) (limit : nat) :
  let result := Organization.getMostActiveMembers o limit in
  Forall (fun e =>
            (exists m, In m (Organization.org_members o) /\
                       login (member m) = ce_login e) /\
            ce_contributions e =
              Ranking.contributionsOf (ce_login e) (Organization.org_repos o))
         result /\
  NoDup (map ce_login result) /\
  Ranking.descending (map (fun e => (ce_login e, ce_contributions e)) result) /\
  (length result <= limit)%nat /\
  ((length (Organization.org_members o) <= limit)%nat ->
   forall m, In m (Organization.org_members o) ->
             In {| ce_login := login (member m);
                   ce_contributions :=
                     Ranking.contributionsOf (login (member m))
                       (Organization.org_repos o) |} result).
Proof.
  intros result. subst result. unfold Organization.getMostActiveMembers.
  set (start := foldl (fun ms m => Organization.mapSet (login (member m)) 0 ms) []
                      (Organization.org_members o)).
  destruct (memberStats_start (Organization.org_members o) [] (@NoDup_nil_2 string))
    as (Hnd0 & Hlen0 & Hget0).
  cbn zeta in Hnd0, Hlen0, Hget0. fold start in Hnd0, Hlen0, Hget0.
  rewrite addRepo_all.
  set (stats := foldl Organization.addContribution start
                      (Ranking.entriesOf (Organization.org_repos o))).
  assert (Hkeys : map fst stats = map fst start)
    by apply (addContribution_all EmptyString).
  assert (Hnd : NoDup (map fst stats)) by now rewrite Hkeys.
  assert (Hget : forall k,
            Organization.mapGet k stats =
            if existsb (fun m => String.eqb (login (member m)) k)
                       (Organization.org_members o)
            then Some (Ranking.contributionsOf k (Organization.org_repos o))
            else None).
  { intros k. subst stats.
    rewrite (proj2 (addContribution_all k _ start)), Hget0.
    destruct (existsb _ (Organization.org_members o)); reflexivity. }
  rewrite sortDesc_is_sortDescBy.
  pose proof (sortDescBy_Permutation snd stats) as Hperm.
  pose proof (sortDescBy_sorted snd stats) as Hsorted.
  set (ranked := Ranking.sortDescBy snd stats) in *.
  assert (Hin : forall k v, In (k, v) ranked <-> Organization.mapGet k stats = Some v).
  { intros k v. split.
    - intros H. apply mapGet_In; [exact Hnd|]. now rewrite <- Hperm.
    - intros H. rewrite Hperm. clear -H.
      induction stats as [|[k' v'] s IH]; cbn in *; [discriminate|].
      destruct (String.eqb_spec k' k) as [->|Hne].
      + injection H as ->. now left.
      + right. now apply IH. }
  assert (Htake : forall x, In x (take limit ranked) -> In x ranked).
  { intros x Hx. apply list_elem_of_In. apply (subseteq_take limit ranked).
    now apply list_elem_of_In. }
  split; [|split; [|split; [|split]]].
  - apply Forall_map. apply List.Forall_forall. intros [k v] Hx. cbn.
    apply Htake, Hin in Hx. rewrite Hget in Hx.
    destruct (existsb (fun m => String.eqb (login (member m)) k)
                      (Organization.org_members o)) eqn:He; [|discriminate].
    injection Hx as <-. split; [|reflexivity].
    apply existsb_exists in He as (m & Hm & Hk). apply String.eqb_eq in Hk. eauto.
  - rewrite map_map. cbn.
    assert (Hnr : NoDup (map fst ranked)) by now rewrite Hperm.
    apply (sublist_NoDup _ (map fst ranked)); [exact Hnr|].
    apply (fmap_sublist fst), sublist_take.
  - rewrite map_map. cbn.
    apply (descending_map snd fst). now apply sorted_take.
  - rewrite length_map, length_take. lia.
  - intros Hlimit m Hm.
    assert (Hlen : (length ranked <= limit)%nat).
    { rewrite Hperm. rewrite <- (length_map fst), Hkeys, length_map. cbn in Hlen0. lia. }
    rewrite take_ge by exact Hlen.
    apply in_map_iff.
    exists (login (member m), Ranking.contributionsOf (login (member m))
                                (Organization.org_repos o)).
    split; [reflexivity|]. apply Hin. rewrite Hget.
    assert (He : existsb (fun m0 => String.eqb (login (member m0)) (login (member m)))
                         (Organization.org_members o) = true).
    { apply existsb_exists. exists m. split; [exact Hm | apply String.eqb_refl]. }
    now rewrite He.
Qed.

(** * The revision with the requests inline *)

Section InlineContributions.
Context {cal : Calendar} {engine : Engine}.

Lemma addStats_fold (year : Z) (ms : JsObject.t) (stats : list Contributor) :
  Inline.addStats year ms (Ok (Some stats)) =
  foldl (Aggregator.addContributor year) ms stats.
Proof. reflexivity. Qed.

(** What one answer adds under a login that reaches nothing of
    [Object.prototype]. *)
Lemma addStats_lookup (year : Z) (l : string) (ms : JsObject.t)
    (answer : Fetch (option (list Contributor))) :
  JsObject.ordinary l = true ->
  noTextAt ms l = true ->
  let stats := match answer with Ok (Some stats) => stats | _ => [] end in
  Inline.addStats year ms answer !! l =
    if existsb (Totals.authoredBy l) stats
    then Some (JsObject.Num (numberAt ms l +
                             Totals.sumOf (Totals.commitsInYear year)
                               (List.filter (Totals.authoredBy l) stats)))
    else ms !! l.
Proof.
  intros Hord Hnum stats. subst stats.
  destruct answer as [[stats|]|]; try reflexivity.
  rewrite addStats_fold. now apply addContributor_fold.
Qed.

Lemma batch_lookup (client : Inline.Client) (year : Z) (owner l : string)
    (batch : list Repo) :
  JsObject.ordinary l = true ->
  forall ms : JsObject.t,
    noTextAt ms l = true ->
    foldl (fun ms repo =>
             Inline.addStats year ms
               (Inline.getContributorsStats client owner (repo_name repo)))
          ms batch !! l =
    if existsb (Totals.authoredBy l) (Inline.answered client owner batch)
    then Some (JsObject.Num (numberAt ms l +
                             Totals.sumOf (Totals.commitsInYear year)
                               (List.filter (Totals.authoredBy l)
                                  (Inline.answered client owner batch))))
    else ms !! l.
Proof.
  intros Hord. induction batch as [|repo batch IH]; intros ms Hnum; [reflexivity|].
  cbn [foldl].
  pose proof (addStats_lookup year l ms
                (Inline.getContributorsStats client owner (repo_name repo))
                Hord Hnum) as Hone.
  cbn zeta in Hone.
  unfold Inline.answered. cbn [flat_map].
  fold (Inline.answered client owner batch).
  set (stats := match Inline.getContributorsStats client owner (repo_name repo) with
                | Ok (Some stats) => stats
                | _ => []
                end) in *.
  set (ms' := Inline.addStats year ms
                (Inline.getContributorsStats client owner (repo_name repo))) in *.
  assert (Hnum' : noTextAt ms' l = true).
  { unfold noTextAt in *. rewrite Hone.
    destruct (existsb (Totals.authoredBy l) stats); [reflexivity|exact Hnum]. }
  assert (Hat : numberAt ms' l =
                if existsb (Totals.authoredBy l) stats
                then numberAt ms l +
                     Totals.sumOf (Totals.commitsInYear year)
                       (List.filter (Totals.authoredBy l) stats)
                else numberAt ms l).
  { unfold numberAt at 1. rewrite Hone.
    destruct (existsb (Totals.authoredBy l) stats); reflexivity. }
  rewrite (IH ms' Hnum'), Hat, Hone.
  rewrite existsb_app, List.filter_app, sumOf_app.
  destruct (existsb (Totals.authoredBy l) stats) eqn:Hs;
    destruct (existsb (Totals.authoredBy l) (Inline.answered client owner batch)) eqn:Hb;
    cbn [orb]; try reflexivity.
  - f_equal. f_equal. lia.
  - f_equal. f_equal. rewrite (filter_nil_of_existsb _ _ Hb). cbn. lia.
  - f_equal. f_equal. rewrite (filter_nil_of_existsb _ _ Hs). cbn. lia.
Qed.

Lemma answered_app (client : Inline.Client) (owner : string) (l1 l2 : list Repo) :
  Inline.answered client owner (l1 ++ l2) =
  Inline.answered client owner l1 ++ Inline.answered client owner l2.
Proof. unfold Inline.answered. apply flat_map_app. Qed.

Lemma answered_Permutation (client : Inline.Client) (owner : string)
    (l1 l2 : list Repo) :
  Permutation l1 l2 ->
  Permutation (Inline.answered client owner l1) (Inline.answered client owner l2).
Proof.
  induction 1 as [|x l l' _ IH|x y l|l l' l'' _ IH1 _ IH2].
  - constructor.
  - unfold Inline.answered. cbn [flat_map]. now apply Permutation_app_head.
  - unfold Inline.answered. cbn [flat_map]. rewrite !app_assoc.
    apply Permutation_app_tail, Permutation_app_comm.
  - now transitivity (Inline.answered client owner l').
Qed.

Lemma batch_lookup_Permutation (client : Inline.Client) (year : Z)
    (owner l : string) (batch settled : list Repo) (ms : JsObject.t) :
  JsObject.ordinary l = true ->
  noTextAt ms l = true ->
  Permutation settled batch ->
  foldl (fun ms repo =>
           Inline.addStats year ms
             (Inline.getContributorsStats client owner (repo_name repo)))
        ms settled !! l =
  if existsb (Totals.authoredBy l) (Inline.answered client owner batch)
  then Some (JsObject.Num (numberAt ms l +
                           Totals.sumOf (Totals.commitsInYear year)
                             (List.filter (Totals.authoredBy l)
                                (Inline.answered client owner batch))))
  else ms !! l.
Proof.
  intros Hord Hnum Hperm. rewrite (batch_lookup _ _ _ _ _ Hord _ Hnum).
  pose proof (answered_Permutation client owner _ _ Hperm) as Hp.
  rewrite (existsb_Permutation _ _ _ Hp).
  now rewrite (sumOf_Permutation _ _ _ (filter_Permutation (Totals.authoredBy l) _ _ Hp)).
Qed.

Lemma runBatches_lookup (client : Inline.Client) (year : Z)
    (settleOrder : list Repo -> list Repo) (owner l : string) :
  JsObject.ordinary l = true ->
  (forall batch, Permutation (settleOrder batch) batch) ->
  forall (rounds : nat) (rest : list Repo) (ms : JsObject.t) (delays : list Z),
    noTextAt ms l = true ->
    (length rest <= rounds)%nat ->
    (Inline.runBatches rounds client year settleOrder owner rest ms delays).1 !! l =
    if existsb (Totals.authoredBy l) (Inline.answered client owner rest)
    then Some (JsObject.Num (numberAt ms l +
                             Totals.sumOf (Totals.commitsInYear year)
                               (List.filter (Totals.authoredBy l)
                                  (Inline.answered client owner rest))))
    else ms !! l.
Proof.
  intros Hord Hperm.
  induction rounds as [|rounds IH]; intros rest ms delays Hnum Hlen.
  - destruct rest; [reflexivity|cbn in Hlen; lia].
  - destruct rest as [|repo rest]; [reflexivity|].
    cbn [Inline.runBatches].
    set (all := repo :: rest) in *.
    pose proof (batch_lookup_Permutation client year owner l (take 5 all)
                  (settleOrder (take 5 all)) ms Hord Hnum (Hperm _)) as Hone.
    set (ms' := foldl (fun ms repo =>
                         Inline.addStats year ms
                           (Inline.getContributorsStats client owner (repo_name repo)))
                      ms (settleOrder (take 5 all))) in *.
    set (first := Inline.answered client owner (take 5 all)) in *.
    assert (Hnum' : noTextAt ms' l = true).
    { unfold noTextAt in *. rewrite Hone.
      destruct (existsb (Totals.authoredBy l) first); [reflexivity|exact Hnum]. }
    assert (Hat : numberAt ms' l =
                  if existsb (Totals.authoredBy l) first
                  then numberAt ms l +
                       Totals.sumOf (Totals.commitsInYear year)
                         (List.filter (Totals.authoredBy l) first)
                  else numberAt ms l).
    { unfold numberAt at 1. rewrite Hone.
      destruct (existsb (Totals.authoredBy l) first); reflexivity. }
    rewrite (IH _ ms' _ Hnum').
    2:{ rewrite length_drop. subst all. cbn [length] in *. lia. }
    rewrite Hat, Hone.
    assert (Hsplit : Inline.answered client owner all =
                     first ++ Inline.answered client owner (drop 5 all)).
    { subst first. now rewrite <- answered_app, take_drop. }
    rewrite Hsplit, existsb_app, List.filter_app, sumOf_app.
    destruct (existsb (Totals.authoredBy l) first) eqn:Ht;
      destruct (existsb (Totals.authoredBy l)
                  (Inline.answered client owner (drop 5 all))) eqn:Hd;
      cbn [orb]; try reflexivity.
    + f_equal. f_equal. lia.
    + f_equal. f_equal. rewrite (filter_nil_of_existsb _ _ Hd). cbn. lia.
    + f_equal. f_equal. rewrite (filter_nil_of_existsb _ _ Ht). cbn. lia.
Qed.

(** A login that no answered entry carries is left as it is. *)
Lemma batch_other (client : Inline.Client) (year : Z) (owner l : string)
    (batch : list Repo) :
  existsb (Totals.authoredBy l) (Inline.answered client owner batch) = false ->
  forall ms : JsObject.t,
    foldl (fun ms repo =>
             Inline.addStats year ms
               (Inline.getContributorsStats client owner (repo_name repo)))
          ms batch !! l = ms !! l.
Proof.
  induction batch as [|repo batch IH]; intros He ms; [reflexivity|].
  unfold Inline.answered in He. cbn [flat_map] in He.
  fold (Inline.answered client owner batch) in He.
  rewrite existsb_app in He. apply orb_false_iff in He as [Hrepo He].
  cbn [foldl]. rewrite (IH He).
  destruct (Inline.getContributorsStats client owner (repo_name repo))
    as [[stats|]|]; try reflexivity.
  rewrite addStats_fold. now apply addContributor_fold_other.
Qed.

Lemma runBatches_other (client : Inline.Client) (year : Z)
    (settleOrder : list Repo -> list Repo) (owner l : string) :
  (forall batch, Permutation (settleOrder batch) batch) ->
  forall (rounds : nat) (rest : list Repo) (ms : JsObject.t) (delays : list Z),
    existsb (Totals.authoredBy l) (Inline.answered client owner rest) = false ->
    (Inline.runBatches rounds client year settleOrder owner rest ms delays).1 !! l =
    ms !! l.
Proof.
  intros Hperm.
  induction rounds as [|rounds IH]; intros rest ms delays He; [reflexivity|].
  destruct rest as [|repo rest]; [reflexivity|].
  cbn [Inline.runBatches].
  set (all := repo :: rest) in *.
  assert (Hsplit : Inline.answered client owner all =
                   Inline.answered client owner (take 5 all) ++
                   Inline.answered client owner (drop 5 all)).
  { now rewrite <- answered_app, take_drop. }
  rewrite Hsplit, existsb_app in He. apply orb_false_iff in He as [Ht Hd].
  rewrite (IH _ _ _ Hd). apply batch_other.
  now rewrite (existsb_Permutation _ _ _
                 (answered_Permutation client owner _ _ (Hperm (take 5 all)))).
Qed.

Lemma runBatches_delays (client : Inline.Client) (year : Z)
    (settleOrder : list Repo -> list Repo) (owner : string) :
  forall (rounds : nat) (rest : list Repo) (ms : JsObject.t) (delays : list Z),
    (length rest <= rounds)%nat ->
    (Inline.runBatches rounds client year settleOrder owner rest ms delays).2 =
    delays ++ replicate ((length rest - 1) / 5) 1000.
Proof.
  induction rounds as [|rounds IH]; intros rest ms delays Hlen.
  - destruct rest; [cbn; now rewrite app_nil_r|cbn in Hlen; lia].
  - destruct rest as [|repo rest]; [cbn; now rewrite app_nil_r|].
    cbn [Inline.runBatches].
    set (all := repo :: rest) in *.
    assert (Hall : (1 <= length all)%nat) by (subst all; cbn; lia).
    rewrite IH.
    2:{ rewrite length_drop. lia. }
    destruct (drop 5 all) as [|y rest'] eqn:Hdrop.
    + assert (Hle : (length all <= 5)%nat).
      { apply (f_equal length) in Hdrop. rewrite length_drop in Hdrop.
        change (length (@nil Repo)) with 0%nat in Hdrop. lia. }
      cbn [length]. f_equal.
      replace ((0 - 1) / 5)%nat with 0%nat by reflexivity.
      replace ((length all - 1) / 5)%nat with 0%nat; [reflexivity|].
      symmetry. apply Nat.div_small. lia.
    + assert (Hlen' : length all = (5 + length (y :: rest'))%nat).
      { rewrite <- Hdrop, length_drop.
        apply (f_equal length) in Hdrop. rewrite length_drop in Hdrop.
        cbn [length] in Hdrop. lia. }
      rewrite <- app_assoc. f_equal.
      replace ((length all - 1) / 5)%nat
        with (S ((length (y :: rest') - 1) / 5))%nat.
      * reflexivity.
      * rewrite Hlen'.
        replace (5 + length (y :: rest') - 1)%nat
          with ((length (y :: rest') - 1) + 1 * 5)%nat by (cbn [length]; lia).
        rewrite Nat.div_add by lia. lia.
Qed.

(** X23: under every login that reaches nothing of [Object.prototype] and
    that some answered statistics entry carries, [getMemberContributions]
    holds the commits that the entries with that login record for the weeks
    of the current year, added up over the repositories; it holds nothing
    under a login that no answered entry carries.  Repositories whose
    request fails or carries no array add nothing, and what is held under
    such a login does not depend on the order in which the requests of a
    batch settle.  One delay of 1000 ms is taken between two batches of
    five, none after the last. *)
Theorem getMemberContributions_totals_and_delays
    (client : Inline.Client) (now : Z) (settleOrder : list Repo -> list Repo)
    (owner : string) (repos : list Repo) :
  (forall batch, Permutation (settleOrder batch) batch) ->
  let outcome := Inline.getMemberContributions client now settleOrder owner repos in
  (forall l : string,
     JsObject.ordinary l = true ->
     outcome.1 !! l =
     if existsb (Totals.authoredBy l) (Inline.answered client owner repos)
     then Some (JsObject.Num
                  (Totals.sumOf (Totals.commitsInYear (getFullYear now))
                     (List.filter (Totals.authoredBy l)
                        (Inline.answered client owner repos))))
     else None) /\
  (forall l : string,
     existsb (Totals.authoredBy l) (Inline.answered client owner repos) = false ->
     outcome.1 !! l = None) /\
  outcome.2 = replicate ((length repos - 1) / 5) 1000.
Proof.
  intros Hperm outcome. subst outcome. unfold Inline.getMemberContributions.
  split; [|split].
  - intros l Hord.
    rewrite (runBatches_lookup client _ settleOrder owner l Hord Hperm)
      by (try apply noTextAt_empty; lia).
    rewrite numberAt_empty, empty_lookup.
    destruct (existsb _ _); [f_equal; f_equal; lia|reflexivity].
  - intros l He.
    rewrite (runBatches_other client _ settleOrder owner l Hperm) by exact He.
    apply empty_lookup.
  - now rewrite runBatches_delays by lia.
Qed.

End InlineContributions.

Section SentRequests.
Context {A : Type} (method : Paginator.PageRequest -> Fetch (Paginator.Response A)).

Lemma loop_sends_its_page (fuel : nat) :
  forall (allData : list A) (p : Z) (sent sent' : list Paginator.PageRequest)
         (r : Fetch (list A)),
    Paginator.loop method fuel allData p sent = Some (r, sent') ->
    exists rest, sent' = sent ++ Paginator.request p :: rest.
Proof.
  induction fuel as [|fuel IH]; intros allData p sent sent' r; [discriminate|].
  cbn [Paginator.loop]. cbv zeta.
  destruct (method (Paginator.request p)) as [response|].
  - destruct (Paginator.hasNext (Paginator.link response)).
    + intros Hloop. destruct (IH _ _ _ _ _ Hloop) as (rest & ->).
      rewrite <- app_assoc. cbn [app]. eauto.
    + intros [= <- <-]. now exists [].
  - intros [= <- <-]. now exists [].
Qed.

Lemma sentBy_first_page (fuel : nat) :
  Paginator.getAllPages method fuel <> None ->
  In (Paginator.request 1) (sentBy method fuel).
Proof.
  unfold sentBy, Paginator.getAllPages. intros Hsome.
  destruct (Paginator.loop method fuel [] 1 []) as [[r sent']|] eqn:Hloop;
    [|congruence].
  destruct (loop_sends_its_page _ _ _ _ _ _ Hloop) as (rest & ->).
  now left.
Qed.

End SentRequests.

Lemma visit_all (client : Inline.Client) (fuel : nat) (orgName : string)
    (sinceYear : Z) (onProgress : bool) (total : Z) :
  forall (todo : list Repo) (ownRepos : list Inline.RepoEntry) (processed : Z)
         (log : list (Z * Z)) (sent : list Inline.Call),
    (forall repo, In repo todo ->
       Paginator.getAllPages
         (Inline.listContributors client orgName (repo_name repo)) fuel <> None /\
       Paginator.getAllPages
         (Inline.listCommits client orgName (repo_name repo) sinceYear) fuel <> None) ->
    Inline.visit client fuel orgName sinceYear onProgress total todo
                 ownRepos processed log sent =
    Some (ownRepos ++ map (entryOf client fuel orgName sinceYear)
                          (Totals.ownRepos todo),
          log ++ (if onProgress
                  then map (fun k => (processed + Z.of_nat k, total))
                           (seq 1 (length todo))
                  else []),
          sent ++ flat_map (requestsFor client fuel orgName sinceYear) todo).
Proof.
  induction todo as [|repo todo IH]; intros ownRepos processed log sent Hret.
  - cbn. destruct onProgress; now rewrite !app_nil_r.
  - destruct (Hret repo (or_introl eq_refl)) as [Hc Hn].
    cbn [Inline.visit]. cbv zeta.
    assert (Hboth :
      Inline.both
        (fst <$> Inline.getContributors client fuel orgName (repo_name repo))
        (fst <$> Inline.getCommits client fuel orgName (repo_name repo) sinceYear) =
      Some (Ok (Inline.re_contributors (entryOf client fuel orgName sinceYear repo),
                default 0 (Inline.re_commitCount
                             (entryOf client fuel orgName sinceYear repo)))) /\
      default [] (snd <$> Inline.getContributors client fuel orgName (repo_name repo))
        ++ default []
             (snd <$> Inline.getCommits client fuel orgName (repo_name repo) sinceYear)
      = requestsFor client fuel orgName sinceYear repo).
    { unfold Inline.getContributors, Inline.getCommits, entryOf, requestsFor, sentBy.
      cbn [Inline.re_contributors Inline.re_commitCount default].
      destruct (Paginator.getAllPages
                  (Inline.listContributors client orgName (repo_name repo)) fuel)
        as [[[cs|] sentC]|]; [| |congruence];
        destruct (Paginator.getAllPages
                    (Inline.listCommits client orgName (repo_name repo) sinceYear) fuel)
          as [[[ns|] sentN]|]; try congruence; split; reflexivity. }
    destruct Hboth as [Hboth Hsent].
    rewrite Hboth, Hsent.
    rewrite IH by (intros r Hr; apply Hret; now right).
    assert (Hown :
      (if negb (fork repo)
       then ownRepos ++
            [ {| Inline.re_name := repo_name repo;
                 Inline.re_stars := stargazers_count repo;
                 Inline.re_contributors :=
                   Inline.re_contributors (entryOf client fuel orgName sinceYear repo);
                 Inline.re_commitCount :=
                   Some (default 0 (Inline.re_commitCount
                                      (entryOf client fuel orgName sinceYear repo))) |} ]
       else ownRepos) ++
      map (entryOf client fuel orgName sinceYear) (Totals.ownRepos todo) =
      ownRepos ++ map (entryOf client fuel orgName sinceYear)
                      (Totals.ownRepos (repo :: todo))).
    { unfold Totals.ownRepos. cbn [List.filter].
      destruct (fork repo); cbn [negb map]; [reflexivity|].
      now rewrite <- app_assoc. }
    rewrite Hown. cbn [flat_map]. rewrite <- !app_assoc.
    f_equal. f_equal. f_equal.
    destruct onProgress; [|reflexivity].
    rewrite <- app_assoc. f_equal.
    cbn [app length seq map].
    replace (processed + Z.of_nat 1) with (processed + 1) by lia.
    f_equal.
    rewrite <- (seq_shift (length todo) 1), map_map.
    apply map_ext. intros k. f_equal. lia.
Qed.

(** X24: when the listing of the organisation succeeds and the paginations
    for its repositories return, [getRepositories] fulfils with one entry
    for each repository that is not a fork, in the order of the listing; a
    failed pagination of contributors or commits leaves [[]] or 0 in the
    entry and never drops it, so every entry has a commit count.  Forks are
    fetched too, and counted by the progress callback: for every listed
    repository, fork or not, the first page of its contributors and the
    first page of its commits are requested, and the calls of the callback
    are (1, n), ..., (n, n) for all the n listed repositories. *)
Theorem getRepositories_lists_own_repositories_and_counts_all
    (client : Inline.Client) (fuel : nat) (orgName : string) (sinceYear : Z)
    (allRepos : list Repo) (sent : list Paginator.PageRequest) :
  Paginator.getAllPages (Inline.listForOrg client orgName) fuel
    = Some (Ok allRepos, sent) ->
  (forall repo, In repo allRepos ->
     Paginator.getAllPages
       (Inline.listContributors client orgName (repo_name repo)) fuel <> None /\
     Paginator.getAllPages
       (Inline.listCommits client orgName (repo_name repo) sinceYear) fuel <> None) ->
  let sentRequests :=
    map (Inline.ListForOrg orgName) sent ++
    flat_map (requestsFor client fuel orgName sinceYear) allRepos in
  Inline.getRepositories client fuel orgName sinceYear true =
    Some {| Inline.outcome :=
              Ok (map (entryOf client fuel orgName sinceYear)
                      (Totals.ownRepos allRepos));
            Inline.progressCalls :=
              map (fun k => (Z.of_nat k, len allRepos)) (seq 1 (length allRepos));
            Inline.requests := sentRequests |} /\
  Inline.getRepositories client fuel orgName sinceYear false =
    Some {| Inline.outcome :=
              Ok (map (entryOf client fuel orgName sinceYear)
                      (Totals.ownRepos allRepos));
            Inline.progressCalls := [];
            Inline.requests := sentRequests |} /\
  (forall repo, In repo allRepos ->
     In (Inline.ListContributors orgName (repo_name repo) (Paginator.request 1))
        sentRequests /\
     In (Inline.ListCommits orgName (repo_name repo) sinceYear (Paginator.request 1))
        sentRequests).
Proof.
  intros Hlist Hret sentRequests. subst sentRequests.
  unfold Inline.getRepositories. rewrite Hlist.
  rewrite !visit_all by exact Hret. cbn [app].
  split; [reflexivity|]. split; [reflexivity|].
  intros repo Hin. destruct (Hret repo Hin) as [Hc Hn].
  assert (Hfor : forall call, In call (requestsFor client fuel orgName sinceYear repo) ->
            In call (map (Inline.ListForOrg orgName) sent ++
                     flat_map (requestsFor client fuel orgName sinceYear) allRepos)).
  { intros call Hcall. apply in_or_app. right. apply in_flat_map. eauto. }
  split; apply Hfor; unfold requestsFor; apply in_or_app.
  - left. apply in_map. now apply sentBy_first_page.
  - right. apply in_map. now apply sentBy_first_page.
Qed.

(** * The additional properties on the sample data *)

Lemma failure_discards_on_second_page_failure :
  Paginator.getAllPages SampleServers.secondPageFails 5 =
    Some (Err, map Paginator.request (Paginator.pages 2)).
Proof.
  refine (getAllPages_failure_discards_earlier_pages
            SampleServers.secondPageFails 2 5 _ _ _ _).
  - lia.
  - lia.
  - intros p Hp. assert (Hp1 : p = 1) by lia. subst p. split; reflexivity.
  - reflexivity.
Defined.

Lemma never_returns_on_endless_server :
  Paginator.getAllPages SampleServers.endless 50 = None.
Proof.
  refine (getAllPages_never_returns_while_linked SampleServers.endless _ 50).
  intros p _. split; reflexivity.
Defined.

Lemma result_is_complete_on_three_pages :
  exists n : nat,
    (1 <= n <= 5)%nat /\
    [Paginator.request 1; Paginator.request 2; Paginator.request 3]
      = map Paginator.request (Paginator.pages n) /\
    [1; 10; 2; 20; 30]
      = concat (map (Paginator.pageData Sample.threePages) (Paginator.pages n)) /\
    (forall p, 1 <= p < Z.of_nat n ->
       Paginator.pageHasNext Sample.threePages p = true) /\
    Paginator.pageOk Sample.threePages (Z.of_nat n) = true /\
    Paginator.pageHasNext Sample.threePages (Z.of_nat n) = false.
Proof.
  refine (getAllPages_result_is_complete Sample.threePages 5 [1; 10; 2; 20; 30]
            [Paginator.request 1; Paginator.request 2; Paginator.request 3] _).
  vm_compute. reflexivity.
Defined.

Lemma retry_returns_on_ready_at_third :
  Gateway.getContributorStats SampleServers.readyAtThird =
    ([Sample.alice],
     [Gateway.Request; Gateway.Delay 1000; Gateway.Request; Gateway.Delay 1000;
      Gateway.Request]).
Proof.
  refine (retry_returns_the_first_settled_answer SampleServers.readyAtThird 2
            {| Gateway.status := 200; Gateway.body := Some [Sample.alice] |} _ _ _ _).
  - lia.
  - intros j Hj. exists {| Gateway.status := 202; Gateway.body := None |}.
    assert (Hcases : j = 0%nat \/ j = 1%nat) by lia.
    destruct Hcases as [-> | ->]; split; reflexivity.
  - reflexivity.
  - right. cbn. lia.
Defined.

Lemma cache_evicts_on_other_organization :
  Cache.getFromCache (Sample.now + 1000) "umbrella"
    (Cache.saveToCache Sample.now "acme" SampleReports.small None) = (None, None) /\
  Cache.getFromCache (Sample.now + 2000) "acme"
    (Cache.getFromCache (Sample.now + 1000) "umbrella"
       (Cache.saveToCache Sample.now "acme" SampleReports.small None)).2
    = (None, None).
Proof.
  refine (cache_read_under_another_key_evicts Sample.now (Sample.now + 1000)
            (Sample.now + 2000) "acme" "umbrella" SampleReports.small None _).
  discriminate.
Defined.

Lemma listing_failure_on_sample_organization :
  let o := @Aggregator.getOrganization utc Sample.engine SampleOrganizations.noListing
             Sample.now Sample.now [] None "acme" true in
  Aggregator.result o = Err /\
  Aggregator.store' o = (CacheManager.get Sample.now "acme" None).2 /\
  Aggregator.progress o = [] /\
  Aggregator.network o =
    [Aggregator.CallMembers "acme"; Aggregator.CallRepos "acme"].
Proof.
  refine (@getOrganization_listing_failure_is_fatal utc Sample.engine SampleOrganizations.noListing
            Sample.now Sample.now [] None "acme" true _ _).
  - reflexivity.
  - right. reflexivity.
Defined.


Lemma progress_on_sample_organization :
  Aggregator.progress Sample.run = [(1, 2); (2, 2)] /\
  Aggregator.progress
    (@Aggregator.getOrganization utc Sample.engine Sample.api Sample.now Sample.now
       [1%nat; 0%nat] None "acme" false) = [].
Proof.
  refine (@getOrganization_progress_counts_every_own_repository utc Sample.engine
            Sample.api Sample.now Sample.now [1%nat; 0%nat] None "acme"
            [ {| login := "alice" |} ]
            [Sample.repoNamed "a" false; Sample.repoNamed "f" true;
             Sample.repoNamed "b" false] _ _ _ _).
  - reflexivity.
  - reflexivity.
  - reflexivity.
  - apply perm_swap.
Defined.

Lemma listed_repositories_on_sample_organization :
  exists report,
    Aggregator.result Sample.run = Ok report /\
    map (fun r => (name r, stars r)) (repos report) = [("b", 3)] /\
    (length (repos report) <= 3)%nat.
Proof.
  refine (@getOrganization_report_lists_settled_own_repositories utc Sample.engine
            Sample.api Sample.now Sample.now [1%nat; 0%nat] None "acme" true
            [ {| login := "alice" |} ]
            [Sample.repoNamed "a" false; Sample.repoNamed "f" true;
             Sample.repoNamed "b" false] _ _ _).
  - reflexivity.
  - reflexivity.
  - reflexivity.
Defined.

Lemma member_contributions_on_sample_organization :
  let repoStats :=
    @Totals.collected utc Sample.engine Sample.api "acme" (@getFullYear utc Sample.now)
      [Sample.repoNamed "a" false; Sample.repoNamed "f" true;
       Sample.repoNamed "b" false] in
  exists report,
    Aggregator.result Sample.run = Ok report /\
    map member (members report) = [ {| login := "alice" |} ] /\
    (forall e, In e (members report) ->
       JsObject.ordinary (login (member e)) = true ->
       contributions e =
         JsObject.Own (JsObject.Num
           (@Totals.commitsOf utc (@getFullYear utc Sample.now)
              (login (member e)) repoStats))) /\
    (forall e, In e (members report) ->
       JsObject.ordinary (login (member e)) = true ->
       List.filter (Totals.authoredBy (login (member e)))
                   (Totals.allContributors repoStats) = [] ->
       contributions e = JsObject.Own (JsObject.Num 0)) /\
    (forall e, In e (members report) ->
       JsObject.inherits (login (member e)) = true ->
       List.filter (Totals.authoredBy (login (member e)))
                   (Totals.allContributors repoStats) = [] ->
       contributions e = JsObject.Inherited (login (member e))).
Proof.
  refine (@getOrganization_member_contributions utc Sample.engine
            Sample.api Sample.now Sample.now [1%nat; 0%nat] None "acme" true
            [ {| login := "alice" |} ]
            [Sample.repoNamed "a" false; Sample.repoNamed "f" true;
             Sample.repoNamed "b" false] _ _ _).
  - reflexivity.
  - reflexivity.
  - reflexivity.
Defined.

Lemma monthly_series_on_sample_organization :
  let repoStats :=
    @Totals.collected utc Sample.engine Sample.api "acme" (@getFullYear utc Sample.now)
      [Sample.repoNamed "a" false; Sample.repoNamed "f" true;
       Sample.repoNamed "b" false] in
  let series rs := Aggregator.i_monthlyStats (Aggregator.issues rs) in
  exists report,
    Aggregator.result Sample.run = Ok report /\
    length (monthlyIssueStats report) = 12%nat /\
    forall m : nat,
      opened (Monthly.slot (monthlyIssueStats report) m) =
        Totals.sumOf (fun rs => opened (Monthly.slot (series rs) m)) repoStats /\
      closed (Monthly.slot (monthlyIssueStats report) m) =
        Totals.sumOf (fun rs => closed (Monthly.slot (series rs) m)) repoStats /\
      total (Monthly.slot (monthlyIssueStats report) m) =
        Totals.sumOf (fun rs => total (Monthly.slot (series rs) m)) repoStats.
Proof.
  refine (@getOrganization_monthly_series_is_the_sum_over_repositories utc Sample.engine
            Sample.api Sample.now Sample.now [1%nat; 0%nat] None "acme" true
            [ {| login := "alice" |} ]
            [Sample.repoNamed "a" false; Sample.repoNamed "f" true;
             Sample.repoNamed "b" false] _ _ _).
  - reflexivity.
  - reflexivity.
  - reflexivity.
Defined.

Lemma yearly_totals_on_sample_organization :
  exists report,
    Aggregator.result Sample.run = Ok report /\
    commits (yearlyStats report) = Totals.sumOf commitCount (repos report) /\
    issues_closed (yearlyStats report) = Totals.sumOf closedIssues (repos report).
Proof.
  refine (@getOrganization_yearly_totals_match_repository_entries utc Sample.engine
            Sample.api Sample.now Sample.now [1%nat; 0%nat] None "acme" true
            [ {| login := "alice" |} ]
            [Sample.repoNamed "a" false; Sample.repoNamed "f" true;
             Sample.repoNamed "b" false] _ _ _).
  - reflexivity.
  - reflexivity.
  - reflexivity.
Defined.

Lemma closed_within_opened_on_sample_organization :
  exists report,
    Aggregator.result Sample.run = Ok report /\
    0 <= issues_closed (yearlyStats report) <= issues_opened (yearlyStats report) /\
    0 <= pullRequests_closed (yearlyStats report)
      <= pullRequests_opened (yearlyStats report) /\
    Forall (fun r => 0 <= closedIssues r) (repos report).
Proof.
  refine (@getOrganization_closed_never_exceeds_opened utc Sample.engine
            Sample.api Sample.now Sample.now [1%nat; 0%nat] None "acme" true
            [ {| login := "alice" |} ]
            [Sample.repoNamed "a" false; Sample.repoNamed "f" true;
             Sample.repoNamed "b" false] _ _ _).
  - reflexivity.
  - reflexivity.
  - reflexivity.
Defined.

Lemma columns_on_tidy_issues :
  let series :=
    @StatsCalculator.calculateMonthlyIssueStats utc SampleReports.tidyIssues 2024 in
  let plain := Monthly.plainIssues SampleReports.tidyIssues in
  opened (Monthly.slot series 1) =
    len (List.filter (@Monthly.createdIn utc 2024 1) plain) /\
  closed (Monthly.slot series 1) =
    len (List.filter (fun i => @Monthly.known utc 2024 i &&
                               @Monthly.closedIn utc 2024 1 i) plain) /\
  total (Monthly.slot series 1) =
    if existsb (@Monthly.createdUpTo utc 2024 1) plain
    then @Monthly.runningAfter utc SampleReports.tidyIssues 2024 1 else 0.
Proof.
  refine (@calculateMonthlyIssueStats_columns utc utc_laws
            SampleReports.tidyIssues 2024 1 _).
  lia.
Defined.

Lemma input_order_on_tidy_issues :
  @StatsCalculator.calculateMonthlyIssueStats utc SampleReports.tidyIssues 2024 =
  @StatsCalculator.calculateMonthlyIssueStats utc (rev SampleReports.tidyIssues) 2024.
Proof.
  refine (@calculateMonthlyIssueStats_ignores_input_order utc utc_laws
            SampleReports.tidyIssues (rev SampleReports.tidyIssues) 2024 _).
  apply Permutation_rev.
Defined.

Lemma member_contributions_on_seven_repositories :
  let outcome :=
    @Inline.getMemberContributions utc Sample.engine SampleOrganizations.client
      Sample.now (@rev Repo) "acme" SampleOrganizations.sevenRepos in
  (forall l : string,
     JsObject.ordinary l = true ->
     outcome.1 !! l =
     if existsb (Totals.authoredBy l)
          (Inline.answered SampleOrganizations.client "acme"
             SampleOrganizations.sevenRepos)
     then Some (JsObject.Num
                  (Totals.sumOf (@Totals.commitsInYear utc (@getFullYear utc Sample.now))
                     (List.filter (Totals.authoredBy l)
                        (Inline.answered SampleOrganizations.client "acme"
                           SampleOrganizations.sevenRepos))))
     else None) /\
  (forall l : string,
     existsb (Totals.authoredBy l)
       (Inline.answered SampleOrganizations.client "acme"
          SampleOrganizations.sevenRepos) = false ->
     outcome.1 !! l = None) /\
  outcome.2 = [1000].
Proof.
  refine (@getMemberContributions_totals_and_delays utc Sample.engine
            SampleOrganizations.client Sample.now (@rev Repo) "acme"
            SampleOrganizations.sevenRepos _).
  intros batch. symmetry. apply Permutation_rev.
Defined.

Lemma own_repositories_on_sample_client :
  let sentRequests :=
    [Inline.ListForOrg "acme" (Paginator.request 1);
     Inline.ListContributors "acme" "a" (Paginator.request 1);
     Inline.ListCommits "acme" "a" 2024 (Paginator.request 1);
     Inline.ListContributors "acme" "f" (Paginator.request 1);
     Inline.ListCommits "acme" "f" 2024 (Paginator.request 1);
     Inline.ListContributors "acme" "b" (Paginator.request 1);
     Inline.ListCommits "acme" "b" 2024 (Paginator.request 1)] in
  let entries :=
    [ {| Inline.re_name := "a"; Inline.re_stars := 3;
         Inline.re_contributors := [];
         Inline.re_commitCount := Some 2 |};
      {| Inline.re_name := "b"; Inline.re_stars := 3;
         Inline.re_contributors :=
           [ {| ce_login := "alice"; ce_contributions := 7 |} ];
         Inline.re_commitCount := Some 2 |} ] in
  Inline.getRepositories SampleOrganizations.client 5 "acme" 2024 true =
    Some {| Inline.outcome := Ok entries;
            Inline.progressCalls := [(1, 3); (2, 3); (3, 3)];
            Inline.requests := sentRequests |} /\
  Inline.getRepositories SampleOrganizations.client 5 "acme" 2024 false =
    Some {| Inline.outcome := Ok entries;
            Inline.progressCalls := [];
            Inline.requests := sentRequests |} /\
  (forall repo,
     In repo [Sample.repoNamed "a" false; Sample.repoNamed "f" true;
              Sample.repoNamed "b" false] ->
     In (Inline.ListContributors "acme" (repo_name repo) (Paginator.request 1))
        sentRequests /\
     In (Inline.ListCommits "acme" (repo_name repo) 2024 (Paginator.request 1))
        sentRequests).
Proof.
  refine (getRepositories_lists_own_repositories_and_counts_all
            SampleOrganizations.client 5 "acme" 2024
            [Sample.repoNamed "a" false; Sample.repoNamed "f" true;
             Sample.repoNamed "b" false]
            [Paginator.request 1] _ _).
  - reflexivity.
  - intros repo [<-|[<-|[<-|[]]]]; split; discriminate.
Defined.

Lemma counts_add_up_on_sample_pull_requests :
  let prs := [closedOn "feature/login"; closedOn "Feature/logout"; closedOn "hotfix";
              {| pr_state := "open"; pr_head := Some {| ref := Some "constructor/x" |};
                 pr_created_at := 0 |}] in
  histogramTotal (@StatsCalculator.categorizePRTypes Sample.engine prs) =
    len (List.filter StatsCalculator.isClosed prs) /\
  (forall t p, @StatsCalculator.categorizePRTypes Sample.engine prs !! t = Some p ->
               exists n, p = JsObject.Num n /\ 1 <= n) /\
  (forall t, is_Some (@StatsCalculator.categorizePRTypes Sample.engine prs !! t) <->
             exists pr, In pr prs /\ StatsCalculator.isClosed pr = true /\
                        @StatsCalculator.prType Sample.engine pr = t).
Proof.
  refine (@categorizePRTypes_counts_add_up_to_the_closed Sample.engine
            [closedOn "feature/login"; closedOn "Feature/logout"; closedOn "hotfix";
             {| pr_state := "open"; pr_head := Some {| ref := Some "constructor/x" |};
                pr_created_at := 0 |}] _).
  reflexivity.
Defined.
